(** * matchbox.functional: the masked-batch algebra

    A shallow embedding of [src/matchbox/functional.py] together with the
    part of the torch tensor interface the module calls.  Tensors are dense
    row-major arrays of integers; where a property depends on infinities or
    NaN, the functions it is about are embedded a second time over
    floating-point elements.  Python exceptions are values of an error type
    threaded through a small result monad. *)

From Stdlib Require Import String ZArith List Lia Bool.
Import ListNotations.

(** ** Python: exceptions, calls, tuples *)

Module Py.

Inductive exn : Type :=
| ValueError
| NotImplementedError
| TypeError
| NameError
| IndexError
| AttributeError
| RuntimeError.

Inductive result (A : Type) : Type :=
| Ok (a : A)
| Raise (e : exn).

Arguments Ok {A} a.
Arguments Raise {A} e.

Definition bind {A B} (r : result A) (k : A -> result B) : result B :=
  match r with
  | Ok a => k a
  | Raise e => Raise e
  end.

(** [t[i]] on a tuple: negative positions count from the end, positions
    outside the tuple raise [IndexError]. *)
Definition tuple_get {A} (t : list A) (i : Z) : result A :=
  let n := Z.of_nat (length t) in
  let j := if (i <? 0)%Z then (i + n)%Z else i in
  if ((j <? 0) || (n <=? j))%Z then Raise IndexError
  else match nth_error t (Z.to_nat j) with
       | Some a => Ok a
       | None => Raise IndexError
       end.

(** A reference to a name that neither the function's locals nor the
    module's globals bind raises [NameError]. *)
Definition name_lookup (scope : list string) (x : string) : result unit :=
  if existsb (String.eqb x) scope then Ok tt else Raise NameError.

(** [enumerate]. *)
Fixpoint enumerate_from {A} (k : nat) (l : list A) : list (nat * A) :=
  match l with
  | [] => []
  | a :: l' => (k, a) :: enumerate_from (S k) l'
  end.

Definition enumerate {A} (l : list A) : list (nat * A) := enumerate_from 0 l.

(** The items of a subscript: an integer, a [slice(start, stop, step)]
    whose absent parts are [None], or [None] itself. *)
Inductive index_item : Type :=
| IInt (i : Z)
| ISlice (start stop step : option Z)
| INone.

End Py.

Import Py.

Notation "x <- c1 ;; c2" := (Py.bind c1 (fun x => c2))
  (at level 61, c1 at next level, right associativity).

(** ** Dense tensors *)

Module Tensor.

(** A tensor is its list of extents and its elements in row-major order.
    The elements are whole numbers; tensors that can hold infinities and NaN
    are those of [Floating] further down. *)
Record tensor : Type := mkTensor { shape : list nat; elems : list Z }.

Definition numel (sh : list nat) : nat := fold_right Nat.mul 1 sh.

Definition rank (t : tensor) : nat := length (shape t).

(** Position of a multi-index in the row-major layout. *)
Fixpoint offset (sh idx : list nat) : nat :=
  match sh, idx with
  | _ :: sh', i :: idx' => i * numel sh' + offset sh' idx'
  | _, _ => 0
  end.

(** All multi-indices of a shape, in row-major order. *)
Fixpoint indices (sh : list nat) : list (list nat) :=
  match sh with
  | [] => [[]]
  | n :: sh' => flat_map (fun i => map (cons i) (indices sh')) (seq 0 n)
  end.

Fixpoint in_range (sh idx : list nat) : bool :=
  match sh, idx with
  | [], [] => true
  | n :: sh', i :: idx' => (i <? n) && in_range sh' idx'
  | _, _ => false
  end.

Definition get (t : tensor) (idx : list nat) : Z :=
  nth (offset (shape t) idx) (elems t) 0%Z.

Definition tabulate (sh : list nat) (f : list nat -> Z) : tensor :=
  mkTensor sh (map f (indices sh)).

(** [t.new(sizes).fill_(v)]: a fresh tensor of the given extents, filled. *)
Definition full (sh : list nat) (v : Z) : tensor := tabulate sh (fun _ => v).


Fixpoint shape_eqb (s1 s2 : list nat) : bool :=
  match s1, s2 with
  | [], [] => true
  | a :: s1', b :: s2' => (a =? b) && shape_eqb s1' s2'
  | _, _ => false
  end.

Definition zip_with {A B C} (f : A -> B -> C) (l1 : list A) (l2 : list B) : list C :=
  map (fun p => f (fst p) (snd p)) (combine l1 l2).

Definition sum_list (l : list Z) : Z := fold_right Z.add 0%Z l.

End Tensor.

Import Tensor.

(** ** torch: the operations the module calls *)

Module Torch.

(** *** Broadcasting *)

(** Shapes are aligned at their trailing axes; a missing leading axis counts
    as extent 1, and an extent 1 stretches to the other operand's extent. *)
Definition pad_left (r : nat) (sh : list nat) : list nat :=
  repeat 1 (r - length sh) ++ sh.

Fixpoint broadcast_aligned (s1 s2 : list nat) : option (list nat) :=
  match s1, s2 with
  | [], [] => Some []
  | a :: s1', b :: s2' =>
      match broadcast_aligned s1' s2' with
      | Some s =>
          if a =? b then Some (a :: s)
          else if a =? 1 then Some (b :: s)
          else if b =? 1 then Some (a :: s)
          else None
      | None => None
      end
  | _, _ => None
  end.

Definition broadcast_shapes (s1 s2 : list nat) : option (list nat) :=
  let r := Nat.max (length s1) (length s2) in
  broadcast_aligned (pad_left r s1) (pad_left r s2).

(** The position an operand of shape [sh] contributes to position [idx] of
    the broadcast result. *)
Definition broadcast_index (sh idx : list nat) : list nat :=
  zip_with (fun n i => if n =? 1 then 0 else i) sh
           (skipn (length idx - length sh) idx).

Definition pointwise2 (op : Z -> Z -> Z) (a b : tensor) : result tensor :=
  match broadcast_shapes (shape a) (shape b) with
  | Some sh =>
      Ok (tabulate sh (fun idx =>
            op (get a (broadcast_index (shape a) idx))
               (get b (broadcast_index (shape b) idx))))
  | None => Raise RuntimeError
  end.

Definition pointwise1 (op : Z -> Z) (a : tensor) : tensor :=
  tabulate (shape a) (fun idx => op (get a idx)).

Definition add : tensor -> tensor -> result tensor := pointwise2 Z.add.
Definition sub : tensor -> tensor -> result tensor := pointwise2 Z.sub.
Definition mul : tensor -> tensor -> result tensor := pointwise2 Z.mul.

(** [c - t] for a Python number [c]. *)
Definition rsub_scalar (c : Z) (t : tensor) : tensor :=
  pointwise1 (fun x => (c - x)%Z) t.

(** [t.type_as(other)]: element types are not tracked by this model, and a
    cast between numeric element types keeps whole values as they are. *)
Definition type_as (t other : tensor) : tensor := t.

(** [t.size(d)] *)
Definition size (t : tensor) (d : Z) : result nat := tuple_get (shape t) d.

(** *** Basic indexing: [t[i0, i1, ...]] *)

Inductive axis_sel : Type :=
| Fix (i : nat)
| Range (start step len : nat)
| NewAxis.

Definition resolve_int (n : nat) (i : Z) : result nat :=
  let j := if (i <? 0)%Z then (i + Z.of_nat n)%Z else i in
  if ((j <? 0) || (Z.of_nat n <=? j))%Z then Raise IndexError
  else Ok (Z.to_nat j).

Definition clamp_bound (n : nat) (v : Z) : nat :=
  let w := if (v <? 0)%Z then (v + Z.of_nat n)%Z else v in
  Z.to_nat (Z.max 0 (Z.min (Z.of_nat n) w)).

Definition resolve_slice (n : nat) (start stop step : option Z) : result axis_sel :=
  let st := match step with Some s => s | None => 1%Z end in
  if (st <=? 0)%Z then Raise ValueError
  else
    let lo := match start with Some v => clamp_bound n v | None => 0 end in
    let hi := match stop with Some v => clamp_bound n v | None => n end in
    let k := Z.to_nat st in
    Ok (Range lo k ((hi - lo + k - 1) / k)).

Fixpoint resolve (sh : list nat) (items : list index_item) : result (list axis_sel) :=
  match items with
  | [] => Ok (map (fun n => Range 0 1 n) sh)
  | INone :: items' => r <- resolve sh items';; Ok (NewAxis :: r)
  | IInt i :: items' =>
      match sh with
      | [] => Raise IndexError
      | n :: sh' =>
          j <- resolve_int n i;; r <- resolve sh' items';; Ok (Fix j :: r)
      end
  | ISlice start stop step :: items' =>
      match sh with
      | [] => Raise IndexError
      | n :: sh' =>
          s <- resolve_slice n start stop step;;
          r <- resolve sh' items';; Ok (s :: r)
      end
  end.

Fixpoint out_shape (sels : list axis_sel) : list nat :=
  match sels with
  | [] => []
  | Fix _ :: sels' => out_shape sels'
  | Range _ _ len :: sels' => len :: out_shape sels'
  | NewAxis :: sels' => 1 :: out_shape sels'
  end.

Fixpoint source_index (sels : list axis_sel) (j : list nat) : list nat :=
  match sels with
  | [] => []
  | Fix i :: sels' => i :: source_index sels' j
  | Range start step _ :: sels' =>
      match j with
      | k :: j' => (start + step * k) :: source_index sels' j'
      | [] => []
      end
  | NewAxis :: sels' => source_index sels' (tl j)
  end.

Definition index (t : tensor) (items : list index_item) : result tensor :=
  sels <- resolve (shape t) items;;
  Ok (tabulate (out_shape sels) (fun j => get t (source_index sels j))).

(** *** Restructuring *)

Definition wrap_dim (r : nat) (d : Z) : result nat :=
  let j := if (d <? 0)%Z then (d + Z.of_nat r)%Z else d in
  if ((j <? 0) || (Z.of_nat r <=? j))%Z then Raise IndexError
  else Ok (Z.to_nat j).

(** [t.unsqueeze(d)]: a new axis of extent 1 at position [d]; the row-major
    order of the elements does not change. *)
Definition unsqueeze (t : tensor) (d : Z) : result tensor :=
  j <- wrap_dim (S (rank t)) d;;
  Ok (mkTensor (firstn j (shape t) ++ 1 :: skipn j (shape t)) (elems t)).

(** [t.triu(k)] keeps the entries of the last two axes with
    [column - row >= k]; [t.tril(k)] those with [column - row <= k]. *)
Definition row_col (idx : list nat) : Z * Z :=
  match rev idx with
  | c :: r :: _ => (Z.of_nat r, Z.of_nat c)
  | _ => (0%Z, 0%Z)
  end.

Definition triu (t : tensor) (k : Z) : result tensor :=
  if rank t <? 2 then Raise RuntimeError
  else Ok (tabulate (shape t) (fun idx =>
             let '(r, c) := row_col idx in
             if (k <=? c - r)%Z then get t idx else 0%Z)).

Definition tril (t : tensor) (k : Z) : result tensor :=
  if rank t <? 2 then Raise RuntimeError
  else Ok (tabulate (shape t) (fun idx =>
             let '(r, c) := row_col idx in
             if (c - r <=? k)%Z then get t idx else 0%Z)).

(** [t.view(sizes)]: at most one extent may be -1 and is then inferred. *)
Definition view (t : tensor) (sizes : list Z) : result tensor :=
  let n := numel (shape t) in
  let known := fold_right Nat.mul 1
                 (map Z.to_nat (filter (fun s => negb (s =? -1)%Z) sizes)) in
  let holes := length (filter (fun s => (s =? -1)%Z) sizes) in
  if existsb (fun s => (s <? -1)%Z) sizes then Raise RuntimeError
  else match holes with
       | 0 => if known =? n
              then Ok (mkTensor (map Z.to_nat sizes) (elems t))
              else Raise RuntimeError
       | 1 => if (known =? 0) || negb (n mod known =? 0) then Raise RuntimeError
              else Ok (mkTensor
                         (map (fun s => if (s =? -1)%Z then n / known
                                        else Z.to_nat s) sizes)
                         (elems t))
       | _ => Raise RuntimeError
       end.

(** *** Reductions and contractions *)

Definition insert_at (d k : nat) (idx : list nat) : list nat :=
  firstn d idx ++ k :: skipn d idx.

Definition replace_at (d k : nat) (idx : list nat) : list nat :=
  firstn d idx ++ k :: skipn (S d) idx.

Definition remove_at (d : nat) (sh : list nat) : list nat :=
  firstn d sh ++ skipn (S d) sh.

(** [torch.sum(t, dim, keepdim)]; without [dim] every element is summed. *)
Definition sum (t : tensor) (dim : option Z) (keepdim : bool) : result tensor :=
  match dim with
  | None =>
      Ok (mkTensor (if keepdim then map (fun _ => 1) (shape t) else [])
                   [sum_list (map (get t) (indices (shape t)))])
  | Some d =>
      j <- wrap_dim (rank t) d;;
      let n := nth j (shape t) 0 in
      if keepdim
      then Ok (tabulate (replace_at j 1 (shape t)) (fun idx =>
                 sum_list (map (fun k => get t (replace_at j k idx)) (seq 0 n))))
      else Ok (tabulate (remove_at j (shape t)) (fun idx =>
                 sum_list (map (fun k => get t (insert_at j k idx)) (seq 0 n))))
  end.

(** [F.linear(x, weight, bias)]: contracts the trailing axis of [x] with the
    input axis of [weight], a matrix of shape (out, in). *)
Definition linear (x weight : tensor) (bias : option tensor) : result tensor :=
  match shape weight, rev (shape x) with
  | [o; i], i' :: lead =>
      if negb (i =? i') then Raise RuntimeError
      else if match bias with
              | Some b => negb (shape_eqb (shape b) [o])
              | None => false
              end then Raise RuntimeError
      else Ok (tabulate (rev lead ++ [o]) (fun idx =>
                 let j := last idx 0 in
                 let pre := removelast idx in
                 (sum_list (map (fun k => get x (pre ++ [k]) * get weight [j; k])%Z
                                (seq 0 i))
                  + match bias with Some b => get b [j] | None => 0 end)%Z))
  | _, _ => Raise RuntimeError
  end.

(** *** Further operations *)

(** [t.any()] and [t.all()]: some, respectively every, element is non-zero. *)
Definition any (t : tensor) : bool :=
  existsb (fun idx => negb (get t idx =? 0)%Z) (indices (shape t)).

Definition all (t : tensor) : bool :=
  forallb (fun idx => negb (get t idx =? 0)%Z) (indices (shape t)).

(** [torch.where(cond, x, y)]: the three operands broadcast together; the
    result takes [x] where [cond] is non-zero and [y] elsewhere. *)
Definition where_ (cond x y : tensor) : result tensor :=
  match broadcast_shapes (shape cond) (shape x) with
  | Some s1 =>
      match broadcast_shapes s1 (shape y) with
      | Some sh =>
          Ok (tabulate sh (fun idx =>
                if (get cond (broadcast_index (shape cond) idx) =? 0)%Z
                then get y (broadcast_index (shape y) idx)
                else get x (broadcast_index (shape x) idx)))
      | None => Raise RuntimeError
      end
  | None => Raise RuntimeError
  end.

(** [torch.LongTensor([n])] *)
Definition long_tensor1 (n : Z) : tensor := mkTensor [1] [n].

(** [t.contiguous()]: every tensor of this model is laid out contiguously. *)
Definition contiguous (t : tensor) : tensor := t.

(** [t.squeeze(d)]: axis [d] goes away when its extent is 1; otherwise the
    tensor is returned as it is. *)
Definition squeeze (t : tensor) (d : Z) : result tensor :=
  j <- wrap_dim (rank t) d;;
  if nth j (shape t) 0 =? 1
  then Ok (mkTensor (remove_at j (shape t)) (elems t))
  else Ok t.

(** [t.narrow(d, start, len)] *)
Definition narrow (t : tensor) (d start len : Z) : result tensor :=
  j <- wrap_dim (rank t) d;;
  if ((start <? 0) || (len <? 0)
      || (Z.of_nat (nth j (shape t) 0%nat) <? start + len))%Z
  then Raise RuntimeError
  else Ok (tabulate (replace_at j (Z.to_nat len) (shape t)) (fun idx =>
             get t (replace_at j (Z.to_nat start + nth j idx 0) idx))).

(** [t.expand(sizes)]: -1 keeps an extent, an extent 1 stretches to the
    requested size, and sizes beyond the rank add leading axes. *)
Fixpoint expand_aligned (sh : list nat) (fresh : list bool) (sizes : list Z)
  : option (list nat) :=
  match sh, fresh, sizes with
  | [], [], [] => Some []
  | n :: sh', f :: fresh', s :: sizes' =>
      match expand_aligned sh' fresh' sizes' with
      | Some r =>
          if (s =? -1)%Z then (if (f : bool) then None else Some (n :: r))
          else if (s <? 0)%Z then None
          else if (Z.of_nat n =? s)%Z then Some (n :: r)
          else if n =? 1 then Some (Z.to_nat s :: r)
          else None
      | None => None
      end
  | _, _, _ => None
  end.

Definition expand (t : tensor) (sizes : list Z) : result tensor :=
  let k := length sizes - rank t in
  if length sizes <? rank t then Raise RuntimeError
  else match expand_aligned (pad_left (length sizes) (shape t))
                            (repeat true k ++ repeat false (rank t)) sizes with
       | Some sh =>
           Ok (tabulate sh (fun idx => get t (broadcast_index (shape t) idx)))
       | None => Raise RuntimeError
       end.

(** [t.permute(dims)] *)
Fixpoint wrap_dims (r : nat) (ds : list Z) : result (list nat) :=
  match ds with
  | [] => Ok []
  | d :: ds' => j <- wrap_dim r d;; js <- wrap_dims r ds';; Ok (j :: js)
  end.

Fixpoint index_of (a : nat) (l : list nat) : nat :=
  match l with
  | [] => 0
  | x :: l' => if x =? a then 0 else S (index_of a l')
  end.

Definition is_permutation (ps : list nat) (r : nat) : bool :=
  (length ps =? r) && forallb (fun a => existsb (Nat.eqb a) ps) (seq 0 r).

Definition permute (t : tensor) (perm : list Z) : result tensor :=
  ps <- wrap_dims (rank t) perm;;
  if negb (is_permutation ps (rank t)) then Raise RuntimeError
  else Ok (tabulate (map (fun p => nth p (shape t) 0) ps) (fun idx =>
             get t (map (fun a => nth (index_of a ps) idx 0)
                        (seq 0 (rank t))))).

(** [torch.transpose(t, d1, d2)] *)
Definition swap_at {A} (i j : nat) (l : list A) (d : A) : list A :=
  map (fun k => if k =? i then nth j l d
                else if k =? j then nth i l d else nth k l d)
      (seq 0 (length l)).

Definition transpose (t : tensor) (d1 d2 : Z) : result tensor :=
  i <- wrap_dim (rank t) d1;;
  j <- wrap_dim (rank t) d2;;
  Ok (tabulate (swap_at i j (shape t) 0) (fun idx =>
        get t (swap_at i j idx 0))).

(** [torch.matmul(a, b)], also written [a @ b]: a vector operand is taken as
    a one-row (left) or one-column (right) matrix and the added axis is
    dropped from the result; leading axes broadcast. *)
Definition matmul (a b : tensor) : result tensor :=
  let va := rank a =? 1 in
  let vb := rank b =? 1 in
  if (rank a =? 0) || (rank b =? 0) then Raise RuntimeError
  else
    let sa := if va then 1 :: shape a else shape a in
    let sb := if vb then shape b ++ [1] else shape b in
    let la := length sa - 2 in
    let lb := length sb - 2 in
    let n := nth la sa 0 in
    let k := nth (S la) sa 0 in
    let k' := nth lb sb 0 in
    let m := nth (S lb) sb 0 in
    if negb (k =? k') then Raise RuntimeError
    else
      match broadcast_shapes (firstn la sa) (firstn lb sb) with
      | None => Raise RuntimeError
      | Some bs =>
          Ok (tabulate
                (bs ++ (if va then [] else [n]) ++ (if vb then [] else [m]))
                (fun idx =>
                   let lead := firstn (length bs) idx in
                   let rest := skipn (length bs) idx in
                   let i := if va then 0 else hd 0 rest in
                   let j := if vb then 0 else last rest 0 in
                   sum_list
                     (map (fun c =>
                             (get a (if va then [c]
                                     else broadcast_index (firstn la sa) lead
                                          ++ [i; c])
                              * get b (if vb then [c]
                                       else broadcast_index (firstn lb sb) lead
                                            ++ [c; j]))%Z)
                          (seq 0 k))))
      end.

(** The part of [t] that starts at position [start] of axis [j] and has
    extent [len] there; what [narrow] and [split] return. *)
Definition slab (t : tensor) (j start len : nat) : tensor :=
  tabulate (replace_at j len (shape t)) (fun idx =>
    get t (replace_at j (start + nth j idx 0) idx)).

(** [torch.split(t, split_size_or_sections, dim)] *)
Inductive split_arg : Type :=
| SplitSize (s : Z)
| SplitSections (l : list Z).

Fixpoint sections_from (start : nat) (lens : list nat) : list (nat * nat) :=
  match lens with
  | [] => []
  | l :: ls => (start, l) :: sections_from (start + l) ls
  end.

Definition split_lengths (n s : nat) : list nat :=
  map (fun i => Nat.min s (n - i * s)) (seq 0 (Nat.max ((n + s - 1) / s) 1)).

Definition split (t : tensor) (arg : split_arg) (dim : Z) : result (list tensor) :=
  j <- wrap_dim (rank t) dim;;
  let n := nth j (shape t) 0 in
  lens <- match arg with
          | SplitSize s =>
              if (s <? 0)%Z then Raise RuntimeError
              else if (s =? 0)%Z
                   then (if n =? 0 then Ok [0] else Raise RuntimeError)
                   else Ok (split_lengths n (Z.to_nat s))
          | SplitSections l =>
              if existsb (fun x => (x <? 0)%Z) l
                 || negb (fold_right Z.add 0%Z l =? Z.of_nat n)%Z
              then Raise RuntimeError
              else Ok (map Z.to_nat l)
          end;;
  Ok (map (fun p => slab t j (fst p) (snd p)) (sections_from 0 lens)).

(** [torch.cat(ts, dim)]: the operands agree on every axis but [dim]. *)
Fixpoint cat_get (ts : list tensor) (j : nat) (idx : list nat) : Z :=
  match ts with
  | [] => 0%Z
  | t :: ts' =>
      let n := nth j (shape t) 0 in
      if nth j idx 0 <? n then get t idx
      else cat_get ts' j (replace_at j (nth j idx 0 - n) idx)
  end.

Definition cat (ts : list tensor) (dim : Z) : result tensor :=
  match ts with
  | [] => Raise RuntimeError
  | t0 :: rest =>
      j <- wrap_dim (rank t0) dim;;
      if forallb (fun t => shape_eqb (replace_at j 0 (shape t))
                                     (replace_at j 0 (shape t0))) rest
      then Ok (tabulate
                 (replace_at j (fold_right Nat.add 0
                                  (map (fun t => nth j (shape t) 0) ts))
                             (shape t0))
                 (cat_get ts j))
      else Raise RuntimeError
  end.

(** [torch.unbind(t, dim)] *)
Definition select (t : tensor) (j i : nat) : tensor :=
  tabulate (remove_at j (shape t)) (fun idx => get t (insert_at j i idx)).

Definition unbind (t : tensor) (dim : Z) : result (list tensor) :=
  j <- wrap_dim (rank t) dim;;
  Ok (map (select t j) (seq 0 (nth j (shape t) 0))).

(** [a.eq(b)] *)
Definition eq : tensor -> tensor -> result tensor :=
  pointwise2 (fun x y => if (x =? y)%Z then 1%Z else 0%Z).


(** [torch.stack(ts, dim)]: the operands have one shape; each gets a new
    axis at [dim] and the results are concatenated along it. *)
Fixpoint unsqueeze_each (ts : list tensor) (dim : Z) : result (list tensor) :=
  match ts with
  | [] => Ok []
  | t :: ts' =>
      u <- unsqueeze t dim;;
      us <- unsqueeze_each ts' dim;;
      Ok (u :: us)
  end.

Definition stack (ts : list tensor) (dim : Z) : result tensor :=
  match ts with
  | [] => Raise RuntimeError
  | t0 :: rest =>
      j <- wrap_dim (S (rank t0)) dim;;
      if forallb (fun t => shape_eqb (shape t) (shape t0)) rest
      then us <- unsqueeze_each ts (Z.of_nat j);; cat us (Z.of_nat j)
      else Raise RuntimeError
  end.

(** [F.embedding(input, weight)] with its options left at their defaults:
    [weight] is a table with one row per entry, every element of [input]
    picks a row, and an element that is no row number raises. *)
Definition embedding (input weight : tensor) : result tensor :=
  match shape weight with
  | [rows; width] =>
      if forallb (fun idx => (0 <=? get input idx)%Z
                             && (get input idx <? Z.of_nat rows)%Z)
                 (indices (shape input))
      then Ok (tabulate (shape input ++ [width]) (fun idx =>
                 get weight [Z.to_nat (get input (removelast idx));
                             last idx 0]))
      else Raise IndexError
  | _ => Raise RuntimeError
  end.
End Torch.

(** ** matchbox.functional *)

(** Modelled from the spec: the [MaskedBatch] class is imported from the
    package's [__init__] module, which is not among the sources.  Following
    the spec's data model it carries the padded [data], the validity [mask]
    and one dynamic flag per non-batch axis in [dims]; constructing one
    stores the three fields, and its [dim()] is the rank of [data]. *)
Record MaskedBatch : Type := mkBatch {
  data : tensor;
  mask : tensor;
  dims : list bool
}.

Definition batch_dim (b : MaskedBatch) : Z := Z.of_nat (rank (data b)).

(** The values the module's functions receive: Python numbers, plain
    tensors and masked batches. *)
Inductive pyval : Type :=
| VNum (z : Z)
| VTensor (t : tensor)
| VBatch (b : MaskedBatch).

Definition is_MaskedBatch (v : pyval) : bool :=
  match v with VBatch _ => true | _ => false end.

(** Attribute access: a tensor's [.data] is the tensor itself; only a
    masked batch has [.mask] and [.dims]. *)
Definition attr_data (v : pyval) : result tensor :=
  match v with
  | VBatch b => Ok (data b)
  | VTensor t => Ok t
  | VNum _ => Raise AttributeError
  end.

Definition attr_mask (v : pyval) : result tensor :=
  match v with VBatch b => Ok (mask b) | _ => Raise AttributeError end.

Definition attr_dims (v : pyval) : result (list bool) :=
  match v with VBatch b => Ok (dims b) | _ => Raise AttributeError end.

(** A kernel is a tensor method or torch function handed to one of the
    wrappers below; it receives its positional arguments and returns a
    tensor or raises. *)
Definition kernel : Type := list pyval -> result tensor.

Definition reduce_kernel : Type := tensor -> option Z -> bool -> result tensor.

(** *** linear *)

Definition linear (batch : pyval) (weight : tensor) (bias : option tensor)
  : result pyval :=
  match batch with
  | VBatch b =>
      last_dynamic <- tuple_get (dims b) (-1);;
      if (last_dynamic : bool) then Raise ValueError
      else
        d <- Torch.linear (data b) weight bias;;
        Ok (VBatch (mkBatch d (mask b) (dims b)))
  | VTensor t => r <- Torch.linear t weight bias;; Ok (VTensor r)
  | VNum _ => Raise TypeError
  end.

(** *** _elementwise_binary *)

(** [inner(batch1, batch2)]; a call with another number of positional
    arguments raises [TypeError]. *)
Definition _elementwise_binary (fn : kernel) (args : list pyval) : result pyval :=
  match args with
  | [batch1; batch2] =>
      if negb (is_MaskedBatch batch1) && negb (is_MaskedBatch batch2)
      then r <- fn [batch1; batch2];; Ok (VTensor r)
      else if is_MaskedBatch batch2
      then
        d1 <- attr_data batch1;;
        d2 <- attr_data batch2;;
        d <- fn [VTensor d1; VTensor d2];;
        m1 <- attr_mask batch1;;
        m2 <- attr_mask batch2;;
        m <- Torch.mul m1 m2;;
        dims1 <- attr_dims batch1;;
        dims2 <- attr_dims batch2;;
        Ok (VBatch (mkBatch d m (zip_with orb dims1 dims2)))
      else
        d1 <- attr_data batch1;;
        d <- fn [VTensor d1; batch2];;
        m1 <- attr_mask batch1;;
        dims1 <- attr_dims batch1;;
        Ok (VBatch (mkBatch d (Torch.type_as m1 d) dims1))
  | _ => Raise TypeError
  end.

(** The tensor methods as they are before the module patches them.  An
    operand is a tensor or a Python number.  True division is not closed on
    the integers, so its method is not instantiated here; the wrappers are
    verified for every kernel. *)
Definition tensor_method (op : Z -> Z -> Z) : kernel :=
  fun args =>
    match args with
    | [VTensor a; VTensor b] => Torch.pointwise2 op a b
    | [VTensor a; VNum c] => Ok (Torch.pointwise1 (fun x => op x c) a)
    | _ => Raise TypeError
    end.

Definition truth (b : bool) : Z := if b then 1%Z else 0%Z.

Definition Tensor___neg__ : kernel :=
  fun args =>
    match args with
    | [VTensor a] => Ok (Torch.pointwise1 Z.opp a)
    | _ => Raise TypeError
    end.

Definition Tensor___add__0 : kernel := tensor_method Z.add.
Definition Tensor___sub__0 : kernel := tensor_method Z.sub.
Definition Tensor___mul__0 : kernel := tensor_method Z.mul.
Definition Tensor___radd__ : kernel := tensor_method (fun x y => (y + x)%Z).
Definition Tensor___rsub__ : kernel := tensor_method (fun x y => (y - x)%Z).
Definition Tensor___rmul__ : kernel := tensor_method (fun x y => (y * x)%Z).
Definition Tensor___lt__ : kernel := tensor_method (fun x y => truth (x <? y)%Z).
Definition Tensor___le__ : kernel := tensor_method (fun x y => truth (x <=? y)%Z).
Definition Tensor___eq__ : kernel := tensor_method (fun x y => truth (x =? y)%Z).
Definition Tensor___ne__ : kernel := tensor_method (fun x y => truth (negb (x =? y)%Z)).
Definition Tensor___gt__ : kernel := tensor_method (fun x y => truth (y <? x)%Z).
Definition Tensor___ge__ : kernel := tensor_method (fun x y => truth (y <=? x)%Z).

Definition MaskedBatch___neg__ := _elementwise_binary Tensor___neg__.
Definition MaskedBatch___add__ := _elementwise_binary Tensor___add__0.
Definition MaskedBatch___sub__ := _elementwise_binary Tensor___sub__0.
Definition MaskedBatch___mul__ := _elementwise_binary Tensor___mul__0.
Definition MaskedBatch___radd__ := _elementwise_binary Tensor___radd__.
Definition MaskedBatch___rsub__ := _elementwise_binary Tensor___rsub__.
Definition MaskedBatch___rmul__ := _elementwise_binary Tensor___rmul__.

Definition MaskedBatch___lt__ := _elementwise_binary Tensor___lt__.
Definition MaskedBatch___le__ := _elementwise_binary Tensor___le__.
Definition MaskedBatch___eq__ := _elementwise_binary Tensor___eq__.
Definition MaskedBatch___ne__ := _elementwise_binary Tensor___ne__.
Definition MaskedBatch___gt__ := _elementwise_binary Tensor___gt__.
Definition MaskedBatch___ge__ := _elementwise_binary Tensor___ge__.

(** *** _reduce *)

(** [__builtins__['any']] on a tuple of flags. *)
Definition builtin_any (l : list bool) : bool := existsb (fun b => b) l.

Definition full_slice : index_item := ISlice None None None.

Definition _reduce (fn : reduce_kernel) (zero_preserving : bool)
    (batch : MaskedBatch) (dim : option Z) (keepdim : bool)
  : result MaskedBatch :=
  match dim with
  | None =>
      if negb zero_preserving && builtin_any (dims batch)
      then Raise NotImplementedError
      else
        m <- Torch.index (mask batch)
               (full_slice :: map (fun _ => IInt 0) (dims batch));;
        p <- Torch.mul (data batch) (mask batch);;
        d <- fn p None keepdim;;
        Ok (mkBatch d m [])
  | Some dim0 =>
      let dim := if (dim0 <? 0)%Z then (dim0 + batch_dim batch)%Z else dim0 in
      _ <- (if zero_preserving then Ok tt
            else
              dynamic <- tuple_get (dims batch) (dim - 1);;
              if (dynamic : bool) then Raise NotImplementedError else Ok tt);;
      let axes := seq 0 (rank (mask batch)) in
      let at_dim (i : nat) := (Z.of_nat i =? dim)%Z in
      if keepdim
      then
        m <- Torch.index (mask batch)
               (map (fun i => if at_dim i then ISlice (Some 0%Z) (Some 1%Z) None
                              else full_slice) axes);;
        p <- Torch.mul (data batch) (mask batch);;
        d <- fn p (Some dim) keepdim;;
        Ok (mkBatch d m
              (map (fun p => if (Z.of_nat (fst p) =? dim - 1)%Z then false
                             else snd p)
                   (enumerate (dims batch))))
      else
        m <- Torch.index (mask batch)
               (map (fun i => if at_dim i then IInt 0 else full_slice) axes);;
        p <- Torch.mul (data batch) (mask batch);;
        d <- fn p (Some dim) keepdim;;
        Ok (mkBatch d m
              (map snd
                 (filter (fun p => negb (Z.of_nat (fst p) =? dim - 1)%Z)
                         (enumerate (dims batch)))))
  end.

Definition MaskedBatch_sum := _reduce Torch.sum true.

(** [torch.mean] and [torch.std] are not closed on the integers; the
    reductions built on them take the kernel as a parameter. *)
Definition MaskedBatch_mean (torch_mean : reduce_kernel) := _reduce torch_mean false.
Definition MaskedBatch_std (torch_std : reduce_kernel) := _reduce torch_std false.

(** *** getitem *)

(** A subscript is a tuple of items or a single object that is no tuple. *)
Inductive subscript : Type :=
| Single (it : index_item)
| Tuple (items : list index_item).

Definition is_int (it : index_item) : bool :=
  match it with IInt _ => true | _ => false end.

Definition is_none (it : index_item) : bool :=
  match it with INone => true | _ => false end.

Definition is_full_slice (it : index_item) : bool :=
  match it with ISlice None None None => true | _ => false end.

Definition is_some {A} (o : option A) : bool :=
  match o with Some _ => true | None => false end.

(** One round of the loop over [zip(index[1:], batch.dims)]: on a dynamic
    axis a negative integer and a negative-stop slice with a start or step
    are refused, and a plain negative-stop slice is rewritten. *)
Definition check_item (ind : index_item) (b : bool) : result index_item :=
  if b
  then match ind with
       | IInt z =>
           if (z <? 0)%Z then Raise NotImplementedError else Ok ind
       | ISlice start (Some stop) step =>
           if (stop <? 0)%Z
           then if is_some step || is_some start
                then Raise NotImplementedError
                else Ok (ISlice (Some (- stop)%Z) None None)
           else Ok ind
       | _ => Ok ind
       end
  else Ok ind.

Fixpoint check_dynamic (inds : list index_item) (ds : list bool)
  : result (list index_item) :=
  match inds, ds with
  | ind :: inds', b :: ds' =>
      ind' <- check_item ind b;;
      rest <- check_dynamic inds' ds';;
      Ok (ind' :: rest)
  | _, _ => Ok inds
  end.

Definition mask_item (p : index_item * bool) : index_item :=
  let '(i, b) := p in
  if b then i else if is_int i then IInt 0 else full_slice.

Definition getitem (batch : MaskedBatch) (index : subscript) : result MaskedBatch :=
  match index with
  | Single _ => Raise ValueError
  | Tuple items =>
      first <- tuple_get items 0;;
      if negb (is_full_slice first) then Raise ValueError
      else if existsb is_none items then Raise NotImplementedError
      else
        d <- Torch.index (data batch) items;;
        rest <- check_dynamic (tl items) (dims batch);;
        let index := first :: rest in
        m <- Torch.index (mask batch)
               (map mask_item (combine index (true :: dims batch)));;
        let ds :=
          map snd
            (filter (fun p => negb (is_int (fst p)))
               (combine (tl index ++ repeat full_slice (length (dims batch)))
                        (dims batch))) in
        Ok (mkBatch d m ds)
  end.

(** *** view *)

(** Names bound at the module level of [functional.py]. *)
Definition module_globals : list string :=
  ["torch"; "F"; "MAYBE_VARIABLE"; "TENSOR_TYPE"; "identity"; "MaskedBatch";
   "dropout"; "linear"; "embedding"; "softmax"; "cross_entropy"; "matmul";
   "_elementwise_unary"; "log"; "sqrt"; "sin"; "cos"; "tan"; "relu"; "tanh";
   "sigmoid"; "_elementwise_binary"; "_reduce"; "any"; "all"; "getitem";
   "split"; "chunk"; "cat"; "stack"; "unbind"; "contiguous"; "view";
   "transpose"; "permute"; "split_dim"; "join_dims"; "causal_mask";
   "size_as_tensor"; "maxsize"; "_synchronize"; "_update"; "_inject_arith";
   "sys"]%string.

(** Names of Python's built-in functions and constants. *)
Definition builtins : list string :=
  ["abs"; "all"; "any"; "ascii"; "bin"; "bool"; "bytearray"; "bytes";
   "callable"; "chr"; "classmethod"; "compile"; "complex"; "delattr"; "dict";
   "dir"; "divmod"; "enumerate"; "eval"; "exec"; "filter"; "float"; "format";
   "frozenset"; "getattr"; "globals"; "hasattr"; "hash"; "help"; "hex"; "id";
   "input"; "int"; "isinstance"; "issubclass"; "iter"; "len"; "list";
   "locals"; "map"; "max"; "memoryview"; "min"; "next"; "object"; "oct";
   "open"; "ord"; "pow"; "print"; "property"; "range"; "repr"; "reversed";
   "round"; "set"; "setattr"; "slice"; "sorted"; "staticmethod"; "str"; "sum";
   "super"; "tuple"; "type"; "vars"; "zip"; "__import__"; "None"; "True";
   "False"; "Ellipsis"; "NotImplemented"]%string.

(** Names local to [view] that are bound when [mask_sizes] is computed. *)
Definition view_locals : list string := ["batch"; "sizes"; "bs"; "data"]%string.

Definition one_of (z : Z) (l : list Z) : bool := existsb (Z.eqb z) l.

Definition view (batch : MaskedBatch) (sizes : list Z) : result MaskedBatch :=
  bs <- Torch.size (data batch) 0;;
  let bs := Z.of_nat bs in
  s0 <- tuple_get sizes 0;;
  if negb (one_of s0 [1; -1; bs]%Z) then Raise ValueError
  else
    let sizes := bs :: tl sizes in
    d <- Torch.view (data batch) sizes;;
    (* range(1, len(args)): the name [args] is looked up first; the rest is
       written for the tuple of sizes the name was meant to denote *)
    _ <- name_lookup (view_locals ++ module_globals ++ builtins) "args";;
    let n := length sizes in
    mask_sizes <-
      (fix go (axes : list nat) : result (list Z) :=
         match axes with
         | [] => Ok []
         | i :: axes' =>
             si <- tuple_get sizes (Z.of_nat i);;
             e <- (if (si =? -1)%Z
                   then x <- Torch.size (data batch) (Z.of_nat i);; Ok (Z.of_nat x)
                   else Ok 1%Z);;
             r <- go axes';;
             Ok (e :: r)
         end) (seq 1 (n - 1));;
    m <- Torch.view (mask batch) (bs :: mask_sizes);;
    Ok (mkBatch d m (map (fun s => (s =? -1)%Z) (tl sizes))).

(** *** causal_mask *)

Definition causal_mask (batch : pyval) (in_dim out_dim : Z) : result pyval :=
  match batch with
  | VBatch b =>
      m <- (if (in_dim =? 1)%Z && (out_dim =? 2)%Z
            then
              tri <- Torch.triu (full (tl (shape (data b))) 1) 0;;
              tri <- Torch.unsqueeze tri 0;;
              Torch.mul (mask b) tri
            else if (in_dim =? 2)%Z && (out_dim =? 1)%Z
            then
              tri <- Torch.tril (full (tl (shape (data b))) 1) 0;;
              tri <- Torch.unsqueeze tri 0;;
              Torch.mul (mask b) tri
            else Raise NotImplementedError);;
      let ds :=
        map (fun p => if one_of (Z.of_nat (fst p) + 1) [in_dim; out_dim]
                      then true else snd p)
            (enumerate (dims b)) in
      Ok (VBatch (mkBatch (data b) m ds))
  | VTensor t =>
      if (in_dim =? 1)%Z && (out_dim =? 2)%Z
      then
        tri <- Torch.tril (full (tl (shape t)) 10000000000) (-1);;
        tri <- Torch.unsqueeze tri 0;;
        r <- Torch.sub t tri;;
        Ok (VTensor r)
      else if (in_dim =? 2)%Z && (out_dim =? 1)%Z
      then
        tri <- Torch.triu (full (tl (shape t)) 10000000000) 1;;
        tri <- Torch.unsqueeze tri 0;;
        r <- Torch.sub t tri;;
        Ok (VTensor r)
      else Raise NotImplementedError
  | VNum _ =>
      if ((in_dim =? 1)%Z && (out_dim =? 2)%Z)
         || ((in_dim =? 2)%Z && (out_dim =? 1)%Z)
      then Raise AttributeError
      else Raise NotImplementedError
  end.

(** *** _synchronize *)

Definition _synchronize (batch : pyval) : result pyval :=
  match batch with
  | VBatch b =>
      if builtin_any (dims b) then Raise ValueError
      else
        m <- Torch.add (mask b) (Torch.rsub_scalar 1 (mask b));;
        Ok (VBatch (mkBatch (data b) m (dims b)))
  | _ => Ok batch
  end.

(** *** _inject_arith *)

Definition _inject_arith (original : kernel)
    (replacement : pyval -> pyval -> result pyval) (self other : pyval)
  : result pyval :=
  if is_MaskedBatch other then replacement self other
  else r <- original [self; other];; Ok (VTensor r).

(** The tensor operators after the module has patched them.  In the
    replacements [b] is a masked batch, so [b + a] and [b * a] are calls of
    the batch's own methods and [-b] is a call of its [__neg__] with [b] as
    the only argument. *)
Definition Tensor___add__ : pyval -> pyval -> result pyval :=
  _inject_arith Tensor___add__0 (fun a b => MaskedBatch___add__ [b; a]).

Definition Tensor___mul__ : pyval -> pyval -> result pyval :=
  _inject_arith Tensor___mul__0 (fun a b => MaskedBatch___mul__ [b; a]).

(** [x + y]: the left operand's class decides. *)
Definition py_add (x y : pyval) : result pyval :=
  match x with
  | VBatch _ => MaskedBatch___add__ [x; y]
  | VTensor _ => Tensor___add__ x y
  | VNum a =>
      match y with
      | VNum b => Ok (VNum (a + b))
      | VTensor _ => r <- Tensor___radd__ [y; x];; Ok (VTensor r)
      | VBatch _ => MaskedBatch___radd__ [y; x]
      end
  end.

Definition Tensor___sub__ : pyval -> pyval -> result pyval :=
  _inject_arith Tensor___sub__0
    (fun a b => nb <- MaskedBatch___neg__ [b];; py_add nb a).

(** The masked results the reflected forms stand for: the operation between
    the plain tensor and the batch's data, under the batch's mask and flags. *)
Definition masked_reflected (fn : kernel) (t : tensor) (b : MaskedBatch)
  : result pyval :=
  d <- fn [VTensor t; VTensor (data b)];;
  Ok (VBatch (mkBatch d (mask b) (dims b))).

(** ** The data model's invariants and the notions the properties use *)

(** Per non-batch axis: the mask has the data's extent where the axis is
    dynamic and extent 1 where it is static. *)
Fixpoint axes_ok (sh msh : list nat) (ds : list bool) : bool :=
  match sh, msh, ds with
  | [], [], [] => true
  | n :: sh', m :: msh', d :: ds' =>
      (if (d : bool) then m =? n else m =? 1) && axes_ok sh' msh' ds'
  | _, _, _ => false
  end.

(** A batch is well formed when [dims] has one flag per non-batch axis and
    the mask is broadcast-compatible with the data as the flags say; on the
    batch axis the mask has the batch's extent or extent 1. *)
Definition well_formed (b : MaskedBatch) : bool :=
  match shape (data b), shape (mask b) with
  | B :: sh, Bm :: msh => ((Bm =? B) || (Bm =? 1)) && axes_ok sh msh (dims b)
  | _, _ => false
  end.

(** The mask broadcasts to the data's shape. *)
Definition mask_fits (b : MaskedBatch) : bool :=
  match Torch.broadcast_shapes (shape (data b)) (shape (mask b)) with
  | Some s => shape_eqb s (shape (data b))
  | None => false
  end.

(** No non-batch axis of the mask is empty. *)
Definition nonempty_axes (b : MaskedBatch) : bool :=
  forallb (fun n => 0 <? n) (tl (shape (mask b))).

(** The mask value that governs position [idx] of the data. *)
Definition mask_at (b : MaskedBatch) (idx : list nat) : Z :=
  get (mask b) (Torch.broadcast_index (shape (mask b)) idx).

(** The flags of the axes an index leaves in place: an axis addressed by
    an integer is collapsed, any other axis keeps its flag. *)
Fixpoint surviving_dims (inds : list index_item) (ds : list bool) {struct ds}
  : list bool :=
  match ds with
  | [] => []
  | d :: ds' =>
      match inds with
      | IInt _ :: inds' => surviving_dims inds' ds'
      | _ :: inds' => d :: surviving_dims inds' ds'
      | [] => ds
      end
  end.


(** ** Notions used by the further properties *)

(** The axis a reduction works on, after a negative [dim] has been counted
    from the end. *)
Definition effective_dim (b : MaskedBatch) (dim0 : Z) : Z :=
  if (dim0 <? 0)%Z then (dim0 + batch_dim b)%Z else dim0.

(** The selection that keeps every axis whole. *)
Definition ranges (sh : list nat) : list Torch.axis_sel :=
  map (fun n => Torch.Range 0 1 n) sh.

(** The subscript [_reduce] builds to take position 0 of axis [dim]. *)
Definition pick_axis (dim : Z) (a n : nat) : list index_item :=
  map (fun i => if (Z.of_nat i =? dim)%Z then IInt 0 else full_slice) (seq a n).

(** ** matchbox.functional, continued *)

(** *** size_as_tensor *)

(** [t[:stop]] and [t[start:]] on a tuple. *)
Definition tuple_upto {A} (t : list A) (stop : Z) : list A :=
  firstn (Torch.clamp_bound (length t) stop) t.

Definition tuple_from {A} (t : list A) (start : Z) : list A :=
  skipn (Torch.clamp_bound (length t) start) t.

(** [size_as_tensor(batch, dim)] for an integer [dim].  With [dim = None]
    the function hands over to the batch's [size] method, which belongs to
    the class that is not among the sources; that call is not modelled. *)
Definition size_as_tensor (batch : pyval) (dim : Z) : result pyval :=
  match batch with
  | VBatch b =>
      let dim := if (dim <? 0)%Z then (dim + batch_dim b)%Z else dim in
      static <- (if (dim =? 0)%Z then Ok true
                 else dynamic <- tuple_get (dims b) (dim - 1);;
                      Ok (negb dynamic));;
      if (static : bool)
      then n <- Torch.size (data b) dim;;
           Ok (VTensor (Torch.long_tensor1 (Z.of_nat n)))
      else if builtin_any (tuple_upto (dims b) (dim - 1) ++ tuple_from (dims b) dim)
      then Raise NotImplementedError
      else
        s <- Torch.sum (mask b) (Some dim) false;;
        d <- Torch.view s [-1]%Z;;
        n <- Torch.size (mask b) 0;;
        Ok (VBatch (mkBatch d (full [n] 1) []))
  | VTensor t =>
      n <- Torch.size t dim;;
      Ok (VTensor (Torch.long_tensor1 (Z.of_nat n)))
  | VNum _ => Raise AttributeError
  end.

(** *** _update *)

Definition _update (batch new : pyval) (update_mask : option pyval)
  : result pyval :=
  if negb (is_MaskedBatch batch) && negb (is_MaskedBatch new) then Ok new
  else
    um <- match update_mask with
          | None => attr_mask new
          | Some u =>
              ud <- attr_data u;; umk <- attr_mask u;; Torch.mul ud umk
          end;;
    nd <- attr_data new;;
    old <- match batch with
           | VBatch b => Ok (data b)
           | VTensor t => Ok t
           | VNum _ => Raise TypeError
           end;;
    d <- Torch.where_ um nd old;;
    ds <- attr_dims new;;
    Ok (VBatch (mkBatch d (Torch.type_as um d) ds)).

(** *** contiguous, maxsize *)

Definition contiguous (batch : MaskedBatch) : MaskedBatch :=
  mkBatch (Torch.contiguous (data batch)) (Torch.contiguous (mask batch))
          (dims batch).

(** [maxsize(batch, dim)]: the padded extents of the data; a plain
    tensor's [.data] is the tensor itself. *)
Definition maxsize (batch : pyval) (dim : Z) : result nat :=
  d <- attr_data batch;; Torch.size d dim.

(** *** permute *)

Fixpoint permuted_dims (ds : list bool) (perm : list Z) : result (list bool) :=
  match perm with
  | [] => Ok []
  | i :: perm' =>
      d <- tuple_get ds (i - 1);;
      r <- permuted_dims ds perm';;
      Ok (d :: r)
  end.

Definition permute (batch : MaskedBatch) (permutation : list Z)
  : result MaskedBatch :=
  d <- Torch.permute (data batch) permutation;;
  m <- Torch.permute (mask batch) permutation;;
  ds <- permuted_dims (dims batch) (tl permutation);;
  Ok (mkBatch d m ds).

(** [batch.permute(...)], [batch.dim()] and [batch.size()] on a value that
    is a tensor or a batch. *)
Definition value_permute (batch : pyval) (permutation : list Z) : result pyval :=
  match batch with
  | VBatch b => r <- permute b permutation;; Ok (VBatch r)
  | VTensor t => r <- Torch.permute t permutation;; Ok (VTensor r)
  | VNum _ => Raise AttributeError
  end.

Definition value_dim (batch : pyval) : result Z :=
  d <- attr_data batch;; Ok (Z.of_nat (rank d)).

(** *** split_dim *)

(** The sizes of the view that splits axis [dim] in two. *)
Definition split_sizes (dim split_by : Z) (sh : list nat) : list Z :=
  flat_map (fun p => if (Z.of_nat (fst p) =? dim)%Z
                     then [(Z.of_nat (snd p) / split_by)%Z; split_by]
                     else [Z.of_nat (snd p)])
           (enumerate sh).

(** [split_dim(batch, dim, split_by)] for a positive [split_by]. *)
Definition split_dim (batch : pyval) (dim : Z) (split_by : positive)
  : result pyval :=
  r <- value_dim batch;;
  let dim := if (dim <? 0)%Z then (dim + r)%Z else dim in
  d <- attr_data batch;;
  n <- Torch.size d dim;;
  if negb (Z.of_nat n mod Z.pos split_by =? 0)%Z then Raise ValueError
  else
    match batch with
    | VBatch b =>
        m <- (if (dim =? 0)%Z
              then
                m <- Torch.view (Torch.contiguous (mask b))
                       (split_sizes dim (Z.pos split_by) (shape (mask b)));;
                Torch.narrow m 1 0 1
              else
                dynamic <- tuple_get (dims b) (dim - 1);;
                if (dynamic : bool) then Raise ValueError
                else Torch.unsqueeze (mask b) dim);;
        d' <- Torch.view (Torch.contiguous (data b))
                (split_sizes dim (Z.pos split_by) (shape (data b)));;
        Ok (VBatch (mkBatch d' m
                      (tuple_upto (dims b) dim ++ false :: tuple_from (dims b) dim)))
    | _ =>
        d' <- Torch.view (Torch.contiguous d)
                (split_sizes dim (Z.pos split_by) (shape d));;
        Ok (VTensor d')
    end.

(** *** join_dims *)

(** [list.insert(i, x)] *)
Definition list_insert {A} (l : list A) (i : Z) (x : A) : list A :=
  let k := Torch.clamp_bound (length l) i in
  firstn k l ++ x :: skipn k l.

(** The sizes of the view that joins axis [dim1] with the next one. *)
Fixpoint join_sizes (t : tensor) (dim1 : Z) (es : list (nat * nat))
  : result (list Z) :=
  match es with
  | [] => Ok []
  | (d, s) :: es' =>
      if (Z.of_nat d =? dim1 + 1)%Z then join_sizes t dim1 es'
      else
        v <- (if (Z.of_nat d =? dim1)%Z
              then n <- Torch.size t (Z.of_nat d + 1);; Ok (Z.of_nat (n * s))
              else Ok (Z.of_nat s));;
        r <- join_sizes t dim1 es';;
        Ok (v :: r)
  end.

Definition join_dims (batch : pyval) (dim1 dim2 : Z) : result pyval :=
  r <- value_dim batch;;
  let dim1 := if (dim1 <? 0)%Z then (dim1 + r)%Z else dim1 in
  let dim2 := if (dim2 <? 0)%Z then (dim2 + r)%Z else dim2 in
  moved <- (if negb (dim2 =? dim1 + 1)%Z
            then
              let order :=
                filter (fun n => negb (n =? dim2)%Z)
                       (map Z.of_nat (seq 0 (Z.to_nat r))) in
              p <- value_permute batch (list_insert order (dim1 + 1) dim2);;
              Ok (p, if (dim2 <? dim1)%Z then (dim1 - 1)%Z else dim1)
            else Ok (batch, dim1));;
  let batch := fst moved in
  let dim1 := snd moved in
  match batch with
  | VBatch b =>
      sizes <- join_sizes (data b) dim1 (enumerate (shape (data b)));;
      d <- Torch.view (Torch.contiguous (data b)) sizes;;
      m <- (if (dim1 =? 0)%Z
            then
              m <- Torch.expand (mask b)
                     (map (fun p => if (Z.of_nat (fst p) =? dim1 + 1)%Z
                                    then Z.of_nat (snd p) else (-1)%Z)
                          (enumerate (shape (data b))));;
              msizes <- join_sizes m dim1 (enumerate (shape m));;
              Torch.view (Torch.contiguous m) msizes
            else Torch.squeeze (mask b) (dim1 + 1));;
      Ok (VBatch (mkBatch d m
                    (tuple_upto (dims b) dim1 ++ tuple_from (dims b) (dim1 + 1))))
  | VTensor t =>
      sizes <- join_sizes t dim1 (enumerate (shape t));;
      d <- Torch.view (Torch.contiguous t) sizes;;
      Ok (VTensor d)
  | VNum _ => Raise AttributeError
  end.

(** *** transpose *)

(** [l[i] = v] on a list. *)
Definition list_set {A} (l : list A) (i : Z) (v : A) : result (list A) :=
  let n := Z.of_nat (length l) in
  let j := if (i <? 0)%Z then (i + n)%Z else i in
  if ((j <? 0) || (n <=? j))%Z then Raise IndexError
  else Ok (firstn (Z.to_nat j) l ++ v :: skipn (S (Z.to_nat j)) l).

(** The permutation [transpose] builds when an axis number exceeds the rank. *)
Definition transpose_permutation (r dim1 dim2 : Z) : list Z :=
  let dim1 := if (dim1 <? 0)%Z then (dim1 + r)%Z else dim1 in
  let dim2 := if (dim2 <? 0)%Z then (dim2 + r)%Z else dim2 in
  firstn (Z.to_nat r)
    (map (fun i => if (i =? dim1)%Z then dim2
                   else if (i =? dim2)%Z then dim1 else i)
         (map Z.of_nat (seq 0 (Z.to_nat (r + 1))))).

(** [t.transpose(dim1, dim2)] on a plain tensor: the module has put its own
    [transpose] in place of the tensor's method. *)
Definition tensor_transpose (t : tensor) (dim1 dim2 : Z) : result tensor :=
  let r := Z.of_nat (rank t) in
  if ((r <? dim1) || (r <? dim2))%Z
  then Torch.permute t (transpose_permutation r dim1 dim2)
  else Torch.transpose t dim1 dim2.

Definition transpose (batch : pyval) (dim1 dim2 : Z) : result pyval :=
  r <- value_dim batch;;
  if ((r <? dim1) || (r <? dim2))%Z
  then value_permute batch (transpose_permutation r dim1 dim2)
  else
    match batch with
    | VBatch b =>
        d <- tensor_transpose (data b) dim1 dim2;;
        m <- tensor_transpose (mask b) dim1 dim2;;
        x <- tuple_get (dims b) (dim2 - 1);;
        y <- tuple_get (dims b) (dim1 - 1);;
        ds1 <- list_set (dims b) (dim1 - 1) x;;
        ds2 <- list_set ds1 (dim2 - 1) y;;
        Ok (VBatch (mkBatch d m ds2))
    | VTensor t => r <- Torch.transpose t dim1 dim2;; Ok (VTensor r)
    | VNum _ => Raise AttributeError
    end.

(** The storage of a tensor has one element per position. *)
Definition dense (t : tensor) : bool :=
  length (elems t) =? numel (shape t).

(** *** matmul *)

Definition slice_upto (n : Z) : index_item := ISlice None (Some n) None.

(** [matmul(batch1, batch2)].  For two operands that are no masked batches
    the function asks for [F.matmul], an attribute that
    [torch.nn.functional] does not have. *)
Definition matmul (batch1 batch2 : pyval) : result pyval :=
  match batch1, batch2 with
  | VBatch b1, VBatch b2 =>
      let dims1 := length (dims b1) in
      let dims2 := length (dims b2) in
      data1 <- Torch.mul (data b1) (mask b1);;
      data2 <- Torch.mul (data b2) (mask b2);;
      data1 <- (if dims1 =? 1 then Torch.unsqueeze data1 (-2) else Ok data1);;
      data2 <- (if (dims2 =? 1) && (dims1 =? 1)
                then Torch.unsqueeze data2 (-1) else Ok data2);;
      d <- Torch.matmul data1 data2;;
      _ <- (if (dims1 =? 1) && (dims2 =? 1)
            then Torch.index (mask b1) [full_slice; slice_upto 1]
            else Ok (mask b1));;
      md <- (if (dims1 =? 2) && (dims2 =? 1)
             then
               m1 <- Torch.index (mask b1) [full_slice; full_slice; slice_upto 1];;
               m2 <- Torch.index (mask b2) [full_slice; slice_upto 1];;
               m <- Torch.matmul m1 m2;;
               Ok (m, tuple_upto (dims b1) 1)
             else if (dims1 =? 1) && (dims2 =? 2)
             then
               m1 <- Torch.index (mask b1) [full_slice; slice_upto 1];;
               m1 <- Torch.unsqueeze m1 (-2);;
               m2 <- Torch.index (mask b2) [full_slice; slice_upto 1; full_slice];;
               m <- Torch.matmul m1 m2;;
               Ok (m, tuple_from (dims b2) 1)
             else if (dims1 =? 2) && (dims2 =? 2)
             then
               m1 <- Torch.index (mask b1) [full_slice; full_slice; slice_upto 1];;
               m2 <- Torch.index (mask b2) [full_slice; slice_upto 1; full_slice];;
               m <- Torch.matmul m1 m2;;
               Ok (m, tuple_upto (dims b1) 1 ++ tuple_from (dims b2) 1)
             else Raise NotImplementedError);;
      Ok (VBatch (mkBatch d (fst md) (snd md)))
  | VBatch _, _ | _, VBatch _ => Raise NotImplementedError
  | _, _ => Raise AttributeError
  end.

(** *** split, chunk, cat *)

Definition split (batch : pyval) (split_size_or_sections : Torch.split_arg)
    (dim : Z) : result (list pyval) :=
  match batch with
  | VBatch b =>
      let dim := if (dim <? 0)%Z then (dim + batch_dim b)%Z else dim in
      dynamic <- (if (0 <? dim)%Z then tuple_get (dims b) (dim - 1)
                  else Ok false);;
      if (dynamic : bool)
      then
        ds <- Torch.split (data b) split_size_or_sections dim;;
        ms <- Torch.split (mask b) split_size_or_sections dim;;
        Ok (zip_with (fun d m => VBatch (mkBatch d m (dims b))) ds ms)
      else
        ds <- Torch.split (data b) split_size_or_sections dim;;
        Ok (map (fun d => VBatch (mkBatch d (mask b) (dims b))) ds)
  | VTensor t =>
      ts <- Torch.split t split_size_or_sections dim;;
      Ok (map VTensor ts)
  | VNum _ => Raise TypeError
  end.

(** [chunk(batch, chunks, dim)] for a positive number of chunks. *)
Definition chunk (batch : pyval) (chunks : positive) (dim : Z)
  : result (list pyval) :=
  r <- value_dim batch;;
  let dim := if (dim <? 0)%Z then (dim + r)%Z else dim in
  n <- maxsize batch dim;;
  split batch
        (Torch.SplitSize ((Z.of_nat n + Z.pos chunks - 1) / Z.pos chunks)%Z) dim.

Fixpoint all_data (sequence : list pyval) : result (list tensor) :=
  match sequence with
  | [] => Ok []
  | v :: vs => d <- attr_data v;; ds <- all_data vs;; Ok (d :: ds)
  end.

Fixpoint all_masks (sequence : list pyval) : result (list tensor) :=
  match sequence with
  | [] => Ok []
  | v :: vs => m <- attr_mask v;; ms <- all_masks vs;; Ok (m :: ms)
  end.

Fixpoint all_tensors (sequence : list pyval) : result (list tensor) :=
  match sequence with
  | [] => Ok []
  | VTensor t :: vs => ts <- all_tensors vs;; Ok (t :: ts)
  | _ :: _ => Raise TypeError
  end.

Definition cat (sequence : list pyval) (dim : Z) : result pyval :=
  match sequence with
  | [] => Raise ValueError
  | VBatch first :: _ =>
      ds <- all_data sequence;;
      d <- Torch.cat ds dim;;
      dynamic <- tuple_get (dims first) (dim - 1);;
      m <- (if (dynamic : bool)
            then ms <- all_masks sequence;; Torch.cat ms dim
            else Ok (mask first));;
      Ok (VBatch (mkBatch d m (dims first)))
  | _ :: _ =>
      ts <- all_tensors sequence;;
      r <- Torch.cat ts dim;;
      Ok (VTensor r)
  end.

(** *** stack, unbind *)

(** The list [[batch.data.unsqueeze(dim) for batch in sequence]] and its
    counterpart for the masks. *)
Fixpoint unsqueezed_data (sequence : list pyval) (dim : Z)
  : result (list tensor) :=
  match sequence with
  | [] => Ok []
  | v :: vs =>
      d <- attr_data v;;
      u <- Torch.unsqueeze d dim;;
      us <- unsqueezed_data vs dim;;
      Ok (u :: us)
  end.

Fixpoint unsqueezed_masks (sequence : list pyval) (dim : Z)
  : result (list tensor) :=
  match sequence with
  | [] => Ok []
  | v :: vs =>
      m <- attr_mask v;;
      u <- Torch.unsqueeze m dim;;
      us <- unsqueezed_masks vs dim;;
      Ok (u :: us)
  end.

(** [stack(sequence, dim, dynamic)]; [dynamic = None] lets the function
    decide from the masks of the first and the last batch. *)
Definition stack (sequence : list pyval) (dim : Z) (dynamic : option bool)
  : result pyval :=
  match sequence with
  | [] => Raise ValueError
  | VBatch first :: _ =>
      let dim := if (dim <? 0)%Z then (dim + batch_dim first + 1)%Z else dim in
      dynamic <- match dynamic with
                 | Some d => Ok d
                 | None =>
                     m <- attr_mask (last sequence (VBatch first));;
                     e <- Torch.eq (mask first) m;;
                     Ok (negb (Torch.all e))
                 end;;
      us <- unsqueezed_data sequence dim;;
      d <- Torch.cat us dim;;
      m <- (if (dynamic : bool)
            then ms <- unsqueezed_masks sequence dim;; Torch.cat ms dim
            else Torch.unsqueeze (mask first) dim);;
      Ok (VBatch (mkBatch d m
                    (tuple_upto (dims first) (dim - 1) ++ [dynamic]
                     ++ tuple_from (dims first) (dim - 1))))
  | _ :: _ =>
      ts <- all_tensors sequence;;
      r <- Torch.stack ts dim;;
      Ok (VTensor r)
  end.

(** [unbind(batch, dim)] *)
Definition unbind (batch : pyval) (dim : Z) : result (list pyval) :=
  match batch with
  | VBatch b =>
      if (dim =? 0)%Z then Raise ValueError
      else
        let dims' :=
          map snd (filter (fun p => negb (Z.of_nat (fst p) =? dim - 1)%Z)
                          (enumerate (dims b))) in
        dynamic <- tuple_get (dims b) (dim - 1);;
        if (dynamic : bool)
        then
          ds <- Torch.unbind (data b) dim;;
          ms <- Torch.unbind (mask b) dim;;
          Ok (zip_with (fun d m => VBatch (mkBatch d m dims')) ds ms)
        else
          m <- Torch.squeeze (mask b) dim;;
          ds <- Torch.unbind (data b) dim;;
          Ok (map (fun d => VBatch (mkBatch d m dims')) ds)
  | VTensor t =>
      ts <- Torch.unbind t dim;;
      Ok (map VTensor ts)
  | VNum _ => Raise TypeError
  end.

(** *** embedding *)

(** [embedding(batch, weight)] with the remaining arguments at their
    defaults.  The mask's [float()] changes the element type only. *)
Definition embedding (batch : pyval) (weight : tensor) : result pyval :=
  match batch with
  | VBatch b =>
      d <- Torch.embedding (data b) weight;;
      m <- Torch.unsqueeze (mask b) (-1);;
      Ok (VBatch (mkBatch d m (dims b ++ [false])))
  | VTensor t =>
      r <- Torch.embedding t weight;;
      Ok (VTensor r)
  | VNum _ => Raise TypeError
  end.

(** ** Floating-point tensors *)

(** The tensors above hold whole numbers, and a whole number times zero is
    zero.  An element of a floating-point tensor can also be an infinity or
    NaN, for which that fails.  This module embeds the multiplication by the
    mask and the functions built on it once more, over such elements.
    Shapes, positions, broadcasting and subscripts are those of the modules
    above.  Finite elements are whole numbers and arithmetic on them is
    exact: rounding and overflow are not modelled, and the two zeros are one
    value. *)
Module Floating.

Inductive float : Type :=
| Fin (z : Z)
| Inf (negative : bool)
| NaN.

Definition is_finite (x : float) : bool :=
  match x with Fin _ => true | _ => false end.

(** [x == 0] *)
Definition is_zero (x : float) : bool :=
  match x with Fin z => (z =? 0)%Z | _ => false end.

Definition same_float (x y : float) : bool :=
  match x, y with
  | Fin a, Fin b => (a =? b)%Z
  | Inf s, Inf t => Bool.eqb s t
  | NaN, NaN => true
  | _, _ => false
  end.

(** The product: NaN is absorbing, and an infinity times zero is NaN. *)
Definition mul_float (x y : float) : float :=
  match x, y with
  | NaN, _ | _, NaN => NaN
  | Fin a, Fin b => Fin (a * b)
  | Inf s, Inf t => Inf (xorb s t)
  | Inf s, Fin b | Fin b, Inf s =>
      if (b =? 0)%Z then NaN else Inf (xorb s (b <? 0)%Z)
  end.

(** The sum: NaN is absorbing, and opposite infinities add up to NaN. *)
Definition add_float (x y : float) : float :=
  match x, y with
  | NaN, _ | _, NaN => NaN
  | Fin a, Fin b => Fin (a + b)
  | Inf s, Inf t => if Bool.eqb s t then Inf s else NaN
  | Inf s, Fin _ | Fin _, Inf s => Inf s
  end.

Record tensor : Type := mkTensor { shape : list nat; elems : list float }.

Definition rank (t : tensor) : nat := length (shape t).

Definition get (t : tensor) (idx : list nat) : float :=
  nth (offset (shape t) idx) (elems t) (Fin 0).

Definition tabulate (sh : list nat) (f : list nat -> float) : tensor :=
  mkTensor sh (map f (indices sh)).

Definition sum_list (l : list float) : float := fold_right add_float (Fin 0) l.

(** [a * b] with broadcasting. *)
Definition mul (a b : tensor) : result tensor :=
  match Torch.broadcast_shapes (shape a) (shape b) with
  | Some sh =>
      Ok (tabulate sh (fun idx =>
            mul_float (get a (Torch.broadcast_index (shape a) idx))
                      (get b (Torch.broadcast_index (shape b) idx))))
  | None => Raise RuntimeError
  end.

(** [t[i0, i1, ...]] *)
Definition index (t : tensor) (items : list index_item) : result tensor :=
  sels <- Torch.resolve (shape t) items;;
  Ok (tabulate (Torch.out_shape sels)
        (fun j => get t (Torch.source_index sels j))).

(** [torch.sum(t, dim, keepdim)] *)
Definition sum (t : tensor) (dim : option Z) (keepdim : bool) : result tensor :=
  match dim with
  | None =>
      Ok (mkTensor (if keepdim then map (fun _ => 1) (shape t) else [])
                   [sum_list (map (get t) (indices (shape t)))])
  | Some d =>
      j <- Torch.wrap_dim (rank t) d;;
      let n := nth j (shape t) 0 in
      if keepdim
      then Ok (tabulate (Torch.replace_at j 1 (shape t)) (fun idx =>
                 sum_list (map (fun k => get t (Torch.replace_at j k idx))
                               (seq 0 n))))
      else Ok (tabulate (Torch.remove_at j (shape t)) (fun idx =>
                 sum_list (map (fun k => get t (Torch.insert_at j k idx))
                               (seq 0 n))))
  end.

(** [t.any()] and [t.all()]: NaN and the infinities are non-zero. *)
Definition tensor_any (t : tensor) : bool :=
  existsb (fun idx => negb (is_zero (get t idx))) (indices (shape t)).

Definition tensor_all (t : tensor) : bool :=
  forallb (fun idx => negb (is_zero (get t idx))) (indices (shape t)).

(** Modelled from the spec: the [MaskedBatch] class of the package's
    [__init__] module, here with floating-point [data] and [mask]. *)
Record MaskedBatch : Type := mkBatch {
  data : tensor;
  mask : tensor;
  dims : list bool
}.

Definition batch_dim (b : MaskedBatch) : Z := Z.of_nat (rank (data b)).

Definition reduce_kernel : Type := tensor -> option Z -> bool -> result tensor.

Definition _reduce (fn : reduce_kernel) (zero_preserving : bool)
    (batch : MaskedBatch) (dim : option Z) (keepdim : bool)
  : result MaskedBatch :=
  match dim with
  | None =>
      if negb zero_preserving && builtin_any (dims batch)
      then Raise NotImplementedError
      else
        m <- index (mask batch)
               (full_slice :: map (fun _ => IInt 0) (dims batch));;
        p <- mul (data batch) (mask batch);;
        d <- fn p None keepdim;;
        Ok (mkBatch d m [])
  | Some dim0 =>
      let dim := if (dim0 <? 0)%Z then (dim0 + batch_dim batch)%Z else dim0 in
      _ <- (if zero_preserving then Ok tt
            else
              dynamic <- tuple_get (dims batch) (dim - 1);;
              if (dynamic : bool) then Raise NotImplementedError else Ok tt);;
      let axes := seq 0 (rank (mask batch)) in
      let at_dim (i : nat) := (Z.of_nat i =? dim)%Z in
      if keepdim
      then
        m <- index (mask batch)
               (map (fun i => if at_dim i then ISlice (Some 0%Z) (Some 1%Z) None
                              else full_slice) axes);;
        p <- mul (data batch) (mask batch);;
        d <- fn p (Some dim) keepdim;;
        Ok (mkBatch d m
              (map (fun p => if (Z.of_nat (fst p) =? dim - 1)%Z then false
                             else snd p)
                   (enumerate (dims batch))))
      else
        m <- index (mask batch)
               (map (fun i => if at_dim i then IInt 0 else full_slice) axes);;
        p <- mul (data batch) (mask batch);;
        d <- fn p (Some dim) keepdim;;
        Ok (mkBatch d m
              (map snd
                 (filter (fun p => negb (Z.of_nat (fst p) =? dim - 1)%Z)
                         (enumerate (dims batch)))))
  end.

Definition MaskedBatch_sum := _reduce sum true.

Definition any (batch : MaskedBatch) : result bool :=
  p <- mul (data batch) (mask batch);; Ok (tensor_any p).

Definition all (batch : MaskedBatch) : result bool :=
  p <- mul (data batch) (mask batch);; Ok (tensor_all p).

(** *** The notions the properties use *)

(** The mask broadcasts to the data's shape. *)
Definition mask_fits (b : MaskedBatch) : bool :=
  match Torch.broadcast_shapes (shape (data b)) (shape (mask b)) with
  | Some s => shape_eqb s (shape (data b))
  | None => false
  end.

(** The mask value that governs position [idx] of the data. *)
Definition mask_at (b : MaskedBatch) (idx : list nat) : float :=
  get (mask b) (Torch.broadcast_index (shape (mask b)) idx).

(** A position is padding when the mask value that governs it is zero. *)
Definition is_padding (b : MaskedBatch) (idx : list nat) : bool :=
  is_zero (mask_at b idx).

(** Two batches differ at most in what their padding positions hold. *)
Definition same_valid (b b' : MaskedBatch) : bool :=
  shape_eqb (shape (data b)) (shape (data b'))
  && forallb (fun idx => is_padding b idx
                         || same_float (get (data b) idx) (get (data b') idx))
             (indices (shape (data b))).

(** Every padding position of the data holds a finite value. *)
Definition finite_padding (b : MaskedBatch) : bool :=
  forallb (fun idx => negb (is_padding b idx) || is_finite (get (data b) idx))
          (indices (shape (data b))).

(** Every mask value is 0 or 1. *)
Definition binary_mask (b : MaskedBatch) : bool :=
  forallb (fun idx => same_float (mask_at b idx) (Fin 0)
                      || same_float (mask_at b idx) (Fin 1))
          (indices (shape (data b))).

(** The batch with every padding position of the data set to zero. *)
Definition zero_padding (b : MaskedBatch) : MaskedBatch :=
  mkBatch (tabulate (shape (data b))
             (fun idx => if is_padding b idx then Fin 0 else get (data b) idx))
          (mask b) (dims b).

End Floating.
(** ** Facts about the result monad *)

Lemma bind_ok {A B} (r : result A) (k : A -> result B) (b : B) :
  Py.bind r k = Ok b -> exists a, r = Ok a /\ k a = Ok b.
Proof.
  destruct r as [a|e]; simpl; intros H; [eauto|discriminate].
Qed.

Ltac bind_inv H :=
  let a := fresh "v" in
  let Ha := fresh "Hv" in
  apply bind_ok in H; destruct H as [a [Ha H]].

Lemma tuple_get_last {A} (l : list A) (x : A) :
  tuple_get (l ++ [x]) (-1) = Ok x.
Proof.
  unfold tuple_get. cbv zeta. change ((-1 <? 0)%Z) with true. cbv iota.
  rewrite length_app. cbn [length].
  replace (- 1 + Z.of_nat (length l + 1))%Z with (Z.of_nat (length l)) by lia.
  replace ((Z.of_nat (length l) <? 0)%Z) with false by (symmetry; apply Z.ltb_ge; lia).
  replace ((Z.of_nat (length l + 1) <=? Z.of_nat (length l))%Z) with false
    by (symmetry; apply Z.leb_gt; lia).
  cbn [orb]. rewrite Nat2Z.id.
  rewrite nth_error_app2 by lia. now rewrite Nat.sub_diag.
Qed.

(** ** Facts about the tensor layout *)

Lemma length_indices (sh : list nat) : length (indices sh) = numel sh.
Proof.
  induction sh as [|n sh IH]; simpl; [reflexivity|].
  assert (H : forall a, length (flat_map (fun i => map (cons i) (indices sh)) (seq a n))
                        = n * numel sh).
  { induction n as [|n IHn]; intros a; simpl; [reflexivity|].
    rewrite length_app, length_map, IH, IHn. reflexivity. }
  apply H.
Qed.

Lemma nth_blocks (A : Type) (g : nat -> list A) (m : nat) (d : A) :
  (forall i, length (g i) = m) ->
  forall n a i j, i < n -> j < m ->
    nth (i * m + j) (flat_map g (seq a n)) d = nth j (g (a + i)) d.
Proof.
  intros Hg. induction n as [|n IH]; intros a i j Hi Hj; [lia|].
  simpl. destruct i as [|i].
  - simpl. rewrite app_nth1 by (rewrite Hg; lia).
    now rewrite Nat.add_0_r.
  - rewrite app_nth2 by (rewrite Hg; simpl; lia).
    rewrite Hg. replace (S i * m + j - m) with (i * m + j) by (simpl; lia).
    rewrite IH by lia. f_equal. f_equal. lia.
Qed.

Lemma offset_lt (sh idx : list nat) :
  in_range sh idx = true -> offset sh idx < numel sh.
Proof.
  revert idx. induction sh as [|n sh IH]; intros [|i idx] H; simpl in *;
    try discriminate; [lia|].
  apply andb_prop in H. destruct H as [Hi H].
  apply Nat.ltb_lt in Hi. specialize (IH _ H). nia.
Qed.

Lemma nth_offset_indices (sh idx d : list nat) :
  in_range sh idx = true -> nth (offset sh idx) (indices sh) d = idx.
Proof.
  revert idx. induction sh as [|n sh IH]; intros [|i idx] H; simpl in *;
    try discriminate; [reflexivity|].
  apply andb_prop in H. destruct H as [Hi H].
  apply Nat.ltb_lt in Hi.
  rewrite (@nth_blocks _ (fun i => map (cons i) (indices sh)) (numel sh)).
  - simpl. pose proof (offset_lt _ _ H) as Hlt.
    rewrite <- (length_indices sh) in Hlt.
    rewrite (nth_indep _ d (i :: d)) by (rewrite length_map; exact Hlt).
    rewrite map_nth. now rewrite IH.
  - intros k. now rewrite length_map, length_indices.
  - exact Hi.
  - now apply offset_lt.
Qed.

Lemma in_indices (sh idx : list nat) :
  In idx (indices sh) -> in_range sh idx = true.
Proof.
  revert idx. induction sh as [|n sh IH]; intros idx H; simpl in *.
  - destruct H as [<-|[]]. reflexivity.
  - apply in_flat_map in H. destruct H as [i [Hi H]].
    apply in_map_iff in H. destruct H as [idx' [<- H]].
    apply in_seq in Hi. simpl.
    apply andb_true_intro. split; [apply Nat.ltb_lt; lia|now apply IH].
Qed.

Lemma get_tabulate (sh : list nat) (f : list nat -> Z) (idx : list nat) :
  in_range sh idx = true -> get (tabulate sh f) idx = f idx.
Proof.
  intros H. unfold get, tabulate. simpl.
  pose proof (offset_lt _ _ H) as Hlt. rewrite <- length_indices in Hlt.
  rewrite (nth_indep _ 0%Z (f idx)) by (rewrite length_map; exact Hlt).
  rewrite map_nth. now rewrite nth_offset_indices.
Qed.

Lemma tabulate_ext (sh : list nat) (f g : list nat -> Z) :
  (forall idx, in_range sh idx = true -> f idx = g idx) ->
  tabulate sh f = tabulate sh g.
Proof.
  intros H. unfold tabulate. f_equal.
  apply map_ext_in. intros idx Hin. apply H. now apply in_indices.
Qed.

Lemma in_range_length (sh idx : list nat) :
  in_range sh idx = true -> length idx = length sh.
Proof.
  revert idx. induction sh as [|n sh IH]; intros [|i idx] H; simpl in *;
    try discriminate; [reflexivity|].
  apply andb_prop in H. destruct H as [_ H]. f_equal. now apply IH.
Qed.

Lemma in_range_indices (sh idx : list nat) :
  in_range sh idx = true -> In idx (indices sh).
Proof.
  intros H. rewrite <- (nth_offset_indices sh idx [] H).
  apply nth_In. rewrite length_indices. now apply offset_lt.
Qed.

(** ** Broadcasting *)

Lemma broadcast_aligned_refl (s : list nat) :
  Torch.broadcast_aligned s s = Some s.
Proof.
  induction s as [|a s IH]; simpl; [reflexivity|].
  now rewrite IH, Nat.eqb_refl.
Qed.

Lemma pad_left_full (s : list nat) : Torch.pad_left (length s) s = s.
Proof. unfold Torch.pad_left. now rewrite Nat.sub_diag. Qed.

Lemma broadcast_shapes_refl (s : list nat) :
  Torch.broadcast_shapes s s = Some s.
Proof.
  unfold Torch.broadcast_shapes. rewrite Nat.max_id, pad_left_full.
  apply broadcast_aligned_refl.
Qed.

Lemma broadcast_index_in_range (sh idx : list nat) :
  in_range sh idx = true -> Torch.broadcast_index sh idx = idx.
Proof.
  intros H. unfold Torch.broadcast_index.
  rewrite (in_range_length _ _ H), Nat.sub_diag. simpl.
  revert idx H. induction sh as [|n sh IH]; intros [|i idx] H; simpl in *;
    try discriminate; [reflexivity|].
  apply andb_prop in H. destruct H as [Hi H]. apply Nat.ltb_lt in Hi.
  unfold zip_with in *. simpl. rewrite (IH _ H). f_equal.
  destruct (Nat.eqb_spec n 1); lia.
Qed.

Lemma shape_eqb_eq (s1 s2 : list nat) : shape_eqb s1 s2 = true -> s1 = s2.
Proof.
  revert s2. induction s1 as [|a s1 IH]; intros [|b s2] H; simpl in *;
    try discriminate; [reflexivity|].
  apply andb_prop in H. destruct H as [Hab H].
  apply Nat.eqb_eq in Hab. f_equal; [exact Hab|now apply IH].
Qed.

Lemma shape_eqb_refl (s : list nat) : shape_eqb s s = true.
Proof. induction s; simpl; [reflexivity|]. now rewrite Nat.eqb_refl. Qed.

Lemma mask_fits_shapes (b : MaskedBatch) :
  mask_fits b = true ->
  Torch.broadcast_shapes (shape (data b)) (shape (mask b)) = Some (shape (data b)).
Proof.
  unfold mask_fits.
  destruct (Torch.broadcast_shapes _ _) as [s|]; [|discriminate].
  intros H. apply shape_eqb_eq in H. now subst.
Qed.

(** The product [data * mask] of a batch whose mask fits its data. *)
Lemma mul_data_mask (b : MaskedBatch) :
  mask_fits b = true ->
  Torch.mul (data b) (mask b)
  = Ok (tabulate (shape (data b))
          (fun idx => (get (data b) idx * mask_at b idx)%Z)).
Proof.
  intros H. unfold Torch.mul, Torch.pointwise2.
  rewrite (mask_fits_shapes _ H). f_equal.
  apply tabulate_ext. intros idx Hidx.
  now rewrite (broadcast_index_in_range _ _ Hidx).
Qed.

(** ** Synchronize *)

Lemma shape_rsub_scalar (c : Z) (t : tensor) :
  shape (Torch.rsub_scalar c t) = shape t.
Proof. reflexivity. Qed.

Lemma add_complement (m : tensor) :
  Torch.add m (Torch.rsub_scalar 1 m) = Ok (full (shape m) 1).
Proof.
  unfold Torch.add, Torch.pointwise2.
  rewrite shape_rsub_scalar, broadcast_shapes_refl. f_equal.
  apply tabulate_ext. intros idx Hidx.
  rewrite (broadcast_index_in_range _ _ Hidx).
  unfold Torch.rsub_scalar, Torch.pointwise1.
  rewrite (get_tabulate _ _ _ Hidx). lia.
Qed.

Lemma get_full (sh : list nat) (v : Z) (idx : list nat) :
  in_range sh idx = true -> get (full sh v) idx = v.
Proof. intros H. unfold full. now rewrite get_tabulate. Qed.

(** C5. [_synchronize] raises [ValueError] on a batch with a dynamic axis.
    On a batch with none it returns the batch with the same data and dims
    and a mask of the same shape that is 1 at every position, and
    synchronizing that result again returns it unchanged. *)
Theorem synchronize_seals (b : MaskedBatch) :
  (builtin_any (dims b) = true -> _synchronize (VBatch b) = Raise ValueError)
  /\ (builtin_any (dims b) = false ->
      exists r,
        _synchronize (VBatch b) = Ok (VBatch r)
        /\ data r = data b /\ dims r = dims b
        /\ shape (mask r) = shape (mask b)
        /\ (forall idx, in_range (shape (mask r)) idx = true ->
                        get (mask r) idx = 1%Z)
        /\ _synchronize (VBatch r) = Ok (VBatch r)).
Proof.
  split; intros Hdyn; unfold _synchronize.
  - now rewrite Hdyn.
  - rewrite Hdyn, add_complement. simpl.
    exists (mkBatch (data b) (full (shape (mask b)) 1) (dims b)).
    simpl. repeat split.
    + intros idx Hidx. now apply get_full.
    + now rewrite Hdyn, add_complement.
Qed.

Lemma synchronize_seals_witness :
  let b := mkBatch (mkTensor [2; 2] [5; 6; 7; 8]%Z)
                   (mkTensor [2; 1] [1; 0]%Z) [false] in
  _synchronize (VBatch (mkBatch (data b) (mask b) [true])) = Raise ValueError
  /\ exists r,
       _synchronize (VBatch b) = Ok (VBatch r)
       /\ data r = data b /\ dims r = dims b
       /\ get (mask r) [1; 0] = 1%Z
       /\ _synchronize (VBatch r) = Ok (VBatch r).
Proof.
  intros b. split.
  - exact (proj1 (synchronize_seals (mkBatch (data b) (mask b) [true])) eq_refl).
  - destruct (proj2 (synchronize_seals b) eq_refl)
      as [r [Hr [Hdata [Hdims [Hshape [Hones Hagain]]]]]].
    exists r. split; [exact Hr|]. split; [exact Hdata|]. split; [exact Hdims|].
    split; [|exact Hagain].
    apply Hones. rewrite Hshape. reflexivity.
Defined.

(** ** Elementwise binary operations *)

(** C7. With a masked left operand and a right operand that is a plain
    tensor or number, the result carries the left operand's mask and dims
    unchanged; its data is what the kernel returns on the left operand's
    data and the plain value. *)
Theorem elementwise_binary_plain (fn : kernel) (b : MaskedBatch) (y : pyval)
    (d : tensor) :
  is_MaskedBatch y = false ->
  fn [VTensor (data b); y] = Ok d ->
  _elementwise_binary fn [VBatch b; y]
  = Ok (VBatch (mkBatch d (mask b) (dims b))).
Proof.
  intros Hy Hfn. unfold _elementwise_binary. simpl.
  rewrite Hy. simpl. now rewrite Hfn.
Qed.

Lemma elementwise_binary_plain_witness :
  let b := mkBatch (mkTensor [2; 3] [1; 2; 9; 4; 5; 6]%Z)
                   (mkTensor [2; 3] [1; 1; 0; 1; 1; 1]%Z) [true] in
  MaskedBatch___add__ [VBatch b; VNum 10]
  = Ok (VBatch (mkBatch (mkTensor [2; 3] [11; 12; 19; 14; 15; 16]%Z)
                        (mask b) (dims b))).
Proof.
  intros b.
  exact (elementwise_binary_plain Tensor___add__0 b (VNum 10)
           (mkTensor [2; 3] [11; 12; 19; 14; 15; 16]%Z) eq_refl eq_refl).
Defined.

(** ** Linear map *)

(** C9. On a batch whose trailing axis is flagged dynamic [linear] raises
    [ValueError]; on one whose trailing axis is static it returns the
    batch's mask and dims with the linear map of its data, whenever the
    linear map of the data itself is defined. *)
Theorem linear_trailing_axis (b : MaskedBatch) (weight : tensor)
    (bias : option tensor) (ds : list bool) (flag : bool) :
  dims b = ds ++ [flag] ->
  (flag = true -> linear (VBatch b) weight bias = Raise ValueError)
  /\ (flag = false ->
      forall d, Torch.linear (data b) weight bias = Ok d ->
        linear (VBatch b) weight bias
        = Ok (VBatch (mkBatch d (mask b) (dims b)))).
Proof.
  intros Hds. unfold linear. rewrite Hds, tuple_get_last. simpl.
  split; intros ->; [reflexivity|].
  intros d Hd. now rewrite Hd.
Qed.

Lemma linear_trailing_axis_witness :
  let x := mkTensor [1; 2; 2] [1; 2; 3; 4]%Z in
  let w := mkTensor [1; 2] [1; 1]%Z in
  linear (VBatch (mkBatch x (mkTensor [1; 2; 2] [1; 1; 1; 0]%Z) [true; true]))
         w None = Raise ValueError
  /\ linear (VBatch (mkBatch x (mkTensor [1; 2; 1] [1; 0]%Z) [true; false]))
            w None
     = Ok (VBatch (mkBatch (mkTensor [1; 2; 1] [3; 7]%Z)
                           (mkTensor [1; 2; 1] [1; 0]%Z) [true; false])).
Proof.
  intros x w. split.
  - exact (proj1 (linear_trailing_axis
                    (mkBatch x (mkTensor [1; 2; 2] [1; 1; 1; 0]%Z) [true; true])
                    w None [true] true eq_refl) eq_refl).
  - exact (proj2 (linear_trailing_axis
                    (mkBatch x (mkTensor [1; 2; 1] [1; 0]%Z) [true; false])
                    w None [true] false eq_refl) eq_refl
                 (mkTensor [1; 2; 1] [3; 7]%Z) eq_refl).
Defined.

(** ** View *)

Lemma args_unbound :
  name_lookup (view_locals ++ module_globals ++ builtins) "args" = Raise NameError.
Proof. reflexivity. Qed.

(** C10. [view] never returns a batch: when the first requested size is
    1, -1 or the batch size and the reshape of the data succeeds, the
    reference to the unbound name [args] raises [NameError]. *)
Theorem view_raises_name_error (b : MaskedBatch) (sizes : list Z) :
  (forall r, view b sizes <> Ok r)
  /\ (forall bs s0 d,
        Torch.size (data b) 0 = Ok bs ->
        tuple_get sizes 0 = Ok s0 ->
        one_of s0 [1; -1; Z.of_nat bs]%Z = true ->
        Torch.view (data b) (Z.of_nat bs :: tl sizes) = Ok d ->
        view b sizes = Raise NameError).
Proof.
  split.
  - intros r H. unfold view in H.
    bind_inv H. bind_inv H.
    destruct (negb _); [discriminate|].
    bind_inv H. rewrite args_unbound in H. discriminate.
  - intros bs s0 d Hbs Hs0 Hin Hd. unfold view.
    rewrite Hbs. cbn [Py.bind]. rewrite Hs0. cbn [Py.bind]. cbv zeta.
    rewrite Hin. cbn [negb]. rewrite Hd. cbn [Py.bind].
    now rewrite args_unbound.
Qed.

Lemma view_raises_name_error_witness :
  let b := mkBatch (mkTensor [2; 3] [1; 2; 9; 4; 5; 6]%Z)
                   (mkTensor [2; 3] [1; 1; 0; 1; 1; 1]%Z) [true] in
  view b [-1; 3]%Z = Raise NameError.
Proof.
  intros b.
  exact (proj2 (view_raises_name_error b [-1; 3]%Z) 2 (-1)%Z
           (mkTensor [2; 3] [1; 2; 9; 4; 5; 6]%Z)
           eq_refl eq_refl eq_refl eq_refl).
Defined.

(** ** Reflected arithmetic *)

Lemma reflected_add_dispatch (t : tensor) (b : MaskedBatch) :
  Tensor___add__ (VTensor t) (VBatch b)
  = MaskedBatch___add__ [VBatch b; VTensor t].
Proof. reflexivity. Qed.

Lemma reflected_mul_dispatch (t : tensor) (b : MaskedBatch) :
  Tensor___mul__ (VTensor t) (VBatch b)
  = MaskedBatch___mul__ [VBatch b; VTensor t].
Proof. reflexivity. Qed.

Lemma neg_arity (b : MaskedBatch) :
  MaskedBatch___neg__ [VBatch b] = Raise TypeError.
Proof. reflexivity. Qed.

(** C6. The reflected subtraction [t - b] of a plain tensor and a masked
    batch does not return the masked difference: it negates the batch
    through [__neg__], which was built with the two-argument wrapper, and
    the call with one argument raises [TypeError].  At the tensor and batch
    below the masked difference exists, and the code raises. *)
Theorem reflected_sub_raises :
  (forall (t : tensor) (b : MaskedBatch),
     Tensor___sub__ (VTensor t) (VBatch b) = Raise TypeError)
  /\ (let t := mkTensor [2; 2] [10; 10; 10; 10]%Z in
      let b := mkBatch (mkTensor [2; 2] [1; 2; 3; 4]%Z)
                       (mkTensor [2; 2] [1; 1; 1; 0]%Z) [true] in
      masked_reflected Tensor___sub__0 t b
      = Ok (VBatch (mkBatch (mkTensor [2; 2] [9; 8; 7; 6]%Z) (mask b) (dims b)))
      /\ Tensor___sub__ (VTensor t) (VBatch b) = Raise TypeError).
Proof.
  split; [reflexivity|]. split; reflexivity.
Qed.

Lemma nth_error_zip_with {A B C} (f : A -> B -> C) (l1 : list A) (l2 : list B)
    (i : nat) (a : A) (b : B) :
  nth_error l1 i = Some a -> nth_error l2 i = Some b ->
  nth_error (zip_with f l1 l2) i = Some (f a b).
Proof.
  revert l2 i. induction l1 as [|x l1 IH]; intros [|y l2] [|i] H1 H2;
    simpl in *; try discriminate.
  - now inversion H1; inversion H2.
  - now apply IH.
Qed.

Lemma length_zip_with {A B C} (f : A -> B -> C) (l1 : list A) (l2 : list B) :
  length (zip_with f l1 l2) = Nat.min (length l1) (length l2).
Proof. unfold zip_with. now rewrite length_map, length_combine. Qed.

Lemma pointwise2_get (op : Z -> Z -> Z) (a b : tensor) (sh : list nat) :
  Torch.broadcast_shapes (shape a) (shape b) = Some sh ->
  exists m,
    Torch.pointwise2 op a b = Ok m
    /\ shape m = sh
    /\ forall idx, in_range sh idx = true ->
         get m idx = op (get a (Torch.broadcast_index (shape a) idx))
                        (get b (Torch.broadcast_index (shape b) idx)).
Proof.
  intros H. unfold Torch.pointwise2. rewrite H.
  eexists. split; [reflexivity|]. split; [reflexivity|].
  intros idx Hidx. now rewrite get_tabulate.
Qed.

(** C1. For two masked operands whose masks broadcast together, the result
    of an elementwise binary operation has as data what the kernel returns on
    the two data tensors, as mask the broadcast elementwise product of the
    two masks, and as dims the pairwise disjunction of the operands' flags. *)
Theorem elementwise_binary_masked (fn : kernel) (x y : MaskedBatch)
    (d : tensor) (sh : list nat) :
  fn [VTensor (data x); VTensor (data y)] = Ok d ->
  Torch.broadcast_shapes (shape (mask x)) (shape (mask y)) = Some sh ->
  exists r,
    _elementwise_binary fn [VBatch x; VBatch y] = Ok (VBatch r)
    /\ data r = d
    /\ Torch.mul (mask x) (mask y) = Ok (mask r)
    /\ shape (mask r) = sh
    /\ (forall idx, in_range sh idx = true ->
          get (mask r) idx
          = (get (mask x) (Torch.broadcast_index (shape (mask x)) idx)
             * get (mask y) (Torch.broadcast_index (shape (mask y)) idx))%Z)
    /\ length (dims r) = Nat.min (length (dims x)) (length (dims y))
    /\ (forall i dx dy,
          nth_error (dims x) i = Some dx -> nth_error (dims y) i = Some dy ->
          nth_error (dims r) i = Some (dx || dy)).
Proof.
  intros Hfn Hsh.
  destruct (pointwise2_get Z.mul (mask x) (mask y) sh Hsh) as [m [Hm [Hshape Hget]]].
  exists (mkBatch d m (zip_with orb (dims x) (dims y))).
  unfold _elementwise_binary. cbn [is_MaskedBatch negb andb attr_data attr_mask
                                   attr_dims Py.bind].
  rewrite Hfn. cbn [Py.bind]. unfold Torch.mul. rewrite Hm. cbn [Py.bind data mask dims].
  repeat split; try assumption.
  - apply length_zip_with.
  - intros i dx dy Hx Hy. now apply nth_error_zip_with.
Qed.

Lemma elementwise_binary_masked_witness :
  let x := mkBatch (mkTensor [2; 2] [1; 2; 3; 4]%Z)
                   (mkTensor [2; 2] [1; 1; 1; 0]%Z) [true] in
  let y := mkBatch (mkTensor [2; 2] [10; 20; 30; 40]%Z)
                   (mkTensor [2; 1] [1; 0]%Z) [false] in
  exists r,
    MaskedBatch___add__ [VBatch x; VBatch y] = Ok (VBatch r)
    /\ data r = mkTensor [2; 2] [11; 22; 33; 44]%Z
    /\ shape (mask r) = [2; 2]
    /\ get (mask r) [1; 0] = (1 * 0)%Z
    /\ nth_error (dims r) 0 = Some (true || false).
Proof.
  intros x y.
  destruct (elementwise_binary_masked Tensor___add__0 x y
              (mkTensor [2; 2] [11; 22; 33; 44]%Z) [2; 2]
              eq_refl eq_refl) as [r [Hr [Hd [_ [Hs [Hm [_ Hdims]]]]]]].
  exists r. split; [exact Hr|]. split; [exact Hd|]. split; [exact Hs|].
  split; [exact (Hm [1; 0] eq_refl)|exact (Hdims 0 true false eq_refl eq_refl)].
Defined.

(** ** Reductions *)

Lemma axes_ok_length (sh msh : list nat) (ds : list bool) :
  axes_ok sh msh ds = true -> length msh = length ds /\ length sh = length msh.
Proof.
  revert msh ds. induction sh as [|n sh IH]; intros [|m msh] [|d ds] H;
    simpl in *; try discriminate; [now split|].
  apply andb_prop in H. destruct H as [_ H].
  destruct (IH _ _ H) as [H1 H2]. split; now f_equal.
Qed.

Lemma axes_ok_static (sh msh : list nat) (ds : list bool) :
  axes_ok sh msh ds = true -> builtin_any ds = false ->
  forallb (fun n => 0 <? n) msh = true.
Proof.
  revert msh ds. induction sh as [|n sh IH]; intros [|m msh] [|d ds] H Hs;
    simpl in *; try discriminate; [reflexivity|].
  apply andb_prop in H. destruct H as [Hm H].
  apply orb_false_elim in Hs. destruct Hs as [-> Hs].
  apply Nat.eqb_eq in Hm. subst m. simpl. now apply (IH _ _ H).
Qed.

Lemma axes_ok_broadcast (sh msh : list nat) (ds : list bool) :
  axes_ok sh msh ds = true -> Torch.broadcast_aligned sh msh = Some sh.
Proof.
  revert msh ds. induction sh as [|n sh IH]; intros [|m msh] [|d ds] H;
    simpl in *; try discriminate; [reflexivity|].
  apply andb_prop in H. destruct H as [Hm H]. rewrite (IH _ _ H).
  destruct d; apply Nat.eqb_eq in Hm; subst m.
  - now rewrite Nat.eqb_refl.
  - destruct (Nat.eqb_spec n 1); reflexivity.
Qed.

Lemma broadcast_shapes_same_length (s1 s2 : list nat) :
  length s1 = length s2 ->
  Torch.broadcast_shapes s1 s2 = Torch.broadcast_aligned s1 s2.
Proof.
  intros H. unfold Torch.broadcast_shapes, Torch.pad_left.
  now rewrite H, Nat.max_id, Nat.sub_diag.
Qed.

Lemma well_formed_fits (b : MaskedBatch) :
  well_formed b = true -> mask_fits b = true.
Proof.
  unfold well_formed, mask_fits.
  destruct (shape (data b)) as [|B sh]; [discriminate|].
  destruct (shape (mask b)) as [|Bm msh]; [discriminate|].
  intros H. apply andb_prop in H. destruct H as [HB H].
  destruct (axes_ok_length _ _ _ H) as [_ Hlen].
  rewrite broadcast_shapes_same_length by (cbn [length]; now f_equal).
  cbn [Torch.broadcast_aligned].
  rewrite (axes_ok_broadcast _ _ _ H).
  apply orb_prop in HB. destruct HB as [HB|HB]; apply Nat.eqb_eq in HB; subst Bm.
  - rewrite Nat.eqb_refl. apply shape_eqb_refl.
  - destruct (Nat.eqb_spec B 1); apply shape_eqb_refl.
Qed.

Lemma resolve_slice_full (n : nat) :
  Torch.resolve_slice n None None None = Ok (Torch.Range 0 1 n).
Proof.
  unfold Torch.resolve_slice. cbn. do 2 f_equal.
  rewrite Nat.div_1_r. lia.
Qed.

Lemma resolve_zeros (msh : list nat) (ds : list bool) :
  length msh = length ds ->
  forallb (fun n => 0 <? n) msh = true ->
  Torch.resolve msh (map (fun _ => IInt 0) ds)
  = Ok (map (fun _ => Torch.Fix 0) ds).
Proof.
  revert ds. induction msh as [|m msh IH]; intros [|d ds] Hlen Hpos;
    simpl in *; try discriminate; [reflexivity|].
  apply andb_prop in Hpos. destruct Hpos as [Hm Hpos].
  apply Nat.ltb_lt in Hm.
  unfold Torch.resolve_int. cbn [Z.ltb Z.compare].
  replace ((Z.of_nat m <=? 0)%Z) with false by (symmetry; apply Z.leb_gt; lia).
  cbn [orb Py.bind]. rewrite IH by (auto; lia). reflexivity.
Qed.

(** The mask slice a full reduction takes: one entry per example, read at
    position 0 of every other axis. *)
Lemma index_representative (b : MaskedBatch) :
  well_formed b = true -> nonempty_axes b = true ->
  exists m,
    Torch.index (mask b) (full_slice :: map (fun _ => IInt 0) (dims b)) = Ok m
    /\ shape m = [hd 0 (shape (mask b))].
Proof.
  unfold well_formed, nonempty_axes, Torch.index.
  destruct (shape (data b)) as [|B sh]; [discriminate|].
  destruct (shape (mask b)) as [|Bm msh]; [discriminate|].
  intros H Hpos. apply andb_prop in H. destruct H as [_ H].
  destruct (axes_ok_length _ _ _ H) as [Hlen _].
  cbn [tl] in Hpos. unfold full_slice. cbn [Torch.resolve].
  rewrite resolve_slice_full. cbn [Py.bind].
  rewrite (resolve_zeros _ _ Hlen Hpos). cbn [Py.bind].
  eexists. split; [reflexivity|]. cbn [shape tabulate Torch.out_shape hd].
  f_equal. clear. induction (dims b); simpl; auto.
Qed.

Lemma resolve_zeros_empty (msh : list nat) (ds : list bool) :
  length msh = length ds ->
  forallb (fun n => 0 <? n) msh = false ->
  Torch.resolve msh (map (fun _ => IInt 0) ds) = Raise IndexError.
Proof.
  revert ds. induction msh as [|m msh IH]; intros [|d ds] Hlen Hpos;
    simpl in Hlen, Hpos; try discriminate.
  cbn [map Torch.resolve]. destruct m as [|m].
  - reflexivity.
  - cbn [Nat.ltb Nat.leb andb] in Hpos.
    unfold Torch.resolve_int. cbn [Z.ltb Z.compare].
    replace ((Z.of_nat (S m) <=? 0)%Z) with false
      by (symmetry; apply Z.leb_gt; lia).
    cbn [orb Py.bind]. rewrite IH by (auto; lia). reflexivity.
Qed.

(** C3. A full reduction (no [dim]) with a kernel that is not
    zero-preserving, such as mean or std, raises [NotImplementedError] on
    every batch with a dynamic axis.  With no dynamic axis, or with a
    zero-preserving kernel, the guard lets the reduction through; on a
    well-formed batch (with non-empty axes, where some are dynamic) its
    outcome is then the kernel's on [data * mask], and with the sum kernel
    it returns.  On a well-formed batch with an empty axis the sum raises
    [IndexError]. *)
Theorem full_reduction_guard (fn : reduce_kernel) (b : MaskedBatch) (keepdim : bool) :
  (builtin_any (dims b) = true ->
     _reduce fn false b None keepdim = Raise NotImplementedError)
  /\ (forall zp, builtin_any (dims b) = false \/ zp = true ->
        _reduce fn zp b None keepdim
        = (m <- Torch.index (mask b)
                  (full_slice :: map (fun _ => IInt 0) (dims b));;
           p <- Torch.mul (data b) (mask b);;
           d <- fn p None keepdim;;
           Ok (mkBatch d m [])))
  /\ (forall zp, well_formed b = true ->
        builtin_any (dims b) = false \/ (zp = true /\ nonempty_axes b = true) ->
        exists m p,
          Torch.index (mask b) (full_slice :: map (fun _ => IInt 0) (dims b)) = Ok m
          /\ Torch.mul (data b) (mask b) = Ok p
          /\ _reduce fn zp b None keepdim
             = (d <- fn p None keepdim;; Ok (mkBatch d m []))
          /\ exists s, MaskedBatch_sum b None keepdim = Ok (mkBatch s m [])
                       /\ Torch.sum p None keepdim = Ok s)
  /\ (well_formed b = true -> nonempty_axes b = false ->
      MaskedBatch_sum b None keepdim = Raise IndexError).
Proof.
  split; [|split; [|split]].
  - intros Hdyn. unfold _reduce. now rewrite Hdyn.
  - intros zp Hcase. unfold _reduce.
    replace (negb zp && builtin_any (dims b)) with false; [reflexivity|].
    destruct Hcase as [->| ->]; [now rewrite andb_false_r|reflexivity].
  - intros zp Hwf Hcase.
    assert (Hpos : nonempty_axes b = true).
    { destruct Hcase as [Hs|[_ Hne]]; [|exact Hne].
      unfold well_formed in Hwf. unfold nonempty_axes.
      destruct (shape (data b)) as [|B sh]; [discriminate|].
      destruct (shape (mask b)) as [|Bm msh]; [discriminate|].
      apply andb_prop in Hwf. destruct Hwf as [_ Hwf].
      now apply (axes_ok_static _ _ _ Hwf). }
    assert (Hguard : negb zp && builtin_any (dims b) = false).
    { destruct Hcase as [->|[-> _]]; [apply andb_false_r|reflexivity]. }
    destruct (index_representative b Hwf Hpos) as [m [Hm _]].
    pose proof (mul_data_mask b (well_formed_fits b Hwf)) as Hp.
    exists m. eexists. split; [exact Hm|]. split; [exact Hp|].
    split.
    + unfold _reduce. rewrite Hguard, Hm, Hp. reflexivity.
    + eexists. split; [|reflexivity].
      unfold MaskedBatch_sum, _reduce. cbn [negb andb].
      rewrite Hm, Hp. reflexivity.
  - intros Hwf Hempty.
    unfold MaskedBatch_sum, _reduce. cbn [negb andb].
    unfold well_formed in Hwf. unfold nonempty_axes in Hempty.
    unfold Torch.index.
    destruct (shape (data b)) as [|B sh]; [discriminate|].
    destruct (shape (mask b)) as [|Bm msh]; [discriminate|].
    apply andb_prop in Hwf. destruct Hwf as [_ Hwf].
    destruct (axes_ok_length _ _ _ Hwf) as [Hlen _].
    cbn [tl] in Hempty. unfold full_slice. cbn [Torch.resolve].
    rewrite resolve_slice_full. cbn [Py.bind].
    rewrite (resolve_zeros_empty _ _ Hlen Hempty). reflexivity.
Qed.

Lemma full_reduction_guard_witness :
  let b := mkBatch (mkTensor [2; 5] [1; 2; 3; 77; -5; 1; 1; 1; 1; 1]%Z)
                   (mkTensor [2; 5] [1; 1; 1; 0; 0; 1; 1; 1; 1; 1]%Z) [true] in
  let c := mkBatch (mkTensor [2; 2] [1; 2; 3; 4]%Z)
                   (mkTensor [2; 1] [1; 1]%Z) [false] in
  _reduce Torch.sum false b None false = Raise NotImplementedError
  /\ (exists m s, MaskedBatch_sum b None false = Ok (mkBatch s m []))
  /\ (exists m p,
        Torch.mul (data c) (mask c) = Ok p
        /\ _reduce Torch.sum false c None false
           = (d <- Torch.sum p None false;; Ok (mkBatch d m []))).
Proof.
  intros b c. split; [|split].
  - exact (proj1 (full_reduction_guard Torch.sum b false) eq_refl).
  - destruct (proj1 (proj2 (proj2 (full_reduction_guard Torch.sum b false)))
                true eq_refl (or_intror (conj eq_refl eq_refl)))
      as [m [p [_ [_ [_ [s [Hs _]]]]]]].
    exists m, s. exact Hs.
  - destruct (proj1 (proj2 (proj2 (full_reduction_guard Torch.sum c false)))
                false eq_refl (or_introl eq_refl))
      as [m [p [_ [Hp [Hr _]]]]].
    exists m, p. split; [exact Hp|exact Hr].
Defined.

(** On a dynamic axis of extent 0, which the subscript [[:, :-3]] leaves
    behind on a batch padded to length 3, the zero-preserving sum does not
    return: the mask has no entry at position 0 of the axis. *)
Lemma full_reduction_empty_axis :
  let b0 := mkBatch (mkTensor [2; 3] [1; 2; 3; 4; 5; 6]%Z)
                    (mkTensor [2; 3] [1; 1; 0; 1; 1; 1]%Z) [true] in
  let b := mkBatch (mkTensor [2; 0] []) (mkTensor [2; 0] []) [true] in
  getitem b0 (Tuple [full_slice; ISlice None (Some (-3)%Z) None]) = Ok b
  /\ well_formed b = true
  /\ builtin_any (dims b) = true
  /\ MaskedBatch_sum b None false = Raise IndexError
  /\ ~ (exists r, MaskedBatch_sum b None false = Ok r).
Proof.
  intros b0 b. split; [reflexivity|]. split; [reflexivity|].
  split; [reflexivity|]. split; [reflexivity|].
  intros [r Hr]. discriminate Hr.
Qed.

(** ** Causal mask *)

Lemma in_range3 (a b c k i j : nat) :
  k < a -> i < b -> j < c -> in_range [a; b; c] [k; i; j] = true.
Proof.
  intros Hk Hi Hj. cbn [in_range].
  apply Nat.ltb_lt in Hk, Hi, Hj. now rewrite Hk, Hi, Hj.
Qed.

(** The triangular factor [new(n, m).fill_(1).triu(0).unsqueeze(0)]. *)
Lemma upper_triangle (n m : nat) :
  exists tri2 tri,
    Torch.triu (full [n; m] 1) 0 = Ok tri2
    /\ Torch.unsqueeze tri2 0 = Ok tri
    /\ shape tri = [1; n; m]
    /\ forall i j, i < n -> j < m ->
         get tri [0; i; j] = if j <? i then 0%Z else 1%Z.
Proof.
  eexists. eexists. split; [reflexivity|]. split; [reflexivity|].
  split; [reflexivity|].
  intros i j Hi Hj.
  transitivity (get (tabulate [n; m] (fun idx =>
                  let '(r, c) := Torch.row_col idx in
                  if (0 <=? c - r)%Z then get (full [n; m] 1) idx else 0%Z))
                [i; j]).
  { unfold get. cbn [shape tabulate elems firstn skipn app offset].
    f_equal. }
  assert (Hin : in_range [n; m] [i; j] = true).
  { cbn [in_range]. apply Nat.ltb_lt in Hi, Hj. now rewrite Hi, Hj. }
  rewrite get_tabulate by exact Hin.
  cbn [Torch.row_col rev app]. rewrite (get_full _ _ _ Hin).
  destruct (Nat.ltb_spec j i); destruct (Z.leb_spec 0 (Z.of_nat j - Z.of_nat i));
    try reflexivity; lia.
Qed.

Lemma broadcast_causal (Bm a c n m : nat) :
  a = 1 \/ a = n -> c = 1 \/ c = m ->
  Torch.broadcast_shapes [Bm; a; c] [1; n; m] = Some [Bm; n; m].
Proof.
  intros Ha Hc. rewrite broadcast_shapes_same_length by reflexivity.
  cbn [Torch.broadcast_aligned].
  assert (Hc' : (if c =? m then Some [c]
                 else if c =? 1 then Some [m]
                 else if m =? 1 then Some [c] else None) = Some [m]).
  { destruct Hc as [->| ->].
    - destruct (Nat.eqb_spec 1 m); [now subst|reflexivity].
    - now rewrite Nat.eqb_refl. }
  rewrite Hc'.
  assert (Ha' : (if a =? n then Some [a; m]
                 else if a =? 1 then Some [n; m]
                 else if n =? 1 then Some [a; m] else None) = Some [n; m]).
  { destruct Ha as [->| ->].
    - destruct (Nat.eqb_spec 1 n); [now subst|reflexivity].
    - now rewrite Nat.eqb_refl. }
  rewrite Ha'.
  destruct (Nat.eqb_spec Bm 1); reflexivity.
Qed.

Lemma broadcast_index_causal (n m k i j : nat) :
  i < n -> j < m -> Torch.broadcast_index [1; n; m] [k; i; j] = [0; i; j].
Proof.
  intros Hi Hj. unfold Torch.broadcast_index, zip_with. simpl.
  f_equal. f_equal; [|f_equal].
  - destruct (Nat.eqb_spec n 1); lia.
  - destruct (Nat.eqb_spec m 1); lia.
Qed.

(** C4. On a batch with two non-batch axes whose mask is
    broadcast-compatible with its data, [causal_mask] with [in_dim = 1] and
    [out_dim = 2] leaves the data unchanged, flags both axes dynamic, and
    returns a mask of the data's non-batch extents that is 0 wherever the
    axis-1 index exceeds the axis-2 index and is the input's mask value
    everywhere else. *)
Theorem causal_mask_upper (b : MaskedBatch) (B n m Bm a c : nat) :
  shape (data b) = [B; n; m] ->
  shape (mask b) = [Bm; a; c] ->
  a = 1 \/ a = n -> c = 1 \/ c = m ->
  length (dims b) = 2 ->
  exists r,
    causal_mask (VBatch b) 1 2 = Ok (VBatch r)
    /\ data r = data b
    /\ dims r = [true; true]
    /\ shape (mask r) = [Bm; n; m]
    /\ forall k i j, k < Bm -> i < n -> j < m ->
         get (mask r) [k; i; j]
         = if j <? i then 0%Z else mask_at b [k; i; j].
Proof.
  intros Hd Hm Ha Hc Hlen.
  destruct (upper_triangle n m) as [tri2 [tri [Htri2 [Htri [Hshape Hget]]]]].
  destruct (pointwise2_get Z.mul (mask b) tri [Bm; n; m]) as [mk [Hmk [Hsh Hval]]].
  { rewrite Hm, Hshape. now apply broadcast_causal. }
  exists (mkBatch (data b) mk [true; true]).
  split; [|split; [reflexivity|split; [reflexivity|split; [exact Hsh|]]]].
  - unfold causal_mask. cbn [Z.eqb Pos.eqb andb].
    rewrite Hd. cbn [tl]. rewrite Htri2. cbn [Py.bind].
    rewrite Htri. cbn [Py.bind]. unfold Torch.mul. rewrite Hmk. cbn [Py.bind].
    destruct (dims b) as [|d1 [|d2 [|d3 ds]]]; try discriminate.
    reflexivity.
  - intros k i j Hk Hi Hj. cbn [mask].
    rewrite (Hval _ (in_range3 _ _ _ _ _ _ Hk Hi Hj)).
    rewrite Hshape, (broadcast_index_causal _ _ k _ _ Hi Hj), (Hget _ _ Hi Hj).
    unfold mask_at. destruct (j <? i); lia.
Qed.

Lemma causal_mask_upper_witness :
  let b := mkBatch (tabulate [1; 4; 4] (fun _ => 7%Z)) (full [1; 1; 1] 1)
                   [false; false] in
  exists r,
    causal_mask (VBatch b) 1 2 = Ok (VBatch r)
    /\ data r = data b
    /\ dims r = [true; true]
    /\ get (mask r) [0; 2; 1] = 0%Z
    /\ get (mask r) [0; 1; 1] = 1%Z
    /\ get (mask r) [0; 1; 3] = 1%Z.
Proof.
  intros b.
  destruct (causal_mask_upper b 1 4 4 1 1 1 eq_refl eq_refl
              (or_introl eq_refl) (or_introl eq_refl) eq_refl)
    as [r [Hr [Hdata [Hdims [_ Hget]]]]].
  exists r. split; [exact Hr|]. split; [exact Hdata|]. split; [exact Hdims|].
  split; [|split].
  - exact (Hget 0 2 1 ltac:(lia) ltac:(lia) ltac:(lia)).
  - exact (Hget 0 1 1 ltac:(lia) ltac:(lia) ltac:(lia)).
  - exact (Hget 0 1 3 ltac:(lia) ltac:(lia) ltac:(lia)).
Defined.

(** ** Indexing *)





Lemma kept_flags (inds : list index_item) (ds : list bool) (k : nat) :
  length ds <= k ->
  map snd (filter (fun p => negb (is_int (fst p)))
             (combine (inds ++ repeat full_slice k) ds))
  = surviving_dims inds ds.
Proof.
  revert inds k. induction ds as [|d ds IH]; intros inds k Hk.
  - now rewrite combine_nil.
  - destruct inds as [|it inds].
    + destruct k as [|k]; simpl in Hk; [lia|].
      simpl. f_equal.
      transitivity (surviving_dims [] ds);
        [apply (IH [] k); lia|destruct ds; reflexivity].
    + simpl. rewrite <- (IH inds k) by (simpl in Hk; lia).
      destruct it; reflexivity.
Qed.









(** * Further properties of the module *)

(** ** Reflected addition and multiplication *)

Lemma broadcast_aligned_comm (s1 s2 : list nat) :
  Torch.broadcast_aligned s1 s2 = Torch.broadcast_aligned s2 s1.
Proof.
  revert s2. induction s1 as [|a s1 IH]; intros [|b s2]; simpl; try reflexivity.
  rewrite (IH s2). destruct (Torch.broadcast_aligned s2 s1); [|reflexivity].
  destruct (Nat.eqb_spec a b) as [->|Hab].
  - now rewrite Nat.eqb_refl.
  - destruct (Nat.eqb_spec b a); [congruence|].
    destruct (Nat.eqb_spec a 1), (Nat.eqb_spec b 1); try reflexivity; congruence.
Qed.

Lemma broadcast_shapes_comm (s1 s2 : list nat) :
  Torch.broadcast_shapes s1 s2 = Torch.broadcast_shapes s2 s1.
Proof.
  unfold Torch.broadcast_shapes.
  rewrite (Nat.max_comm (length s2)). apply broadcast_aligned_comm.
Qed.

Lemma pointwise2_comm (op : Z -> Z -> Z) (a b : tensor) :
  (forall x y, op x y = op y x) ->
  Torch.pointwise2 op a b = Torch.pointwise2 op b a.
Proof.
  intros Hop. unfold Torch.pointwise2. rewrite (broadcast_shapes_comm (shape b)).
  destruct (Torch.broadcast_shapes (shape a) (shape b)); [|reflexivity].
  f_equal. apply tabulate_ext. intros idx _. apply Hop.
Qed.

(** X1. The reflected sum [t + b] and product [t * b] of a plain tensor and
    a masked batch are the masked results: the operation between [t] and the
    batch's data, under the batch's own mask and dims. *)
Theorem reflected_add_mul_masked (t : tensor) (b : MaskedBatch) :
  Tensor___add__ (VTensor t) (VBatch b) = masked_reflected Tensor___add__0 t b
  /\ Tensor___mul__ (VTensor t) (VBatch b) = masked_reflected Tensor___mul__0 t b.
Proof.
  split.
  - unfold Tensor___add__, _inject_arith, MaskedBatch___add__, masked_reflected,
      _elementwise_binary, Tensor___add__0, tensor_method.
    cbn [is_MaskedBatch negb andb attr_data attr_mask attr_dims Py.bind].
    now rewrite (pointwise2_comm Z.add (data b) t Z.add_comm).
  - unfold Tensor___mul__, _inject_arith, MaskedBatch___mul__, masked_reflected,
      _elementwise_binary, Tensor___mul__0, tensor_method.
    cbn [is_MaskedBatch negb andb attr_data attr_mask attr_dims Py.bind].
    now rewrite (pointwise2_comm Z.mul (data b) t Z.mul_comm).
Qed.

(** ** Reductions over one axis *)

Lemma tuple_get_nth {A} (l : list A) (i : nat) (a : A) :
  nth_error l i = Some a -> tuple_get l (Z.of_nat i) = Ok a.
Proof.
  intros H. unfold tuple_get. cbv zeta.
  assert (Hlt : i < length l) by (apply nth_error_Some; congruence).
  assert (E1 : (Z.of_nat i <? 0)%Z = false) by (apply Z.ltb_ge; lia).
  assert (E2 : (Z.of_nat (length l) <=? Z.of_nat i)%Z = false)
    by (apply Z.leb_gt; lia).
  rewrite E1. cbv iota. rewrite E1, E2. cbn [orb]. now rewrite Nat2Z.id, H.
Qed.

(** X2. A reduction over a given axis with a kernel that is not
    zero-preserving raises [NotImplementedError] when that axis is dynamic,
    whatever the kernel and the data are; a negative [dim] counts from the
    end. *)
Theorem reduce_dynamic_axis_guard (fn : reduce_kernel) (b : MaskedBatch)
    (dim0 : Z) (keepdim : bool) (k : nat) :
  effective_dim b dim0 = (Z.of_nat k + 1)%Z ->
  nth_error (dims b) k = Some true ->
  _reduce fn false b (Some dim0) keepdim = Raise NotImplementedError.
Proof.
  intros Hdim Hk. unfold _reduce. cbv zeta.
  unfold effective_dim in Hdim. rewrite Hdim.
  replace (Z.of_nat k + 1 - 1)%Z with (Z.of_nat k) by lia.
  now rewrite (tuple_get_nth _ _ _ Hk).
Qed.

Lemma reduce_dynamic_axis_guard_witness :
  let b := mkBatch (mkTensor [2; 3] [1; 2; 9; 4; 5; 6]%Z)
                   (mkTensor [2; 3] [1; 1; 0; 1; 1; 1]%Z) [true] in
  _reduce Torch.sum false b (Some (-1)%Z) true = Raise NotImplementedError.
Proof.
  intros b.
  exact (reduce_dynamic_axis_guard Torch.sum b (-1)%Z true 0 eq_refl eq_refl).
Defined.

Lemma wrap_dim_nat (r j : nat) : j < r -> Torch.wrap_dim r (Z.of_nat j) = Ok j.
Proof.
  intros H. unfold Torch.wrap_dim. cbv zeta.
  assert (E1 : (Z.of_nat j <? 0)%Z = false) by (apply Z.ltb_ge; lia).
  assert (E2 : (Z.of_nat r <=? Z.of_nat j)%Z = false) by (apply Z.leb_gt; lia).
  rewrite E1. cbv iota. rewrite E1, E2. cbn [orb]. now rewrite Nat2Z.id.
Qed.

Lemma resolve_keep (sh : list nat) (a j : nat) :
  j < a ->
  Torch.resolve sh (pick_axis (Z.of_nat j) a (length sh)) = Ok (ranges sh).
Proof.
  revert a. induction sh as [|n sh IH]; intros a Hj; [reflexivity|].
  unfold pick_axis. cbn [length seq map].
  destruct (Z.eqb_spec (Z.of_nat a) (Z.of_nat j)); [lia|].
  unfold full_slice at 1. cbn [Torch.resolve].
  rewrite resolve_slice_full. cbn [Py.bind].
  fold (pick_axis (Z.of_nat j) (S a) (length sh)).
  rewrite IH by lia. reflexivity.
Qed.

Lemma resolve_pick (sh : list nat) (a j : nat) :
  a <= j -> j - a < length sh -> 0 < nth (j - a) sh 0 ->
  Torch.resolve sh (pick_axis (Z.of_nat j) a (length sh))
  = Ok (ranges (firstn (j - a) sh) ++ Torch.Fix 0 :: ranges (skipn (S (j - a)) sh)).
Proof.
  revert a. induction sh as [|n sh IH]; intros a Ha Hlen Hpos;
    [simpl in Hlen; lia|].
  unfold pick_axis. cbn [length seq map].
  destruct (Z.eqb_spec (Z.of_nat a) (Z.of_nat j)) as [E|E].
  - assert (j = a) by lia. subst j. rewrite Nat.sub_diag in *.
    cbn [nth] in Hpos. cbn [Torch.resolve firstn skipn ranges map app].
    unfold Torch.resolve_int. cbn [Z.ltb Z.compare].
    destruct (Z.leb_spec (Z.of_nat n) 0); [lia|]. cbn [orb Py.bind Z.to_nat].
    fold (pick_axis (Z.of_nat a) (S a) (length sh)).
    rewrite resolve_keep by lia. reflexivity.
  - assert (Hj : S a <= j) by lia.
    replace (j - a) with (S (j - S a)) in * by lia.
    cbn [nth length] in Hpos, Hlen.
    unfold full_slice at 1. cbn [Torch.resolve].
    rewrite resolve_slice_full. cbn [Py.bind].
    fold (pick_axis (Z.of_nat j) (S a) (length sh)).
    rewrite IH by (auto; lia). reflexivity.
Qed.

Lemma out_shape_ranges (sh : list nat) : Torch.out_shape (ranges sh) = sh.
Proof. induction sh as [|n sh IH]; simpl; [reflexivity|now rewrite IH]. Qed.

Lemma out_shape_pick (l1 l2 : list nat) (i : nat) :
  Torch.out_shape (ranges l1 ++ Torch.Fix i :: ranges l2) = l1 ++ l2.
Proof.
  induction l1 as [|n l1 IH]; simpl; [apply out_shape_ranges|now rewrite IH].
Qed.

Lemma source_index_ranges (sh idx : list nat) :
  length idx = length sh -> Torch.source_index (ranges sh) idx = idx.
Proof.
  revert idx. induction sh as [|n sh IH]; intros [|i idx] H; simpl in *;
    try discriminate; [reflexivity|].
  rewrite IH by lia. f_equal. lia.
Qed.

Lemma source_index_pick (l1 l2 idx : list nat) (i : nat) :
  length idx = length l1 + length l2 ->
  Torch.source_index (ranges l1 ++ Torch.Fix i :: ranges l2) idx
  = Torch.insert_at (length l1) i idx.
Proof.
  revert idx. induction l1 as [|n l1 IH]; intros idx H.
  - simpl in *. now rewrite source_index_ranges.
  - destruct idx as [|k idx]; [simpl in H; lia|].
    simpl in H. cbn [ranges map app Torch.source_index length].
    fold (ranges l1). rewrite IH by lia.
    unfold Torch.insert_at. cbn [firstn skipn app]. f_equal. lia.
Qed.

Lemma in_range_app (s1 s2 i1 i2 : list nat) :
  length i1 = length s1 ->
  in_range (s1 ++ s2) (i1 ++ i2) = in_range s1 i1 && in_range s2 i2.
Proof.
  revert i1. induction s1 as [|n s1 IH]; intros [|i i1] H; simpl in *;
    try discriminate; [reflexivity|].
  rewrite IH by lia. now rewrite andb_assoc.
Qed.

Lemma in_range_firstn_skipn (sh idx : list nat) (j : nat) :
  in_range sh idx = true ->
  in_range (firstn j sh) (firstn j idx) = true
  /\ in_range (skipn j sh) (skipn j idx) = true.
Proof.
  revert sh idx. induction j as [|j IH]; intros sh idx H; [now split|].
  destruct sh as [|n sh], idx as [|i idx]; simpl in *; try discriminate;
    [now split|].
  apply andb_prop in H. destruct H as [Hi H].
  destruct (IH _ _ H) as [H1 H2]. now rewrite Hi, H1.
Qed.

(** A position of the reduced shape, completed by a position [k] on the
    reduced axis, is a position of the full shape. *)
Lemma in_range_insert (sh idx : list nat) (j k : nat) :
  j < length sh -> k < nth j sh 0 ->
  in_range (Torch.remove_at j sh) idx = true ->
  in_range sh (Torch.insert_at j k idx) = true.
Proof.
  revert sh idx. induction j as [|j IH]; intros [|n sh] idx Hj Hk H;
    simpl in Hj; try lia.
  - unfold Torch.remove_at, Torch.insert_at in *. simpl in *.
    apply Nat.ltb_lt in Hk. now rewrite Hk.
  - unfold Torch.remove_at, Torch.insert_at in *.
    cbn [firstn skipn app nth] in *.
    destruct idx as [|i idx]; [discriminate|].
    cbn [in_range firstn skipn app] in *.
    apply andb_prop in H. destruct H as [Hi H]. rewrite Hi.
    apply (IH sh idx); auto; lia.
Qed.

Lemma filter_enumerate_keep {A} (l : list A) (a c : nat) :
  c < a ->
  map snd (filter (fun p => negb (Z.of_nat (fst p) =? Z.of_nat c)%Z)
             (enumerate_from a l)) = l.
Proof.
  revert a. induction l as [|x l IH]; intros a H; [reflexivity|].
  cbn [enumerate_from filter fst].
  destruct (Z.eqb_spec (Z.of_nat a) (Z.of_nat c)); [lia|].
  cbn [negb map snd]. now rewrite IH by lia.
Qed.

Lemma filter_enumerate_drop {A} (l : list A) (a c : nat) :
  a <= c ->
  map snd (filter (fun p => negb (Z.of_nat (fst p) =? Z.of_nat c)%Z)
             (enumerate_from a l))
  = firstn (c - a) l ++ skipn (S (c - a)) l.
Proof.
  revert a. induction l as [|x l IH]; intros a H.
  - now rewrite firstn_nil, skipn_nil.
  - cbn [enumerate_from filter fst].
    destruct (Z.eqb_spec (Z.of_nat a) (Z.of_nat c)) as [E|E].
    + assert (c = a) by lia. subst c. rewrite Nat.sub_diag.
      cbn [negb firstn skipn app]. apply filter_enumerate_keep. lia.
    + replace (c - a) with (S (c - S a)) by lia.
      cbn [negb map snd firstn skipn app]. now rewrite IH by lia.
Qed.

Lemma axes_ok_remove (sh msh : list nat) (ds : list bool) (k : nat) :
  axes_ok sh msh ds = true ->
  axes_ok (Torch.remove_at k sh) (Torch.remove_at k msh)
          (firstn k ds ++ skipn (S k) ds) = true.
Proof.
  unfold Torch.remove_at.
  revert sh msh ds. induction k as [|k IH]; intros [|n sh] [|m msh] [|d ds] H;
    simpl in *; try discriminate; try reflexivity.
  - apply andb_prop in H. now destruct H.
  - apply andb_prop in H. destruct H as [Hm H]. rewrite Hm. now apply IH.
Qed.

Lemma axes_ok_positive (sh msh : list nat) (ds : list bool) (k : nat) :
  axes_ok sh msh ds = true -> 0 < nth k sh 0 -> 0 < nth k msh 0.
Proof.
  revert sh msh ds. induction k as [|k IH]; intros [|n sh] [|m msh] [|d ds] H Hpos;
    simpl in *; try discriminate; try lia.
  - apply andb_prop in H. destruct H as [Hm _].
    destruct d; apply Nat.eqb_eq in Hm; lia.
  - apply andb_prop in H. destruct H as [_ H]. now apply (IH _ _ _ H).
Qed.

(** X3. A zero-preserving reduction of a well-formed batch over a
    non-batch axis that is not empty, with a kernel that returns a tensor
    without that axis, returns a well-formed batch without the axis and its
    flag.  Its data is the kernel's result on [data * mask] along the axis
    and its mask is the input's mask at position 0 of the axis.  The sum
    kernel returns such a tensor. *)
Theorem reduce_over_axis (fn : reduce_kernel) (b : MaskedBatch) (j : nat)
    (p d : tensor) :
  well_formed b = true ->
  1 <= j -> j < rank (data b) -> 0 < nth j (shape (data b)) 0 ->
  Torch.mul (data b) (mask b) = Ok p ->
  fn p (Some (Z.of_nat j)) false = Ok d ->
  shape d = Torch.remove_at j (shape (data b)) ->
  (exists r,
     _reduce fn true b (Some (Z.of_nat j)) false = Ok r
     /\ data r = d
     /\ well_formed r = true
     /\ dims r = firstn (j - 1) (dims b) ++ skipn j (dims b)
     /\ (forall idx, in_range (shape (mask r)) idx = true ->
           get (mask r) idx = get (mask b) (Torch.insert_at j 0 idx)))
  /\ (exists s,
        Torch.sum p (Some (Z.of_nat j)) false = Ok s
        /\ shape s = Torch.remove_at j (shape (data b))).
Proof.
  intros Hwf Hj Hrank Hpos Hmul Hfn Hshape.
  pose proof (mul_data_mask b (well_formed_fits b Hwf)) as Hp.
  assert (Hps : shape p = shape (data b)).
  { rewrite Hp in Hmul. injection Hmul as <-. reflexivity. }
  clear Hp. split.
  2:{ unfold Torch.sum, rank. rewrite Hps.
      rewrite wrap_dim_nat by exact Hrank. cbn [Py.bind].
      eexists. split; reflexivity. }
  unfold well_formed in Hwf. unfold rank in Hrank.
  destruct (shape (data b)) as [|B sh] eqn:Hd; [discriminate|].
  destruct (shape (mask b)) as [|Bm msh] eqn:Hm; [discriminate|].
  apply andb_prop in Hwf. destruct Hwf as [HB Hax].
  destruct (axes_ok_length _ _ _ Hax) as [Hlen1 Hlen2].
  destruct j as [|j]; [lia|]. cbn [length nth] in Hrank, Hpos.
  assert (Hmpos : 0 < nth j msh 0) by (now apply (axes_ok_positive _ _ _ _ Hax)).
  assert (E1 : (Z.of_nat (S j) <? 0)%Z = false) by (apply Z.ltb_ge; lia).
  unfold _reduce. cbv zeta. rewrite E1. cbn [Py.bind].
  fold (pick_axis (Z.of_nat (S j)) 0 (rank (mask b))).
  unfold Torch.index, rank. rewrite Hm.
  rewrite resolve_pick by (cbn [length nth]; rewrite ?Nat.sub_0_r; cbn [nth]; lia).
  rewrite Nat.sub_0_r. cbn [Py.bind].
  rewrite Hmul. cbn [Py.bind]. rewrite Hfn. cbn [Py.bind].
  eexists. split; [reflexivity|].
  cbn [data mask dims shape tabulate].
  replace (S j - 1) with j by lia.
  rewrite out_shape_pick.
  replace (Z.of_nat (S j) - 1)%Z with (Z.of_nat j) by lia.
  unfold enumerate. rewrite filter_enumerate_drop by lia.
  rewrite !Nat.sub_0_r.
  split; [reflexivity|]. split; [|split; [reflexivity|]].
  - unfold well_formed. cbn [shape data mask dims tabulate].
    rewrite Hshape. unfold Torch.remove_at. cbn [firstn app].
    rewrite !skipn_cons, HB. cbn [andb]. now apply axes_ok_remove.
  - intros idx Hidx. rewrite get_tabulate by exact Hidx.
    pose proof (in_range_length _ _ Hidx) as Hl.
    rewrite length_app in Hl.
    change (Torch.Range 0 1 Bm :: ranges (firstn j msh))
      with (ranges (firstn (S j) (Bm :: msh))).
    change (skipn (S (S j)) (Bm :: msh)) with (skipn (S j) msh) in *.
    change (skipn (S j) msh) with (skipn (S (S j)) (Bm :: msh)).
    rewrite source_index_pick by exact Hl.
    rewrite length_firstn. cbn [length].
    now replace (Nat.min (S j) (S (length msh))) with (S j) by lia.
Qed.

Lemma reduce_over_axis_witness :
  let b := mkBatch (mkTensor [2; 3] [1; 2; 9; 4; 5; 6]%Z)
                   (mkTensor [2; 3] [1; 1; 0; 1; 1; 1]%Z) [true] in
  exists r,
    MaskedBatch_sum b (Some 1%Z) false = Ok r
    /\ well_formed r = true
    /\ dims r = []
    /\ get (mask r) [1] = 1%Z.
Proof.
  intros b.
  destruct (proj1 (reduce_over_axis Torch.sum b 1
                     (mkTensor [2; 3] [1; 2; 0; 4; 5; 6]%Z)
                     (mkTensor [2] [3; 15]%Z)
                     eq_refl (le_n 1) (le_n 2) (Nat.lt_0_succ 2)
                     eq_refl eq_refl eq_refl))
    as [r [Hr [_ [Hwf [Hdims Hmask]]]]].
  exists r. split; [exact Hr|]. split; [exact Hwf|]. split; [exact Hdims|].
  assert (Hs : shape (mask r) = [2]).
  { injection Hr as <-. reflexivity. }
  rewrite (Hmask [1]) by (rewrite Hs; reflexivity). reflexivity.
Defined.

(** ** Indexing with slices and integers *)

Lemma resolve_slice_drop_last (n k : nat) :
  0 < k -> k <= n ->
  Torch.resolve_slice n None (Some (- Z.of_nat k)%Z) None
  = Ok (Torch.Range 0 1 (n - k)).
Proof.
  intros Hk Hn. unfold Torch.resolve_slice, Torch.clamp_bound.
  cbn [Z.leb Z.compare]. cbv zeta.
  destruct (Z.ltb_spec (- Z.of_nat k) 0); [|lia].
  change (Z.to_nat 1) with 1. rewrite Nat.div_1_r.
  do 2 f_equal. lia.
Qed.

Lemma resolve_slice_drop_first (n k : nat) :
  k <= n ->
  Torch.resolve_slice n (Some (Z.of_nat k)) None None
  = Ok (Torch.Range k 1 (n - k)).
Proof.
  intros Hn. unfold Torch.resolve_slice, Torch.clamp_bound.
  cbn [Z.leb Z.compare]. cbv zeta.
  destruct (Z.ltb_spec (Z.of_nat k) 0); [lia|].
  change (Z.to_nat 1) with 1. rewrite Nat.div_1_r.
  f_equal. f_equal; lia.
Qed.

(** X4. On a dynamic first axis, the subscript [[:, :-k]] is answered by
    taking the data without its last [k] positions and the mask without its
    first [k]: the result keeps the batch's dims, its data is the input's at
    the same positions, and its mask at position [j] is the input's mask at
    [j + k].  An example whose mask is a run of ones thus loses its own last
    [k] valid positions. *)
Theorem getitem_negative_stop (b : MaskedBatch) (B n Bm k : nat)
    (sh msh : list nat) (ds : list bool) :
  shape (data b) = B :: n :: sh ->
  shape (mask b) = Bm :: n :: msh ->
  dims b = true :: ds ->
  0 < k -> k <= n ->
  exists r,
    getitem b (Tuple [full_slice; ISlice None (Some (- Z.of_nat k)%Z) None]) = Ok r
    /\ dims r = dims b
    /\ shape (data r) = B :: (n - k) :: sh
    /\ shape (mask r) = Bm :: (n - k) :: msh
    /\ (forall idx, in_range (shape (data r)) idx = true ->
          get (data r) idx = get (data b) idx)
    /\ (forall i j idx, in_range (shape (mask r)) (i :: j :: idx) = true ->
          get (mask r) (i :: j :: idx) = get (mask b) (i :: (j + k) :: idx)).
Proof.
  intros Hd Hm Hds Hk Hn.
  unfold getitem, full_slice.
  change (tuple_get _ 0) with (Ok (ISlice None None None)).
  cbn [Py.bind is_full_slice negb existsb is_none orb].
  unfold Torch.index. rewrite Hd, Hm, Hds.
  cbn [Torch.resolve tl].
  rewrite resolve_slice_full, resolve_slice_drop_last by assumption.
  cbn [Py.bind check_dynamic check_item].
  destruct (Z.ltb_spec (- Z.of_nat k) 0); [|lia].
  cbn [is_some orb Py.bind combine map mask_item is_int].
  rewrite Z.opp_involutive. cbn [Torch.resolve].
  rewrite resolve_slice_full, resolve_slice_drop_first by assumption.
  cbn [Py.bind]. eexists. split; [reflexivity|].
  cbn [data mask dims shape tabulate Torch.out_shape].
  fold (ranges sh). fold (ranges msh). rewrite !out_shape_ranges.
  split; [|split; [reflexivity|split; [reflexivity|split]]].
  - change (ISlice None None None) with full_slice.
    rewrite kept_flags by lia. cbn [surviving_dims]. f_equal.
    now destruct ds.
  - intros idx Hidx. rewrite get_tabulate by exact Hidx.
    destruct idx as [|i [|j idx]]; cbn [in_range] in Hidx; try discriminate;
      [now rewrite andb_false_r in Hidx|].
    apply andb_prop in Hidx. destruct Hidx as [_ Hidx].
    apply andb_prop in Hidx. destruct Hidx as [_ Hidx].
    cbn [Torch.source_index].
    rewrite source_index_ranges by (now apply in_range_length).
    f_equal. f_equal; [lia|f_equal; lia].
  - intros i j idx Hidx. rewrite get_tabulate by exact Hidx.
    cbn [in_range] in Hidx.
    apply andb_prop in Hidx. destruct Hidx as [_ Hidx].
    apply andb_prop in Hidx. destruct Hidx as [_ Hidx].
    cbn [Torch.source_index].
    rewrite source_index_ranges by (now apply in_range_length).
    f_equal. f_equal; [lia|f_equal; lia].
Qed.

Lemma getitem_negative_stop_witness :
  let b := mkBatch (mkTensor [2; 3] [1; 2; 9; 4; 5; 6]%Z)
                   (mkTensor [2; 3] [1; 1; 0; 1; 1; 1]%Z) [true] in
  exists r,
    getitem b (Tuple [full_slice; ISlice None (Some (-1)%Z) None]) = Ok r
    /\ dims r = [true]
    /\ shape (data r) = [2; 2]
    /\ get (mask r) [0; 1] = 0%Z
    /\ get (mask r) [1; 1] = 1%Z.
Proof.
  intros b.
  destruct (getitem_negative_stop b 2 3 2 1 [] [] []
              eq_refl eq_refl eq_refl (le_n 1) (le_S _ _ (le_S _ _ (le_n 1))))
    as [r [Hr [Hdims [Hsd [Hsm [_ Hmask]]]]]].
  exists r. split; [exact Hr|]. split; [exact Hdims|]. split; [exact Hsd|].
  split.
  - rewrite (Hmask 0 1 []) by (rewrite Hsm; reflexivity). reflexivity.
  - rewrite (Hmask 1 1 []) by (rewrite Hsm; reflexivity). reflexivity.
Defined.

Lemma resolve_int_nat (n i : nat) :
  i < n -> Torch.resolve_int n (Z.of_nat i) = Ok i.
Proof.
  intros H. unfold Torch.resolve_int. cbv zeta.
  assert (E1 : (Z.of_nat i <? 0)%Z = false) by (apply Z.ltb_ge; lia).
  assert (E2 : (Z.of_nat n <=? Z.of_nat i)%Z = false) by (apply Z.leb_gt; lia).
  rewrite E1. cbv iota. rewrite E1, E2. cbn [orb]. now rewrite Nat2Z.id.
Qed.

(** X5. An integer [i] at the first non-batch axis collapses that axis: the
    result drops the axis's flag and holds the data at position [i].  Its
    mask is read at position [i] when the axis is dynamic and at the single
    broadcast position 0 when it is static. *)
Theorem getitem_integer (b : MaskedBatch) (B n Bm a i : nat)
    (sh msh : list nat) (d : bool) (ds : list bool) :
  shape (data b) = B :: n :: sh ->
  shape (mask b) = Bm :: a :: msh ->
  dims b = d :: ds ->
  a = (if d then n else 1) ->
  i < n ->
  exists r,
    getitem b (Tuple [full_slice; IInt (Z.of_nat i)]) = Ok r
    /\ dims r = ds
    /\ shape (data r) = B :: sh
    /\ shape (mask r) = Bm :: msh
    /\ (forall k idx, in_range (shape (data r)) (k :: idx) = true ->
          get (data r) (k :: idx) = get (data b) (k :: i :: idx))
    /\ (forall k idx, in_range (shape (mask r)) (k :: idx) = true ->
          get (mask r) (k :: idx)
          = get (mask b) (k :: (if d then i else 0) :: idx)).
Proof.
  intros Hd Hm Hds Ha Hi.
  assert (Hneg : (Z.of_nat i <? 0)%Z = false) by (apply Z.ltb_ge; lia).
  unfold getitem, full_slice.
  change (tuple_get _ 0) with (Ok (ISlice None None None)).
  cbn [Py.bind is_full_slice negb existsb is_none orb].
  unfold Torch.index. rewrite Hd, Hm, Hds. subst a.
  cbn [Torch.resolve tl].
  rewrite resolve_slice_full, resolve_int_nat by assumption.
  destruct d; cbn [Py.bind check_dynamic check_item]; rewrite ?Hneg;
    cbn [Py.bind combine map mask_item is_int Torch.resolve];
    rewrite resolve_slice_full, ?resolve_int_nat by assumption;
    change (Torch.resolve_int 1 0) with (Ok 0 : result nat);
    cbn [Py.bind]; (eexists; split; [reflexivity|]);
    cbn [data mask dims shape tabulate Torch.out_shape];
    fold (ranges sh); fold (ranges msh); rewrite !out_shape_ranges;
    (split; [|split; [reflexivity|split; [reflexivity|split]]]);
    try (change (ISlice None None None) with full_slice;
         rewrite kept_flags by lia; cbn [surviving_dims]; now destruct ds);
    intros k idx Hidx; rewrite get_tabulate by exact Hidx;
    cbn [in_range] in Hidx; apply andb_prop in Hidx; destruct Hidx as [_ Hidx];
    cbn [Torch.source_index];
    rewrite source_index_ranges by (now apply in_range_length);
    f_equal; f_equal; lia.
Qed.

Lemma getitem_integer_witness :
  let b := mkBatch (mkTensor [2; 3] [1; 2; 9; 4; 5; 6]%Z)
                   (mkTensor [2; 1] [1; 0]%Z) [false] in
  exists r,
    getitem b (Tuple [full_slice; IInt 2]) = Ok r
    /\ dims r = []
    /\ get (data r) [1] = 6%Z
    /\ get (mask r) [1] = 0%Z.
Proof.
  intros b.
  destruct (getitem_integer b 2 3 2 1 2 [] [] false [] eq_refl eq_refl eq_refl
              eq_refl (le_n 3))
    as [r [Hr [Hdims [Hsd [Hsm [Hdata Hmask]]]]]].
  exists r. split; [exact Hr|]. split; [exact Hdims|]. split.
  - rewrite (Hdata 1 []) by (rewrite Hsd; reflexivity). reflexivity.
  - rewrite (Hmask 1 []) by (rewrite Hsm; reflexivity). reflexivity.
Defined.




(** ** Causal mask in the other direction *)

Lemma lower_triangle (n m : nat) :
  exists tri2 tri,
    Torch.tril (full [n; m] 1) 0 = Ok tri2
    /\ Torch.unsqueeze tri2 0 = Ok tri
    /\ shape tri = [1; n; m]
    /\ forall i j, i < n -> j < m ->
         get tri [0; i; j] = if i <? j then 0%Z else 1%Z.
Proof.
  eexists. eexists. split; [reflexivity|]. split; [reflexivity|].
  split; [reflexivity|].
  intros i j Hi Hj.
  transitivity (get (tabulate [n; m] (fun idx =>
                  let '(r, c) := Torch.row_col idx in
                  if (c - r <=? 0)%Z then get (full [n; m] 1) idx else 0%Z))
                [i; j]).
  { unfold get. cbn [shape tabulate elems firstn skipn app offset].
    f_equal. }
  assert (Hin : in_range [n; m] [i; j] = true).
  { cbn [in_range]. apply Nat.ltb_lt in Hi, Hj. now rewrite Hi, Hj. }
  rewrite get_tabulate by exact Hin.
  cbn [Torch.row_col rev app]. rewrite (get_full _ _ _ Hin).
  destruct (Nat.ltb_spec i j); destruct (Z.leb_spec (Z.of_nat j - Z.of_nat i) 0);
    try reflexivity; lia.
Qed.

(** X7. [causal_mask] with [in_dim = 2] and [out_dim = 1] masks the other
    triangle: on a batch with two non-batch axes the result's mask is 0
    wherever the axis-2 index exceeds the axis-1 index and the input's mask
    value elsewhere, with the data unchanged and both axes flagged dynamic.
    Any pair of axes other than (1, 2) and (2, 1) raises
    [NotImplementedError], for a batch and for a plain tensor alike. *)
Theorem causal_mask_lower (b : MaskedBatch) (B n m Bm a c : nat) :
  shape (data b) = [B; n; m] ->
  shape (mask b) = [Bm; a; c] ->
  a = 1 \/ a = n -> c = 1 \/ c = m ->
  length (dims b) = 2 ->
  (exists r,
     causal_mask (VBatch b) 2 1 = Ok (VBatch r)
     /\ data r = data b
     /\ dims r = [true; true]
     /\ shape (mask r) = [Bm; n; m]
     /\ forall k i j, k < Bm -> i < n -> j < m ->
          get (mask r) [k; i; j]
          = if i <? j then 0%Z else mask_at b [k; i; j])
  /\ (forall (t : tensor) (in_dim out_dim : Z),
        ((in_dim =? 1) && (out_dim =? 2))%Z = false ->
        ((in_dim =? 2) && (out_dim =? 1))%Z = false ->
        causal_mask (VBatch b) in_dim out_dim = Raise NotImplementedError
        /\ causal_mask (VTensor t) in_dim out_dim = Raise NotImplementedError).
Proof.
  intros Hd Hm Ha Hc Hlen. split.
  - destruct (lower_triangle n m) as [tri2 [tri [Htri2 [Htri [Hshape Hget]]]]].
    destruct (pointwise2_get Z.mul (mask b) tri [Bm; n; m]) as [mk [Hmk [Hsh Hval]]].
    { rewrite Hm, Hshape. now apply broadcast_causal. }
    exists (mkBatch (data b) mk [true; true]).
    split; [|split; [reflexivity|split; [reflexivity|split; [exact Hsh|]]]].
    + unfold causal_mask. cbn [Z.eqb Pos.eqb andb].
      rewrite Hd. cbn [tl]. rewrite Htri2. cbn [Py.bind].
      rewrite Htri. cbn [Py.bind]. unfold Torch.mul. rewrite Hmk. cbn [Py.bind].
      destruct (dims b) as [|d1 [|d2 [|d3 ds]]]; try discriminate.
      reflexivity.
    + intros k i j Hk Hi Hj. cbn [mask].
      rewrite (Hval _ (in_range3 _ _ _ _ _ _ Hk Hi Hj)).
      rewrite Hshape, (broadcast_index_causal _ _ k _ _ Hi Hj), (Hget _ _ Hi Hj).
      unfold mask_at. destruct (i <? j); lia.
  - intros t in_dim out_dim H12 H21. unfold causal_mask.
    now rewrite H12, H21.
Qed.

Lemma causal_mask_lower_witness :
  let b := mkBatch (tabulate [1; 3; 3] (fun _ => 7%Z)) (full [1; 1; 1] 1)
                   [false; false] in
  (exists r,
     causal_mask (VBatch b) 2 1 = Ok (VBatch r)
     /\ dims r = [true; true]
     /\ get (mask r) [0; 0; 2] = 0%Z
     /\ get (mask r) [0; 2; 0] = 1%Z)
  /\ causal_mask (VBatch b) 1 3 = Raise NotImplementedError.
Proof.
  intros b.
  destruct (causal_mask_lower b 1 3 3 1 1 1 eq_refl eq_refl
              (or_introl eq_refl) (or_introl eq_refl) eq_refl)
    as [[r [Hr [_ [Hdims [_ Hget]]]]] Hbad].
  split.
  - exists r. split; [exact Hr|]. split; [exact Hdims|]. split.
    + exact (Hget 0 0 2 ltac:(lia) ltac:(lia) ltac:(lia)).
    + exact (Hget 0 2 0 ltac:(lia) ltac:(lia) ltac:(lia)).
  - exact (proj1 (Hbad (data b) 1%Z 3%Z eq_refl eq_refl)).
Defined.

(** ** The invariant under elementwise operations *)

Lemma axes_ok_join (sh m1 m2 : list nat) (d1 d2 : list bool) :
  axes_ok sh m1 d1 = true -> axes_ok sh m2 d2 = true ->
  exists m3,
    Torch.broadcast_aligned m1 m2 = Some m3
    /\ axes_ok sh m3 (zip_with orb d1 d2) = true.
Proof.
  revert m1 m2 d1 d2.
  induction sh as [|n sh IH]; intros [|a m1] [|c m2] [|x d1] [|y d2] H1 H2;
    simpl in *; try discriminate.
  - exists []. now split.
  - apply andb_prop in H1. destruct H1 as [Ha H1].
    apply andb_prop in H2. destruct H2 as [Hc H2].
    destruct (IH _ _ _ _ H1 H2) as [m3 [Hm3 Hok]]. rewrite Hm3.
    unfold zip_with in *. cbn [combine map fst snd].
    destruct x, y; apply Nat.eqb_eq in Ha, Hc; subst a c; cbn [orb].
    + rewrite Nat.eqb_refl. exists (n :: m3). split; [reflexivity|].
      cbn [axes_ok]. now rewrite Nat.eqb_refl.
    + destruct (Nat.eqb_spec n 1) as [->|Hn].
      * exists (1 :: m3). split; [reflexivity|]. cbn [axes_ok]. now rewrite Hok.
      * exists (n :: m3). split; [reflexivity|].
        cbn [axes_ok]. now rewrite Nat.eqb_refl.
    + destruct (Nat.eqb_spec 1 n) as [<-|Hn].
      * exists (1 :: m3). split; [reflexivity|]. cbn [axes_ok]. now rewrite Hok.
      * exists (n :: m3). split; [reflexivity|].
        cbn [axes_ok]. now rewrite Nat.eqb_refl.
    + exists (1 :: m3). split; [reflexivity|]. cbn [axes_ok]. now rewrite Hok.
Qed.

(** X8. An elementwise binary operation on two well-formed batches of the
    same padded shape, with a kernel that returns a tensor of that shape,
    returns a well-formed batch: the product of the masks has the extents
    that the disjunction of the flags asks for. *)
Theorem elementwise_binary_well_formed (fn : kernel) (x y : MaskedBatch)
    (d : tensor) :
  well_formed x = true -> well_formed y = true ->
  shape (data y) = shape (data x) ->
  fn [VTensor (data x); VTensor (data y)] = Ok d ->
  shape d = shape (data x) ->
  exists r,
    _elementwise_binary fn [VBatch x; VBatch y] = Ok (VBatch r)
    /\ well_formed r = true.
Proof.
  intros Hx Hy Hshape Hfn Hd.
  unfold well_formed in Hx, Hy. rewrite Hshape in Hy.
  destruct (shape (data x)) as [|B sh] eqn:Hsx; [discriminate|].
  destruct (shape (mask x)) as [|B1 m1] eqn:Hm1; [discriminate|].
  destruct (shape (mask y)) as [|B2 m2] eqn:Hm2; [discriminate|].
  apply andb_prop in Hx. destruct Hx as [HB1 Hx].
  apply andb_prop in Hy. destruct Hy as [HB2 Hy].
  destruct (axes_ok_join _ _ _ _ _ Hx Hy) as [m3 [Hm3 Hok]].
  destruct (axes_ok_length _ _ _ Hx) as [_ Hl1].
  destruct (axes_ok_length _ _ _ Hy) as [_ Hl2].
  assert (Hb : exists B3, Torch.broadcast_shapes (B1 :: m1) (B2 :: m2) = Some (B3 :: m3)
                          /\ (B3 =? B) || (B3 =? 1) = true).
  { rewrite broadcast_shapes_same_length by (cbn [length]; lia).
    cbn [Torch.broadcast_aligned]. rewrite Hm3.
    apply orb_prop in HB1. apply orb_prop in HB2.
    destruct (Nat.eqb_spec B1 B2) as [->|Hne].
    - exists B2. split; [reflexivity|]. now apply orb_true_intro.
    - destruct HB1 as [H1|H1], HB2 as [H2|H2];
        apply Nat.eqb_eq in H1, H2; subst; try congruence.
      + destruct (Nat.eqb_spec B 1); [congruence|].
        exists B. split; [reflexivity|]. now rewrite Nat.eqb_refl.
      + exists B. cbn [Nat.eqb]. split; [reflexivity|]. now rewrite Nat.eqb_refl. }
  destruct Hb as [B3 [Hb HB3]].
  destruct (pointwise2_get Z.mul (mask x) (mask y) (B3 :: m3)) as [m [Hm [Hsm _]]].
  { now rewrite Hm1, Hm2. }
  exists (mkBatch d m (zip_with orb (dims x) (dims y))). split.
  - unfold _elementwise_binary.
    cbn [is_MaskedBatch negb andb attr_data attr_mask attr_dims Py.bind].
    rewrite Hfn. cbn [Py.bind]. unfold Torch.mul. now rewrite Hm.
  - unfold well_formed. cbn [data mask dims]. rewrite Hd, Hsm, HB3.
    exact Hok.
Qed.

Lemma elementwise_binary_well_formed_witness :
  let x := mkBatch (mkTensor [2; 2] [1; 2; 3; 4]%Z)
                   (mkTensor [2; 2] [1; 1; 1; 0]%Z) [true] in
  let y := mkBatch (mkTensor [2; 2] [10; 20; 30; 40]%Z)
                   (mkTensor [2; 1] [1; 0]%Z) [false] in
  exists r,
    MaskedBatch___mul__ [VBatch x; VBatch y] = Ok (VBatch r)
    /\ well_formed r = true.
Proof.
  intros x y.
  exact (elementwise_binary_well_formed Tensor___mul__0 x y
           (mkTensor [2; 2] [10; 40; 90; 160]%Z)
           eq_refl eq_refl eq_refl eq_refl eq_refl).
Defined.

(** ** Length recovery *)

Lemma clamp_bound_nat (n k : nat) :
  k <= n -> Torch.clamp_bound n (Z.of_nat k) = k.
Proof.
  intros H. unfold Torch.clamp_bound. cbv zeta.
  destruct (Z.ltb_spec (Z.of_nat k) 0); lia.
Qed.

Lemma numel_ones (k : nat) : numel (repeat 1 k) = 1.
Proof. induction k as [|k IH]; simpl; [reflexivity|]. rewrite IH. reflexivity. Qed.

Lemma offset_zeros (k : nat) : offset (repeat 1 k) (repeat 0 k) = 0.
Proof. induction k as [|k IH]; simpl; [reflexivity|exact IH]. Qed.

Lemma in_range_zeros (k : nat) : in_range (repeat 1 k) (repeat 0 k) = true.
Proof. induction k as [|k IH]; simpl; [reflexivity|exact IH]. Qed.

Lemma any_all_false (k : nat) : builtin_any (repeat false k) = false.
Proof. induction k as [|k IH]; simpl; [reflexivity|exact IH]. Qed.

Lemma builtin_any_app (l1 l2 : list bool) :
  builtin_any (l1 ++ l2) = builtin_any l1 || builtin_any l2.
Proof. unfold builtin_any. apply existsb_app. Qed.

Lemma firstn_repeat_app {A} (x : A) (p : nat) (l : list A) :
  firstn p (repeat x p ++ l) = repeat x p.
Proof.
  rewrite firstn_app, repeat_length, Nat.sub_diag. cbn [firstn].
  rewrite app_nil_r. rewrite firstn_all2 by (rewrite repeat_length; lia).
  reflexivity.
Qed.

Lemma skipn_repeat_app {A} (x : A) (p : nat) (l : list A) :
  skipn p (repeat x p ++ l) = l.
Proof.
  rewrite skipn_app, repeat_length, Nat.sub_diag. cbn [skipn].
  rewrite skipn_all2 by (rewrite repeat_length; lia). reflexivity.
Qed.

Lemma drop_mid {A} (x y : A) (p : nat) (l : list A) :
  firstn p (repeat x p ++ y :: l) ++ skipn (S p) (repeat x p ++ y :: l)
  = repeat x p ++ l.
Proof.
  rewrite firstn_repeat_app.
  change (S p) with (1 + p). rewrite <- skipn_skipn, skipn_repeat_app.
  reflexivity.
Qed.

Lemma remove_at_mid {A} (x y B : A) (p : nat) (l : list A) :
  firstn (S p) (B :: repeat x p ++ y :: l)
  ++ skipn (S (S p)) (B :: repeat x p ++ y :: l)
  = B :: repeat x p ++ l.
Proof.
  rewrite firstn_cons, skipn_cons, <- app_comm_cons. now rewrite drop_mid.
Qed.

Lemma nth_mid {A} (x y B d : A) (p : nat) (l : list A) :
  nth (S p) (B :: repeat x p ++ y :: l) d = y.
Proof. cbn [nth]. induction p as [|p IH]; [reflexivity|exact IH]. Qed.

Lemma insert_at_mid (x B k : nat) (p : nat) (l : list nat) :
  Torch.insert_at (S p) k (B :: repeat x p ++ l) = B :: repeat x p ++ k :: l.
Proof.
  unfold Torch.insert_at.
  rewrite firstn_cons, skipn_cons, <- app_comm_cons.
  now rewrite firstn_repeat_app, skipn_repeat_app.
Qed.

(** X10. On a batch whose only dynamic axis is axis [p + 1],
    [size_as_tensor] returns a batch with no non-batch axis, a mask of ones,
    and as data, per example, the sum of the example's mask along that
    axis: the number of its valid positions when the mask holds 0 and 1. *)
Theorem size_as_tensor_lengths (b : MaskedBatch) (Bm n p q : nat) :
  shape (mask b) = Bm :: repeat 1 p ++ n :: repeat 1 q ->
  dims b = repeat false p ++ true :: repeat false q ->
  exists r,
    size_as_tensor (VBatch b) (Z.of_nat (S p)) = Ok (VBatch r)
    /\ dims r = []
    /\ mask r = full [Bm] 1
    /\ shape (data r) = [Bm]
    /\ forall i, i < Bm ->
         get (data r) [i]
         = sum_list (map (fun k => get (mask b)
                                     (i :: repeat 0 p ++ k :: repeat 0 q))
                         (seq 0 n)).
Proof.
  intros Hm Hds.
  assert (Hlen : length (dims b) = p + S q).
  { rewrite Hds, length_app. cbn [length]. now rewrite !repeat_length. }
  assert (Hnth : nth_error (dims b) p = Some true).
  { rewrite Hds, nth_error_app2 by (rewrite repeat_length; lia).
    now rewrite repeat_length, Nat.sub_diag. }
  unfold size_as_tensor. cbv zeta.
  destruct (Z.ltb_spec (Z.of_nat (S p)) 0); [lia|].
  destruct (Z.eqb_spec (Z.of_nat (S p)) 0); [lia|].
  replace (Z.of_nat (S p) - 1)%Z with (Z.of_nat p) by lia.
  rewrite (tuple_get_nth _ _ _ Hnth). cbn [Py.bind negb].
  unfold tuple_upto, tuple_from.
  rewrite !clamp_bound_nat by lia.
  rewrite Hds, drop_mid, builtin_any_app, !any_all_false. cbn [orb].
  unfold Torch.sum, rank. rewrite Hm.
  rewrite wrap_dim_nat
    by (cbn [length]; rewrite length_app; cbn [length]; rewrite !repeat_length; lia).
  cbn [Py.bind]. unfold Torch.remove_at.
  rewrite remove_at_mid, nth_mid.
  assert (Hnum : numel (Bm :: repeat 1 p ++ repeat 1 q) = Bm).
  { cbn [numel fold_right]. fold (numel (repeat 1 p ++ repeat 1 q)).
    rewrite <- repeat_app, numel_ones. lia. }
  unfold Torch.view. cbn [shape tabulate]. rewrite Hnum.
  cbn [existsb Z.ltb Z.compare orb filter Z.eqb Pos.eqb negb length map
       fold_right Nat.eqb].
  rewrite Nat.mod_1_r. cbn [Nat.eqb negb Py.bind].
  unfold Torch.size. rewrite Hm.
  change (tuple_get (Bm :: repeat 1 p ++ n :: repeat 1 q) 0) with (Ok Bm).
  cbn [Py.bind]. rewrite Nat.div_1_r.
  eexists. split; [reflexivity|].
  cbn [dims mask data shape elems].
  split; [reflexivity|split; [reflexivity|split; [reflexivity|]]].
  intros i Hi.
  set (f := fun idx : list nat =>
              sum_list (map (fun k => get (mask b)
                               (Torch.insert_at (S p) k idx)) (seq 0 n))).
  transitivity (get (tabulate (Bm :: repeat 1 p ++ repeat 1 q) f)
                    (i :: repeat 0 p ++ repeat 0 q)).
  { unfold get. cbn [shape elems tabulate offset]. f_equal.
    rewrite <- !repeat_app, numel_ones, offset_zeros. cbn [numel fold_right]. lia. }
  rewrite get_tabulate.
  - unfold f. f_equal. apply map_ext. intros k. f_equal.
    apply insert_at_mid.
  - cbn [in_range]. apply Nat.ltb_lt in Hi. rewrite Hi. cbn [andb].
    rewrite <- !repeat_app. apply in_range_zeros.
Qed.

Lemma size_as_tensor_lengths_witness :
  let b := mkBatch (mkTensor [2; 3] [1; 2; 9; 4; 5; 6]%Z)
                   (mkTensor [2; 3] [1; 1; 0; 1; 1; 1]%Z) [true] in
  exists r,
    size_as_tensor (VBatch b) 1 = Ok (VBatch r)
    /\ dims r = []
    /\ get (data r) [0] = 2%Z
    /\ get (data r) [1] = 3%Z.
Proof.
  intros b.
  destruct (size_as_tensor_lengths b 2 3 0 0 eq_refl eq_refl)
    as [r [Hr [Hdims [_ [_ Hval]]]]].
  exists r. split; [exact Hr|]. split; [exact Hdims|]. split.
  - exact (Hval 0 (Nat.lt_0_succ 1)).
  - exact (Hval 1 (le_n 2)).
Defined.

Lemma other_flag_present (l : list bool) (k k' : nat) :
  nth_error l k' = Some true -> k <> k' ->
  builtin_any (firstn k l ++ skipn (S k) l) = true.
Proof.
  intros Hk' Hne. unfold builtin_any. apply existsb_exists.
  exists true. split; [|reflexivity]. apply in_or_app.
  destruct (Nat.lt_ge_cases k' k) as [Hlt|Hge].
  - left. apply (nth_error_In _ k'). rewrite nth_error_firstn.
    apply Nat.ltb_lt in Hlt. now rewrite Hlt.
  - right. apply (nth_error_In _ (k' - S k)). rewrite nth_error_skipn.
    now replace (S k + (k' - S k)) with k' by lia.
Qed.

(** X11. [size_as_tensor] refuses to measure a dynamic axis while another
    axis is dynamic too: it raises [NotImplementedError].  For a static
    axis it returns a plain one-element tensor holding the padded extent of
    the data on that axis. *)
Theorem size_as_tensor_guard (b : MaskedBatch) (k : nat) :
  (forall k', nth_error (dims b) k = Some true ->
              nth_error (dims b) k' = Some true -> k <> k' ->
     size_as_tensor (VBatch b) (Z.of_nat (S k)) = Raise NotImplementedError)
  /\ (forall n, nth_error (dims b) k = Some false ->
                nth_error (shape (data b)) (S k) = Some n ->
        size_as_tensor (VBatch b) (Z.of_nat (S k))
        = Ok (VTensor (Torch.long_tensor1 (Z.of_nat n)))).
Proof.
  assert (E1 : (Z.of_nat (S k) <? 0)%Z = false) by (apply Z.ltb_ge; lia).
  assert (E2 : (Z.of_nat (S k) =? 0)%Z = false) by (apply Z.eqb_neq; lia).
  assert (E3 : (Z.of_nat (S k) - 1)%Z = Z.of_nat k) by lia.
  split.
  - intros k' Hk Hk' Hne. unfold size_as_tensor. cbv zeta.
    rewrite E1, E2, E3, (tuple_get_nth _ _ _ Hk). cbn [Py.bind negb].
    assert (Hlt : k < length (dims b)) by (apply nth_error_Some; congruence).
    unfold tuple_upto, tuple_from. rewrite !clamp_bound_nat by lia.
    now rewrite (other_flag_present _ _ _ Hk' Hne).
  - intros n Hk Hn. unfold size_as_tensor. cbv zeta.
    rewrite E1, E2, E3, (tuple_get_nth _ _ _ Hk). cbn [Py.bind negb].
    unfold Torch.size. now rewrite (tuple_get_nth _ _ _ Hn).
Qed.

Lemma size_as_tensor_guard_witness :
  let d := mkTensor [1; 2; 2] [1; 2; 3; 4]%Z in
  size_as_tensor (VBatch (mkBatch d (mkTensor [1; 2; 2] [1; 1; 1; 0]%Z)
                                  [true; true])) 1
  = Raise NotImplementedError
  /\ size_as_tensor (VBatch (mkBatch d (mkTensor [1; 1; 2] [1; 0]%Z)
                                     [false; true])) 1
     = Ok (VTensor (Torch.long_tensor1 2)).
Proof.
  intros d. split.
  - exact (proj1 (size_as_tensor_guard
                    (mkBatch d (mkTensor [1; 2; 2] [1; 1; 1; 0]%Z) [true; true]) 0)
             1 eq_refl eq_refl (Nat.neq_0_succ 0)).
  - exact (proj2 (size_as_tensor_guard
                    (mkBatch d (mkTensor [1; 1; 2] [1; 0]%Z) [false; true]) 0)
             2 eq_refl eq_refl).
Defined.

(** ** Conditional update *)

Lemma where_select (cond x y : tensor) :
  Torch.broadcast_shapes (shape x) (shape cond) = Some (shape x) ->
  shape y = shape x ->
  Torch.where_ cond x y
  = Ok (tabulate (shape x) (fun idx =>
          if (get cond (Torch.broadcast_index (shape cond) idx) =? 0)%Z
          then get y idx else get x idx)).
Proof.
  intros Hb Hy. unfold Torch.where_.
  rewrite broadcast_shapes_comm, Hb, Hy, broadcast_shapes_refl.
  f_equal. apply tabulate_ext. intros idx Hidx.
  now rewrite (broadcast_index_in_range _ _ Hidx).
Qed.

(** X12. [_update] of an accumulator batch with a new batch of the same
    padded shape returns the new batch's mask and dims, and data that
    holds the new value wherever the new mask is set and the accumulator's
    value elsewhere.  Updating the result with the same new batch again
    changes nothing. *)
Theorem update_selects (b new : MaskedBatch) :
  mask_fits new = true ->
  shape (data b) = shape (data new) ->
  exists r,
    _update (VBatch b) (VBatch new) None = Ok (VBatch r)
    /\ dims r = dims new
    /\ mask r = mask new
    /\ shape (data r) = shape (data new)
    /\ (forall idx, in_range (shape (data new)) idx = true ->
          get (data r) idx
          = if (mask_at new idx =? 0)%Z then get (data b) idx
            else get (data new) idx)
    /\ _update (VBatch r) (VBatch new) None = Ok (VBatch r).
Proof.
  intros Hfit Hshape.
  pose proof (mask_fits_shapes _ Hfit) as Hb.
  unfold _update.
  cbn [is_MaskedBatch negb andb attr_mask attr_data attr_dims Py.bind].
  rewrite (where_select _ _ _ Hb Hshape). cbn [Py.bind].
  eexists. split; [reflexivity|]. cbn [data mask dims shape tabulate].
  split; [reflexivity|split; [reflexivity|split; [reflexivity|split]]].
  - intros idx Hidx. now rewrite get_tabulate.
  - unfold Torch.type_as.
    rewrite where_select by (auto; reflexivity). cbn [Py.bind].
    do 3 f_equal. apply tabulate_ext. intros idx Hidx.
    rewrite get_tabulate by exact Hidx.
    now destruct (get (mask new) _ =? 0)%Z.
Qed.

Lemma update_selects_witness :
  let acc := mkBatch (mkTensor [2; 2] [1; 2; 3; 4]%Z)
                     (mkTensor [2; 1] [1; 1]%Z) [false] in
  let new := mkBatch (mkTensor [2; 2] [10; 20; 30; 40]%Z)
                     (mkTensor [2; 1] [1; 0]%Z) [false] in
  exists r,
    _update (VBatch acc) (VBatch new) None = Ok (VBatch r)
    /\ mask r = mask new
    /\ get (data r) [0; 1] = 20%Z
    /\ get (data r) [1; 1] = 4%Z.
Proof.
  intros acc new.
  destruct (update_selects acc new eq_refl eq_refl)
    as [r [Hr [_ [Hmask [_ [Hval _]]]]]].
  exists r. split; [exact Hr|]. split; [exact Hmask|]. split.
  - exact (Hval [0; 1] eq_refl).
  - exact (Hval [1; 1] eq_refl).
Defined.

(** ** Joining and splitting axes *)

Lemma numel_app (s1 s2 : list nat) : numel (s1 ++ s2) = numel s1 * numel s2.
Proof.
  induction s1 as [|n s1 IH]; [change (numel s2 = 1 * numel s2); lia|].
  change (numel ((n :: s1) ++ s2)) with (n * numel (s1 ++ s2)).
  change (numel (n :: s1)) with (n * numel s1). rewrite IH. lia.
Qed.

Lemma view_explicit (t : tensor) (sh : list nat) :
  numel sh = numel (shape t) ->
  Torch.view t (map Z.of_nat sh) = Ok (mkTensor sh (elems t)).
Proof.
  intros H. unfold Torch.view. cbv zeta.
  assert (H1 : existsb (fun s => (s <? -1)%Z) (map Z.of_nat sh) = false).
  { clear. induction sh as [|n sh IH]; [reflexivity|]. cbn [map existsb].
    destruct (Z.ltb_spec (Z.of_nat n) (-1)); [lia|]. now rewrite IH. }
  assert (H2 : filter (fun s => (s =? -1)%Z) (map Z.of_nat sh) = []).
  { clear. induction sh as [|n sh IH]; [reflexivity|]. cbn [map filter].
    destruct (Z.eqb_spec (Z.of_nat n) (-1)); [lia|]. exact IH. }
  assert (H3 : filter (fun s => negb (s =? -1)%Z) (map Z.of_nat sh)
               = map Z.of_nat sh).
  { clear. induction sh as [|n sh IH]; [reflexivity|]. cbn [map filter].
    destruct (Z.eqb_spec (Z.of_nat n) (-1)); [lia|]. cbn [negb]. now rewrite IH. }
  assert (H4 : map Z.to_nat (map Z.of_nat sh) = sh).
  { clear. induction sh as [|n sh IH]; [reflexivity|]. cbn [map].
    now rewrite Nat2Z.id, IH. }
  rewrite H1, H2, H3, H4. cbn [length]. fold (numel sh).
  now rewrite H, Nat.eqb_refl.
Qed.

Lemma join_sizes_rest (t : tensor) (j a : nat) (l : list nat) :
  S j < a ->
  join_sizes t (Z.of_nat j) (enumerate_from a l) = Ok (map Z.of_nat l).
Proof.
  revert a. induction l as [|n l IH]; intros a Ha; [reflexivity|].
  cbn [enumerate_from join_sizes].
  destruct (Z.eqb_spec (Z.of_nat a) (Z.of_nat j + 1)); [lia|].
  destruct (Z.eqb_spec (Z.of_nat a) (Z.of_nat j)); [lia|].
  cbn [Py.bind]. rewrite IH by lia. reflexivity.
Qed.

Lemma join_sizes_at (t : tensor) (j a n1 n2 : nat) (pre post : list nat) :
  a + length pre = j ->
  Torch.size t (Z.of_nat j + 1) = Ok n2 ->
  join_sizes t (Z.of_nat j) (enumerate_from a (pre ++ n1 :: n2 :: post))
  = Ok (map Z.of_nat (pre ++ (n2 * n1) :: post)).
Proof.
  revert a. induction pre as [|n pre IH]; intros a Ha Hsize.
  - cbn [length] in Ha. rewrite Nat.add_0_r in Ha. subst a.
    cbn [app enumerate_from join_sizes].
    destruct (Z.eqb_spec (Z.of_nat j) (Z.of_nat j + 1)); [lia|].
    rewrite Z.eqb_refl, Hsize. cbn [Py.bind].
    destruct (Z.eqb_spec (Z.of_nat (S j)) (Z.of_nat j + 1)); [|lia].
    rewrite join_sizes_rest by lia. reflexivity.
  - cbn [length] in Ha. cbn [app enumerate_from join_sizes].
    destruct (Z.eqb_spec (Z.of_nat a) (Z.of_nat j + 1)); [lia|].
    destruct (Z.eqb_spec (Z.of_nat a) (Z.of_nat j)); [lia|].
    cbn [Py.bind]. rewrite IH by (auto; lia). reflexivity.
Qed.

Lemma split_sizes_rest (j a : nat) (k : Z) (l : list nat) :
  j < a ->
  flat_map (fun p => if (Z.of_nat (fst p) =? Z.of_nat j)%Z
                     then [(Z.of_nat (snd p) / k)%Z; k]
                     else [Z.of_nat (snd p)])
           (enumerate_from a l)
  = map Z.of_nat l.
Proof.
  revert a. induction l as [|n l IH]; intros a Ha; [reflexivity|].
  cbn [enumerate_from flat_map fst snd].
  destruct (Z.eqb_spec (Z.of_nat a) (Z.of_nat j)); [lia|].
  cbn [app map]. now rewrite IH by lia.
Qed.

Lemma split_sizes_at (j a n1 n2 : nat) (pre post : list nat) :
  a + length pre = j -> 0 < n2 ->
  flat_map (fun p => if (Z.of_nat (fst p) =? Z.of_nat j)%Z
                     then [(Z.of_nat (snd p) / Z.of_nat n2)%Z; Z.of_nat n2]
                     else [Z.of_nat (snd p)])
           (enumerate_from a (pre ++ (n2 * n1) :: post))
  = map Z.of_nat (pre ++ n1 :: n2 :: post).
Proof.
  revert a. induction pre as [|n pre IH]; intros a Ha Hn2.
  - cbn [length] in Ha. rewrite Nat.add_0_r in Ha. subst a.
    cbn [app enumerate_from flat_map fst snd]. rewrite Z.eqb_refl.
    rewrite split_sizes_rest by lia. cbn [app map]. f_equal.
    rewrite Nat2Z.inj_mul, Z.mul_comm, Z.div_mul by lia. reflexivity.
  - cbn [length] in Ha. cbn [app enumerate_from flat_map fst snd].
    destruct (Z.eqb_spec (Z.of_nat a) (Z.of_nat j)); [lia|].
    cbn [app map]. now rewrite IH by (auto; lia).
Qed.

Lemma tuple_get_app_mid {A} (pre post : list A) (x : A) (j : nat) :
  length pre = j -> tuple_get (pre ++ x :: post) (Z.of_nat j) = Ok x.
Proof.
  intros H. apply tuple_get_nth. rewrite nth_error_app2 by lia.
  now rewrite H, Nat.sub_diag.
Qed.

Lemma firstn_app_exact {A} (l1 l2 : list A) (j : nat) :
  length l1 = j -> firstn j (l1 ++ l2) = l1.
Proof.
  intros <-. rewrite firstn_app, Nat.sub_diag, firstn_all. cbn [firstn].
  apply app_nil_r.
Qed.

Lemma skipn_app_exact {A} (l1 l2 : list A) (j : nat) :
  length l1 = j -> skipn j (l1 ++ l2) = l2.
Proof.
  intros <-. rewrite skipn_app, Nat.sub_diag, skipn_all. reflexivity.
Qed.

(** X13. Joining two adjacent static non-batch axes and splitting the joined
    axis again by the second axis's extent gives back the batch: the same
    data, mask and dims.  The joined batch has the product extent on the
    joined axis, extent 1 in the mask and one flag fewer. *)
Theorem join_split_round_trip (b : MaskedBatch) (j n1 n2 : nat)
    (pre post mpre mpost : list nat) (dpre dpost : list bool) :
  shape (data b) = pre ++ n1 :: n2 :: post -> length pre = j ->
  shape (mask b) = mpre ++ 1 :: 1 :: mpost -> length mpre = j ->
  dims b = dpre ++ false :: false :: dpost -> S (length dpre) = j ->
  0 < n2 ->
  exists c,
    join_dims (VBatch b) (Z.of_nat j) (Z.of_nat j + 1) = Ok (VBatch c)
    /\ shape (data c) = pre ++ (n2 * n1) :: post
    /\ shape (mask c) = mpre ++ 1 :: mpost
    /\ dims c = dpre ++ false :: dpost
    /\ split_dim (VBatch c) (Z.of_nat j) (Pos.of_nat n2) = Ok (VBatch b).
Proof.
  intros Hd Hpre Hm Hmpre Hds Hdpre Hn2.
  assert (Hrank : rank (data b) = j + S (S (length post))).
  { unfold rank. rewrite Hd, length_app. cbn [length]. lia. }
  assert (Hmrank : rank (mask b) = j + S (S (length mpost))).
  { unfold rank. rewrite Hm, length_app. cbn [length]. lia. }
  assert (Hsize : Torch.size (data b) (Z.of_nat j + 1) = Ok n2).
  { unfold Torch.size. replace (Z.of_nat j + 1)%Z with (Z.of_nat (S j)) by lia.
    apply tuple_get_nth. rewrite Hd, nth_error_app2 by lia.
    now replace (S j - length pre) with 1 by lia. }
  assert (E1 : (Z.of_nat j <? 0)%Z = false) by (apply Z.ltb_ge; lia).
  assert (E2 : (Z.of_nat j + 1 <? 0)%Z = false) by (apply Z.ltb_ge; lia).
  assert (E3 : (Z.of_nat j =? 0)%Z = false) by (apply Z.eqb_neq; lia).
  unfold join_dims, value_dim. cbn [attr_data Py.bind]. cbv zeta.
  rewrite E1, E2, Z.eqb_refl. cbn [negb Py.bind fst snd].
  unfold enumerate. rewrite Hd.
  rewrite (join_sizes_at (data b) j 0 n1 n2 pre post) by (auto; lia).
  cbn [Py.bind]. unfold Torch.contiguous.
  rewrite view_explicit
    by (rewrite Hd, !numel_app; cbn [numel fold_right]; lia).
  cbn [Py.bind]. rewrite E3.
  unfold Torch.squeeze.
  replace (Z.of_nat j + 1)%Z with (Z.of_nat (S j)) by lia.
  rewrite wrap_dim_nat by lia. cbn [Py.bind].
  rewrite Hm. rewrite app_nth2 by lia.
  replace (S j - length mpre) with 1 by lia. cbn [nth Nat.eqb Py.bind].
  unfold Torch.remove_at, tuple_upto, tuple_from.
  rewrite Hds.
  rewrite !clamp_bound_nat
    by (rewrite length_app; cbn [length]; lia).
  eexists. split; [reflexivity|].
  cbn [data mask dims shape].
  assert (Hmc : firstn (S j) (mpre ++ 1 :: 1 :: mpost)
                ++ skipn (S (S j)) (mpre ++ 1 :: 1 :: mpost)
                = mpre ++ 1 :: mpost).
  { change (mpre ++ 1 :: 1 :: mpost) with (mpre ++ [1] ++ 1 :: mpost).
    rewrite app_assoc.
    rewrite firstn_app_exact by (rewrite length_app; cbn [length]; lia).
    replace (S (S j)) with (1 + S j) by lia.
    rewrite <- skipn_skipn.
    rewrite skipn_app_exact by (rewrite length_app; cbn [length]; lia).
    cbn [skipn]. now rewrite <- app_assoc. }
  assert (Hdc : firstn j (dpre ++ false :: false :: dpost)
                ++ skipn (S j) (dpre ++ false :: false :: dpost)
                = dpre ++ false :: dpost).
  { change (dpre ++ false :: false :: dpost) with (dpre ++ [false] ++ false :: dpost).
    rewrite app_assoc.
    rewrite firstn_app_exact by (rewrite length_app; cbn [length]; lia).
    replace (S j) with (1 + j) by lia.
    rewrite <- skipn_skipn.
    rewrite skipn_app_exact by (rewrite length_app; cbn [length]; lia).
    cbn [skipn]. now rewrite <- app_assoc. }
  rewrite Hmc, Hdc.
  split; [reflexivity|split; [reflexivity|split; [reflexivity|]]].
  (* splitting the joined batch *)
  unfold split_dim, value_dim. cbn [attr_data Py.bind data]. cbv zeta.
  rewrite E1. unfold Torch.size. cbn [shape].
  rewrite (tuple_get_app_mid pre post (n2 * n1) j Hpre). cbn [Py.bind].
  assert (Hpos : Z.pos (Pos.of_nat n2) = Z.of_nat n2).
  { destruct n2 as [|n2]; [lia|]. cbn [Z.of_nat]. now rewrite Pos.of_nat_succ. }
  rewrite Hpos.
  replace ((Z.of_nat (n2 * n1) mod Z.of_nat n2 =? 0)%Z) with true
    by (symmetry; apply Z.eqb_eq; rewrite Nat2Z.inj_mul, Z.mul_comm;
        apply Z_mod_mult).
  cbn [negb]. rewrite E3. cbn [dims mask].
  replace (Z.of_nat j - 1)%Z with (Z.of_nat (length dpre)) by lia.
  rewrite (tuple_get_app_mid dpre dpost false (length dpre) eq_refl).
  cbn [Py.bind]. unfold Torch.unsqueeze, rank. cbn [shape elems].
  rewrite wrap_dim_nat by (rewrite length_app; cbn [length]; lia).
  cbn [Py.bind]. unfold split_sizes, enumerate, Torch.contiguous.
  cbn [shape elems].
  rewrite (split_sizes_at j 0 n1 n2 pre post) by (auto; lia).
  rewrite view_explicit
    by (cbn [shape]; rewrite !numel_app; cbn [numel fold_right]; lia).
  cbn [Py.bind elems]. unfold tuple_upto, tuple_from.
  rewrite !clamp_bound_nat by (rewrite length_app; cbn [length]; lia).
  do 2 f_equal.
  destruct b as [[dsh del] [msh mel] ds]. cbn [data mask dims shape elems] in *.
  subst dsh msh ds. f_equal.
  - f_equal.
    rewrite firstn_app_exact, skipn_app_exact by assumption. reflexivity.
  - change (dpre ++ false :: dpost) with (dpre ++ [false] ++ dpost).
    rewrite app_assoc.
    rewrite firstn_app_exact, skipn_app_exact
      by (rewrite length_app; cbn [length]; lia).
    now rewrite <- app_assoc.
Qed.

Lemma join_split_round_trip_witness :
  let b := mkBatch (mkTensor [2; 2; 3] [1; 2; 3; 4; 5; 6; 7; 8; 9; 10; 11; 12]%Z)
                   (mkTensor [2; 1; 1] [1; 0]%Z) [false; false] in
  exists c,
    join_dims (VBatch b) 1 2 = Ok (VBatch c)
    /\ shape (data c) = [2; 6]
    /\ dims c = [false]
    /\ split_dim (VBatch c) 1 3 = Ok (VBatch b).
Proof.
  intros b.
  destruct (join_split_round_trip b 1 2 3 [2] [] [2] [] [] []
              eq_refl eq_refl eq_refl eq_refl eq_refl eq_refl (Nat.lt_0_succ 2))
    as [c [Hc [Hshape [_ [Hdims Hsplit]]]]].
  exists c. split; [exact Hc|]. split; [exact Hshape|]. split; [exact Hdims|].
  exact Hsplit.
Defined.

(** X14. [split_dim] raises [ValueError] when the extent of the axis is not
    a multiple of [split_by], for a batch and a plain tensor alike, and when
    the axis of a batch is dynamic. *)
Theorem split_dim_refuses (split_by : positive) (k n : nat) :
  (forall (v : pyval) (t : tensor),
     attr_data v = Ok t ->
     nth_error (shape t) k = Some n ->
     (Z.of_nat n mod Z.pos split_by <> 0)%Z ->
     split_dim v (Z.of_nat k) split_by = Raise ValueError)
  /\ (forall b : MaskedBatch,
        nth_error (shape (data b)) (S k) = Some n ->
        nth_error (dims b) k = Some true ->
        split_dim (VBatch b) (Z.of_nat (S k)) split_by = Raise ValueError).
Proof.
  split.
  - intros v t Hv Hn Hmod. unfold split_dim, value_dim. rewrite Hv.
    cbn [Py.bind]. cbv zeta.
    destruct (Z.ltb_spec (Z.of_nat k) 0); [lia|].
    unfold Torch.size. rewrite (tuple_get_nth _ _ _ Hn). cbn [Py.bind].
    apply Z.eqb_neq in Hmod. now rewrite Hmod.
  - intros b Hn Hdyn. unfold split_dim, value_dim. cbn [attr_data Py.bind].
    cbv zeta. destruct (Z.ltb_spec (Z.of_nat (S k)) 0); [lia|].
    unfold Torch.size. rewrite (tuple_get_nth _ _ _ Hn). cbn [Py.bind].
    destruct (negb _); [reflexivity|].
    destruct (Z.eqb_spec (Z.of_nat (S k)) 0); [lia|].
    replace (Z.of_nat (S k) - 1)%Z with (Z.of_nat k) by lia.
    now rewrite (tuple_get_nth _ _ _ Hdyn).
Qed.

Lemma split_dim_refuses_witness :
  let b := mkBatch (mkTensor [2; 3] [1; 2; 9; 4; 5; 6]%Z)
                   (mkTensor [2; 3] [1; 1; 0; 1; 1; 1]%Z) [true] in
  split_dim (VTensor (data b)) 1 2 = Raise ValueError
  /\ split_dim (VBatch b) 1 3 = Raise ValueError.
Proof.
  intros b. split.
  - exact (proj1 (split_dim_refuses 2 1 3) (VTensor (data b)) (data b)
             eq_refl eq_refl ltac:(discriminate)).
  - exact (proj2 (split_dim_refuses 3 0 3) b eq_refl eq_refl).
Defined.

(** ** Transposition *)

Lemma map_add_seq (c a n : nat) :
  map (fun x => c + x) (seq a n) = seq (c + a) n.
Proof.
  revert a. induction n as [|n IH]; intros a; [reflexivity|].
  cbn [seq map]. rewrite IH. f_equal. f_equal. lia.
Qed.

Lemma flat_seq_blocks (N n a : nat) :
  flat_map (fun i => seq (i * N) N) (seq a n) = seq (a * N) (n * N).
Proof.
  revert a. induction n as [|n IH]; intros a; [reflexivity|].
  cbn [seq flat_map]. rewrite IH.
  replace (S n * N) with (N + n * N) by lia. rewrite seq_app.
  f_equal. f_equal. lia.
Qed.

Lemma map_offset_indices (sh : list nat) :
  map (offset sh) (indices sh) = seq 0 (numel sh).
Proof.
  induction sh as [|n sh IH]; [reflexivity|].
  cbn [indices]. change (numel (n :: sh)) with (n * numel sh).
  change (seq 0 (n * numel sh)) with (seq (0 * numel sh) (n * numel sh)).
  rewrite <- (flat_seq_blocks (numel sh) n 0).
  generalize (seq 0 n). intros l.
  induction l as [|i l IHl]; [reflexivity|].
  cbn [flat_map]. rewrite map_app, IHl. f_equal.
  rewrite map_map. cbn [offset].
  replace (seq (i * numel sh) (numel sh))
    with (map (fun x => i * numel sh + x) (seq 0 (numel sh)))
    by (rewrite map_add_seq; f_equal; lia).
  rewrite <- IH, map_map. reflexivity.
Qed.

Lemma map_nth_seq_all {A} (l : list A) (d : A) :
  map (fun k => nth k l d) (seq 0 (length l)) = l.
Proof.
  induction l as [|x l IH]; [reflexivity|].
  cbn [length seq map nth]. f_equal.
  rewrite <- seq_shift, map_map. exact IH.
Qed.

(** A dense tensor is the table of its own entries. *)
Lemma tabulate_get (t : tensor) :
  dense t = true -> tabulate (shape t) (get t) = t.
Proof.
  unfold dense. intros H. apply Nat.eqb_eq in H.
  destruct t as [sh el]. cbn [shape elems] in *. unfold tabulate. f_equal.
  unfold get. cbn [shape elems].
  rewrite <- (map_map (offset sh) (fun k => nth k el 0%Z)).
  now rewrite map_offset_indices, <- H, map_nth_seq_all.
Qed.

Lemma nth_map_seq {A} (f : nat -> A) (n k : nat) (d : A) :
  k < n -> nth k (map f (seq 0 n)) d = f k.
Proof.
  intros H.
  rewrite (nth_indep _ d (f 0)) by (rewrite length_map, length_seq; lia).
  rewrite (map_nth f (seq 0 n) 0 k). now rewrite seq_nth.
Qed.

Lemma length_swap_at {A} (i j : nat) (l : list A) (d : A) :
  length (Torch.swap_at i j l d) = length l.
Proof. unfold Torch.swap_at. now rewrite length_map, length_seq. Qed.

Lemma nth_swap_at {A} (i j k : nat) (l : list A) (d : A) :
  k < length l ->
  nth k (Torch.swap_at i j l d) d
  = if k =? i then nth j l d else if k =? j then nth i l d else nth k l d.
Proof.
  intros Hk. unfold Torch.swap_at. now rewrite nth_map_seq.
Qed.

Lemma swap_at_involutive {A} (i j : nat) (l : list A) (d : A) :
  i < length l -> j < length l ->
  Torch.swap_at i j (Torch.swap_at i j l d) d = l.
Proof.
  intros Hi Hj. apply (nth_ext _ _ d d).
  - now rewrite !length_swap_at.
  - intros k Hk. rewrite !length_swap_at in Hk.
    rewrite nth_swap_at by (now rewrite length_swap_at).
    rewrite !nth_swap_at by assumption.
    rewrite !Nat.eqb_refl.
    destruct (Nat.eqb_spec k i) as [->|Hki].
    + destruct (Nat.eqb_spec j i) as [->|]; reflexivity.
    + destruct (Nat.eqb_spec k j) as [->|Hkj]; [|reflexivity].
      destruct (Nat.eqb_spec i j); [congruence|reflexivity].
Qed.

Lemma in_range_nth (sh idx : list nat) :
  in_range sh idx = true <->
  length idx = length sh /\ forall k, k < length sh -> nth k idx 0 < nth k sh 0.
Proof.
  revert idx. induction sh as [|n sh IH]; intros [|i idx]; cbn [in_range length].
  - split; [intros _; split; [reflexivity|intros k Hk; lia]|reflexivity].
  - split; [discriminate|intros [H _]; discriminate].
  - split; [discriminate|intros [H _]; discriminate].
  - rewrite andb_true_iff, Nat.ltb_lt, IH. split.
    + intros [Hi [Hl Hk]]. split; [now f_equal|].
      intros [|k] Hlt; cbn [nth]; [exact Hi|apply Hk; lia].
    + intros [Hl Hk]. split; [exact (Hk 0 (Nat.lt_0_succ _))|].
      split; [now inversion Hl|]. intros k Hlt. apply (Hk (S k)). lia.
Qed.

Lemma in_range_swap (sh idx : list nat) (i j : nat) :
  i < length sh -> j < length sh ->
  in_range sh idx = true ->
  in_range (Torch.swap_at i j sh 0) (Torch.swap_at i j idx 0) = true.
Proof.
  intros Hi Hj H. apply in_range_nth in H. destruct H as [Hl Hk].
  apply in_range_nth. rewrite !length_swap_at. split; [exact Hl|].
  intros k Hlt. rewrite !nth_swap_at by lia.
  destruct (k =? i); [now apply Hk|]. destruct (k =? j); now apply Hk.
Qed.

Lemma transpose_table (t : tensor) (i j : nat) :
  i < rank t -> j < rank t ->
  Torch.transpose t (Z.of_nat i) (Z.of_nat j)
  = Ok (tabulate (Torch.swap_at i j (shape t) 0)
          (fun idx => get t (Torch.swap_at i j idx 0))).
Proof.
  intros Hi Hj. unfold Torch.transpose.
  now rewrite !wrap_dim_nat by assumption.
Qed.

(** Transposing a dense tensor twice over the same axes gives it back. *)
Lemma transpose_transpose (t t' : tensor) (i j : nat) :
  dense t = true -> i < rank t -> j < rank t ->
  Torch.transpose t (Z.of_nat i) (Z.of_nat j) = Ok t' ->
  Torch.transpose t' (Z.of_nat i) (Z.of_nat j) = Ok t.
Proof.
  intros Hdense Hi Hj H. rewrite transpose_table in H by assumption.
  inversion H; subst t'. clear H. unfold rank in *.
  rewrite transpose_table
    by (unfold rank; cbn [shape tabulate]; now rewrite length_swap_at).
  cbn [shape tabulate]. rewrite swap_at_involutive by assumption.
  transitivity (Ok (tabulate (shape t) (get t)));
    [|now rewrite (tabulate_get t Hdense)].
  f_equal. apply tabulate_ext. intros idx Hidx.
  fold (tabulate (Torch.swap_at i j (shape t) 0)
          (fun idx => get t (Torch.swap_at i j idx 0))).
  rewrite get_tabulate by (now apply in_range_swap).
  rewrite swap_at_involutive; [reflexivity| |];
    rewrite (in_range_length _ _ Hidx); assumption.
Qed.

Lemma dense_table (sh : list nat) (f : list nat -> Z) :
  dense (tabulate sh f) = true.
Proof.
  unfold dense, tabulate. cbn [shape elems].
  rewrite length_map, length_indices. apply Nat.eqb_refl.
Qed.

Lemma list_set_nat {A} (l : list A) (p : nat) (v : A) :
  p < length l ->
  list_set l (Z.of_nat p) v = Ok (firstn p l ++ v :: skipn (S p) l).
Proof.
  intros H. unfold list_set. cbv zeta.
  assert (E1 : (Z.of_nat p <? 0)%Z = false) by (apply Z.ltb_ge; lia).
  assert (E2 : (Z.of_nat (length l) <=? Z.of_nat p)%Z = false)
    by (apply Z.leb_gt; lia).
  rewrite E1. cbv iota. rewrite E1, E2. cbn [orb]. now rewrite Nat2Z.id.
Qed.

Lemma nth_update {A} (l : list A) (p k : nat) (v d : A) :
  p < length l ->
  nth k (firstn p l ++ v :: skipn (S p) l) d = if k =? p then v else nth k l d.
Proof.
  intros Hp.
  assert (Hlen : length (firstn p l) = p) by (rewrite length_firstn; lia).
  destruct (Nat.lt_trichotomy k p) as [Hlt|[->|Hgt]].
  - rewrite app_nth1 by lia. rewrite nth_firstn.
    destruct (Nat.ltb_spec k p); [|lia]. destruct (Nat.eqb_spec k p); [lia|reflexivity].
  - rewrite app_nth2 by lia. rewrite Hlen, Nat.sub_diag, Nat.eqb_refl. reflexivity.
  - rewrite app_nth2 by lia. rewrite Hlen.
    replace (k - p) with (S (k - S p)) by lia. cbn [nth].
    rewrite nth_skipn. destruct (Nat.eqb_spec k p); [lia|]. f_equal. lia.
Qed.

Lemma length_update {A} (l : list A) (p : nat) (v : A) :
  p < length l -> length (firstn p l ++ v :: skipn (S p) l) = length l.
Proof.
  intros H. rewrite length_app, length_firstn. cbn [length].
  rewrite length_skipn. lia.
Qed.

Lemma dims_swapped (l : list bool) (p q : nat) :
  p < length l -> q < length l ->
  (x <- tuple_get l (Z.of_nat q);;
   y <- tuple_get l (Z.of_nat p);;
   ds1 <- list_set l (Z.of_nat p) x;;
   list_set ds1 (Z.of_nat q) y)
  = Ok (Torch.swap_at p q l false).
Proof.
  intros Hp Hq.
  destruct (nth_error l q) as [x|] eqn:Hx;
    [|apply nth_error_None in Hx; lia].
  destruct (nth_error l p) as [y|] eqn:Hy;
    [|apply nth_error_None in Hy; lia].
  rewrite (tuple_get_nth _ _ _ Hx), (tuple_get_nth _ _ _ Hy). cbn [Py.bind].
  rewrite list_set_nat by exact Hp. cbn [Py.bind].
  rewrite list_set_nat by (now rewrite length_update).
  f_equal. apply (nth_ext _ _ false false).
  - now rewrite !length_update, ?length_swap_at by (rewrite ?length_update; lia).
  - intros k Hk.
    rewrite !length_update in Hk by (rewrite ?length_update; lia).
    rewrite nth_update by (now rewrite length_update).
    rewrite nth_update by exact Hp. rewrite nth_swap_at by exact Hk.
    apply (nth_error_nth _ _ false) in Hx, Hy. subst x y.
    destruct (Nat.eqb_spec k q) as [->|Hkq].
    + destruct (Nat.eqb_spec q p) as [->|]; reflexivity.
    + destruct (Nat.eqb_spec k p); reflexivity.
Qed.

(** X15. Transposing two non-batch axes of a batch swaps the two extents
    of data and mask and the two flags, and moves every entry to the
    position with the two indices exchanged.  Transposing the result over
    the same axes again gives back the original batch. *)
Theorem transpose_involution (b : MaskedBatch) (i j : nat) :
  dense (data b) = true -> dense (mask b) = true ->
  rank (mask b) = rank (data b) ->
  S (length (dims b)) = rank (data b) ->
  1 <= i -> i < rank (data b) -> 1 <= j -> j < rank (data b) ->
  exists c,
    transpose (VBatch b) (Z.of_nat i) (Z.of_nat j) = Ok (VBatch c)
    /\ shape (data c) = Torch.swap_at i j (shape (data b)) 0
    /\ shape (mask c) = Torch.swap_at i j (shape (mask b)) 0
    /\ dims c = Torch.swap_at (i - 1) (j - 1) (dims b) false
    /\ (forall idx, in_range (shape (data c)) idx = true ->
          get (data c) idx = get (data b) (Torch.swap_at i j idx 0))
    /\ transpose (VBatch c) (Z.of_nat i) (Z.of_nat j) = Ok (VBatch b).
Proof.
  intros Hdd Hdm Hrm Hlen Hi1 Hi Hj1 Hj.
  assert (Hcond : forall r, r = rank (data b) ->
            ((Z.of_nat r <? Z.of_nat i) || (Z.of_nat r <? Z.of_nat j))%Z = false).
  { intros r ->. apply orb_false_intro; apply Z.ltb_ge; lia. }
  assert (Hsw : forall l : list bool, length l = length (dims b) ->
            (x <- tuple_get l (Z.of_nat j - 1);;
             y <- tuple_get l (Z.of_nat i - 1);;
             ds1 <- list_set l (Z.of_nat i - 1) x;;
             list_set ds1 (Z.of_nat j - 1) y)
            = Ok (Torch.swap_at (i - 1) (j - 1) l false)).
  { intros l Hl.
    replace (Z.of_nat i - 1)%Z with (Z.of_nat (i - 1)) by lia.
    replace (Z.of_nat j - 1)%Z with (Z.of_nat (j - 1)) by lia.
    apply dims_swapped; lia. }
  exists (mkBatch
            (tabulate (Torch.swap_at i j (shape (data b)) 0)
               (fun idx => get (data b) (Torch.swap_at i j idx 0)))
            (tabulate (Torch.swap_at i j (shape (mask b)) 0)
               (fun idx => get (mask b) (Torch.swap_at i j idx 0)))
            (Torch.swap_at (i - 1) (j - 1) (dims b) false)).
  assert (Hfirst :
    transpose (VBatch b) (Z.of_nat i) (Z.of_nat j)
    = Ok (VBatch (mkBatch
            (tabulate (Torch.swap_at i j (shape (data b)) 0)
               (fun idx => get (data b) (Torch.swap_at i j idx 0)))
            (tabulate (Torch.swap_at i j (shape (mask b)) 0)
               (fun idx => get (mask b) (Torch.swap_at i j idx 0)))
            (Torch.swap_at (i - 1) (j - 1) (dims b) false)))).
  { unfold transpose, value_dim, tensor_transpose.
    cbn [attr_data Py.bind].
    rewrite (Hcond _ eq_refl), (Hcond _ Hrm).
    rewrite !transpose_table by lia. cbn [Py.bind].
    pose proof (Hsw (dims b) eq_refl) as H.
    destruct (tuple_get (dims b) (Z.of_nat j - 1)) as [x|]; [|discriminate].
    destruct (tuple_get (dims b) (Z.of_nat i - 1)) as [y|]; [|discriminate].
    cbn [Py.bind] in *.
    destruct (list_set (dims b) (Z.of_nat i - 1) x) as [ds1|]; [|discriminate].
    cbn [Py.bind] in *. rewrite H. reflexivity. }
  split; [exact Hfirst|].
  cbn [data mask dims shape tabulate].
  split; [reflexivity|split; [reflexivity|split; [reflexivity|split]]].
  - intros idx Hidx.
    fold (tabulate (Torch.swap_at i j (shape (data b)) 0)
            (fun idx => get (data b) (Torch.swap_at i j idx 0))).
    now rewrite get_tabulate.
  - unfold transpose, value_dim, tensor_transpose.
    cbn [attr_data Py.bind data mask dims].
    assert (Hr1 : rank (tabulate (Torch.swap_at i j (shape (data b)) 0)
                          (fun idx => get (data b) (Torch.swap_at i j idx 0)))
                  = rank (data b)).
    { unfold rank. cbn [shape tabulate]. apply length_swap_at. }
    assert (Hr2 : rank (tabulate (Torch.swap_at i j (shape (mask b)) 0)
                          (fun idx => get (mask b) (Torch.swap_at i j idx 0)))
                  = rank (data b)).
    { unfold rank. cbn [shape tabulate]. rewrite length_swap_at. exact Hrm. }
    rewrite (Hcond _ Hr1), (Hcond _ Hr2).
    rewrite (transpose_transpose (data b) _ i j Hdd Hi Hj)
      by (apply transpose_table; assumption).
    rewrite (transpose_transpose (mask b) _ i j Hdm)
      by (rewrite ?Hrm; try assumption; apply transpose_table; rewrite Hrm; assumption).
    cbn [Py.bind].
    pose proof (Hsw (Torch.swap_at (i - 1) (j - 1) (dims b) false)
                  (length_swap_at _ _ _ _)) as H.
    destruct (tuple_get _ (Z.of_nat j - 1)) as [x|]; [|discriminate].
    destruct (tuple_get _ (Z.of_nat i - 1)) as [y|]; [|discriminate].
    cbn [Py.bind] in *.
    destruct (list_set _ (Z.of_nat i - 1) x) as [ds1|]; [|discriminate].
    cbn [Py.bind] in *. rewrite H.
    rewrite swap_at_involutive by lia.
    now destruct b.
Qed.

Lemma transpose_involution_witness :
  let b := mkBatch (mkTensor [1; 2; 3] [1; 2; 3; 4; 5; 6]%Z)
                   (mkTensor [1; 1; 3] [1; 1; 0]%Z) [false; true] in
  exists c,
    transpose (VBatch b) 1 2 = Ok (VBatch c)
    /\ shape (data c) = [1; 3; 2]
    /\ shape (mask c) = [1; 3; 1]
    /\ dims c = [true; false]
    /\ get (data c) [0; 2; 1] = 6%Z
    /\ transpose (VBatch c) 1 2 = Ok (VBatch b).
Proof.
  intros b.
  destruct (transpose_involution b 1 2 eq_refl eq_refl eq_refl eq_refl
              (le_n 1) (le_S _ _ (le_n 2)) (le_S _ _ (le_n 1)) (le_n 3))
    as [c [Hc [Hsd [Hsm [Hds [Hval Hback]]]]]].
  exists c. split; [exact Hc|]. split; [exact Hsd|]. split; [exact Hsm|].
  split; [exact Hds|]. split; [|exact Hback].
  rewrite (Hval [0; 2; 1]) by (rewrite Hsd; reflexivity). reflexivity.
Defined.

(** ** Matrix product *)

(** X16. [matmul] between a masked batch and a value that is no masked
    batch raises [NotImplementedError] in either order.  Between two masked
    batches it raises unless the numbers of non-batch axes are (2, 1),
    (1, 2) or (2, 2); in particular the product of two batches of vectors
    never returns. *)
Theorem matmul_unsupported (b1 b2 : MaskedBatch) :
  (forall v, is_MaskedBatch v = false ->
     matmul (VBatch b1) v = Raise NotImplementedError
     /\ matmul v (VBatch b1) = Raise NotImplementedError)
  /\ ((length (dims b1) =? 2) && (length (dims b2) =? 1) = false ->
      (length (dims b1) =? 1) && (length (dims b2) =? 2) = false ->
      (length (dims b1) =? 2) && (length (dims b2) =? 2) = false ->
      exists e, matmul (VBatch b1) (VBatch b2) = Raise e)
  /\ (length (dims b1) = 1 -> length (dims b2) = 1 ->
      exists e, matmul (VBatch b1) (VBatch b2) = Raise e).
Proof.
  assert (Hchain :
    (length (dims b1) =? 2) && (length (dims b2) =? 1) = false ->
    (length (dims b1) =? 1) && (length (dims b2) =? 2) = false ->
    (length (dims b1) =? 2) && (length (dims b2) =? 2) = false ->
    exists e, matmul (VBatch b1) (VBatch b2) = Raise e).
  { intros H21 H12 H22. unfold matmul. cbv zeta. rewrite H21, H12, H22.
    destruct (Torch.mul (data b1) (mask b1)) as [d1|e]; cbn [Py.bind]; [|eauto].
    destruct (Torch.mul (data b2) (mask b2)) as [d2|e]; cbn [Py.bind]; [|eauto].
    destruct (if length (dims b1) =? 1 then Torch.unsqueeze d1 (-2) else Ok d1)
      as [d1'|e]; cbn [Py.bind]; [|eauto].
    destruct (if (length (dims b2) =? 1) && (length (dims b1) =? 1)
              then Torch.unsqueeze d2 (-1) else Ok d2)
      as [d2'|e]; cbn [Py.bind]; [|eauto].
    destruct (Torch.matmul d1' d2') as [d|e]; cbn [Py.bind]; [|eauto].
    destruct (if (length (dims b1) =? 1) && (length (dims b2) =? 1)
              then Torch.index (mask b1) [full_slice; slice_upto 1]
              else Ok (mask b1)) as [m|e]; cbn [Py.bind]; eauto. }
  split; [|split].
  - intros v Hv. destruct v; try discriminate; split; reflexivity.
  - exact Hchain.
  - intros H1 H2. apply Hchain; now rewrite H1, H2.
Qed.

Lemma matmul_unsupported_witness :
  let v := mkBatch (mkTensor [2; 3] [1; 2; 3; 4; 5; 6]%Z)
                   (mkTensor [2; 3] [1; 1; 0; 1; 1; 1]%Z) [true] in
  matmul (VBatch v) (VTensor (data v)) = Raise NotImplementedError
  /\ exists e, matmul (VBatch v) (VBatch v) = Raise e.
Proof.
  intros v.
  destruct (matmul_unsupported v v) as [Hmixed [_ Hvec]].
  split.
  - exact (proj1 (Hmixed (VTensor (data v)) eq_refl)).
  - exact (Hvec eq_refl eq_refl).
Defined.

Lemma resolve_slice_first (c : nat) :
  0 < c -> Torch.resolve_slice c None (Some 1%Z) None = Ok (Torch.Range 0 1 1).
Proof.
  intros H. unfold Torch.resolve_slice, Torch.clamp_bound.
  cbn [Z.leb Z.compare Z.ltb]. cbv zeta.
  change (Z.to_nat 1) with 1. rewrite Nat.div_1_r.
  do 2 f_equal. lia.
Qed.

Lemma matmul_table (a b : tensor) (A A' A'' n k m : nat) :
  shape a = [A; n; k] -> shape b = [A'; k; m] ->
  Torch.broadcast_shapes [A] [A'] = Some [A''] ->
  Torch.matmul a b
  = Ok (tabulate [A''; n; m] (fun idx =>
          let x := hd 0 idx in
          let i := hd 0 (tl idx) in
          let j := last (tl idx) 0 in
          sum_list (map (fun c =>
                      (get a (Torch.broadcast_index [A] [x] ++ [i; c])
                       * get b (Torch.broadcast_index [A'] [x] ++ [c; j]))%Z)
                    (seq 0 k)))).
Proof.
  intros Ha Hb Hbc. unfold Torch.matmul, rank. rewrite Ha, Hb.
  cbn [length Nat.eqb orb Nat.sub nth firstn]. rewrite Nat.eqb_refl.
  cbn [negb]. rewrite Hbc. cbn [app length]. f_equal.
  apply tabulate_ext. intros idx Hidx.
  destruct idx as [|x [|i [|j [|z idx]]]]; try discriminate;
    cbn [in_range] in Hidx; rewrite ?andb_false_r in Hidx; try discriminate.
  reflexivity.
Qed.

Lemma index_first_column (t : tensor) (A a c : nat) :
  shape t = [A; a; c] -> 0 < c ->
  exists T,
    Torch.index t [full_slice; full_slice; slice_upto 1] = Ok T
    /\ shape T = [A; a; 1]
    /\ forall x i, x < A -> i < a -> get T [x; i; 0] = get t [x; i; 0].
Proof.
  intros Hs Hc. unfold Torch.index, full_slice, slice_upto. rewrite Hs.
  cbn [Torch.resolve]. rewrite !resolve_slice_full, resolve_slice_first by exact Hc.
  cbn [Py.bind map]. eexists. split; [reflexivity|]. split; [reflexivity|].
  intros x i Hx Hi. cbn [Torch.out_shape].
  rewrite get_tabulate by (apply in_range3; lia).
  cbn [Torch.source_index]. f_equal. repeat (f_equal; try lia).
Qed.

Lemma index_first_row (t : tensor) (A a c : nat) :
  shape t = [A; a; c] -> 0 < a ->
  exists T,
    Torch.index t [full_slice; slice_upto 1; full_slice] = Ok T
    /\ shape T = [A; 1; c]
    /\ forall x j, x < A -> j < c -> get T [x; 0; j] = get t [x; 0; j].
Proof.
  intros Hs Ha. unfold Torch.index, full_slice, slice_upto. rewrite Hs.
  cbn [Torch.resolve]. rewrite !resolve_slice_full, resolve_slice_first by exact Ha.
  cbn [Py.bind map]. eexists. split; [reflexivity|]. split; [reflexivity|].
  intros x j Hx Hj. cbn [Torch.out_shape].
  rewrite get_tabulate by (apply in_range3; lia).
  cbn [Torch.source_index]. f_equal. repeat (f_equal; try lia).
Qed.

Lemma broadcast_index3 (A a c x i j : nat) :
  x < A ->
  Torch.broadcast_index [A; a; c] [x; i; j]
  = [x; if a =? 1 then 0 else i; if c =? 1 then 0 else j].
Proof.
  intros Hx. unfold Torch.broadcast_index, zip_with. cbn.
  f_equal. destruct (Nat.eqb_spec A 1); lia.
Qed.

Lemma flag_index (d : bool) (n i : nat) :
  i < n ->
  (if (if d then n else 1) =? 1 then 0 else i) = if d then i else 0.
Proof.
  intros Hi. destruct d; [|reflexivity].
  destruct (Nat.eqb_spec n 1); lia.
Qed.

Lemma flag_extent (d : bool) (n i : nat) :
  i < n -> (if d then i else 0) < (if d then n else 1).
Proof. destruct d; lia. Qed.

(** X17. The product of two batches of matrices, whose masks have one row
    per example, multiplies each operand by its mask before the contraction
    and propagates validity through the same contraction: the result is
    well formed, its data is the matrix product of the two masked operands,
    it takes the row flag of the left and the column flag of the right
    operand, and the mask value that governs entry (i, j) is the product of
    the left mask at (i, 0) and the right mask at (0, j). *)
Theorem matmul_matrices (b1 b2 : MaskedBatch) (B n k m : nat)
    (d1 e1 d2 e2 : bool) :
  shape (data b1) = [B; n; k] -> shape (data b2) = [B; k; m] ->
  dims b1 = [d1; e1] -> dims b2 = [d2; e2] ->
  shape (mask b1) = [B; if d1 then n else 1; if e1 then k else 1] ->
  shape (mask b2) = [B; if d2 then k else 1; if e2 then m else 1] ->
  0 < k ->
  exists r,
    matmul (VBatch b1) (VBatch b2) = Ok (VBatch r)
    /\ well_formed r = true
    /\ dims r = [d1; e2]
    /\ shape (data r) = [B; n; m]
    /\ (exists p1 p2,
          Torch.mul (data b1) (mask b1) = Ok p1
          /\ Torch.mul (data b2) (mask b2) = Ok p2
          /\ Torch.matmul p1 p2 = Ok (data r))
    /\ (forall x i j, x < B -> i < n -> j < m ->
          mask_at r [x; i; j]
          = (mask_at b1 [x; i; 0%nat] * mask_at b2 [x; 0%nat; j])%Z).
Proof.
  intros Hd1 Hd2 Hds1 Hds2 Hm1 Hm2 Hk.
  assert (Hwf1 : well_formed b1 = true).
  { unfold well_formed. rewrite Hd1, Hm1, Hds1. cbn [axes_ok].
    rewrite Nat.eqb_refl. destruct d1, e1; cbn; now rewrite ?Nat.eqb_refl. }
  assert (Hwf2 : well_formed b2 = true).
  { unfold well_formed. rewrite Hd2, Hm2, Hds2. cbn [axes_ok].
    rewrite Nat.eqb_refl. destruct d2, e2; cbn; now rewrite ?Nat.eqb_refl. }
  pose proof (mul_data_mask b1 (well_formed_fits b1 Hwf1)) as Hp1.
  pose proof (mul_data_mask b2 (well_formed_fits b2 Hwf2)) as Hp2.
  rewrite Hd1 in Hp1. rewrite Hd2 in Hp2.
  destruct (index_first_column (mask b1) _ _ _ Hm1) as [m1 [Hi1 [Hs1 Hg1]]];
    [destruct e1; lia|].
  destruct (index_first_row (mask b2) _ _ _ Hm2) as [m2 [Hi2 [Hs2 Hg2]]];
    [destruct d2; lia|].
  unfold matmul. cbv zeta. rewrite Hds1, Hds2, Hp1, Hp2.
  cbn [length Nat.eqb andb Py.bind].
  erewrite (matmul_table _ _ B B B n k m);
    [|reflexivity|reflexivity|apply broadcast_shapes_refl].
  cbn [Py.bind]. rewrite Hi1, Hi2. cbn [Py.bind].
  rewrite (matmul_table m1 m2 B B B _ 1 _ Hs1 Hs2 (broadcast_shapes_refl [B])).
  cbn [Py.bind fst snd]. eexists. split; [reflexivity|].
  cbn [data mask dims shape tabulate].
  split; [|split; [reflexivity|split; [reflexivity|split]]].
  - unfold well_formed. cbn [shape data mask dims tabulate].
    change (tuple_upto [d1; e1] 1 ++ tuple_from [d2; e2] 1) with [d1; e2].
    cbn [axes_ok]. rewrite Nat.eqb_refl.
    destruct d1, e2; cbn; now rewrite ?Nat.eqb_refl.
  - eexists. eexists. split; [reflexivity|]. split; [reflexivity|].
    erewrite (matmul_table _ _ B B B n k m);
      [reflexivity|reflexivity|reflexivity|apply broadcast_shapes_refl].
  - intros x i j Hx Hi Hj. unfold mask_at at 1. cbn [mask shape tabulate].
    rewrite broadcast_index3 by exact Hx. rewrite !flag_index by assumption.
    set (F := fun idx : list nat =>
            let x := hd 0 idx in let i := hd 0 (tl idx) in
            let j := last (tl idx) 0 in
            sum_list (map (fun c =>
              (get m1 (Torch.broadcast_index [B] [x] ++ [i; c])
               * get m2 (Torch.broadcast_index [B] [x] ++ [c; j]))%Z) (seq 0 1))).
    change (get (tabulate [B; if d1 then n else 1; if e2 then m else 1] F)
              [x; if d1 then i else 0; if e2 then j else 0]
            = (mask_at b1 [x; i; 0%nat] * mask_at b2 [x; 0%nat; j])%Z).
    rewrite get_tabulate
      by (apply in_range3; [exact Hx|now apply flag_extent|now apply flag_extent]).
    unfold F. cbv zeta. cbn [hd tl last seq map sum_list fold_right].
    assert (Hbx : Torch.broadcast_index [B] [x] = [x])
      by (apply broadcast_index_in_range; cbn [in_range];
          apply Nat.ltb_lt in Hx; now rewrite Hx).
    rewrite Hbx. cbn [app].
    rewrite Hg1 by (auto using flag_extent).
    rewrite Hg2 by (auto using flag_extent).
    unfold mask_at. rewrite Hm1, Hm2, !broadcast_index3 by exact Hx.
    rewrite (flag_index d1 n i Hi), (flag_index e2 m j Hj).
    replace (if (if e1 then k else 1) =? 1 then 0 else 0) with 0
      by (now destruct (_ =? 1)).
    replace (if (if d2 then k else 1) =? 1 then 0 else 0) with 0
      by (now destruct (_ =? 1)).
    lia.
Qed.

Lemma matmul_matrices_witness :
  let a := mkBatch (mkTensor [1; 2; 3] [1; 2; 3; 4; 5; 6]%Z)
                   (mkTensor [1; 2; 3] [1; 1; 0; 1; 1; 1]%Z) [true; true] in
  let c := mkBatch (mkTensor [1; 3; 2] [1; 0; 0; 1; 1; 1]%Z)
                   (mkTensor [1; 3; 1] [1; 1; 0]%Z) [true; false] in
  exists r,
    matmul (VBatch a) (VBatch c) = Ok (VBatch r)
    /\ well_formed r = true
    /\ dims r = [true; false]
    /\ mask_at r [0; 1; 1] = 1%Z.
Proof.
  intros a c.
  destruct (matmul_matrices a c 1 2 3 2 true true true false
              eq_refl eq_refl eq_refl eq_refl eq_refl eq_refl (Nat.lt_0_succ 2))
    as [r [Hr [Hwf [Hds [_ [_ Hmask]]]]]].
  exists r. split; [exact Hr|]. split; [exact Hwf|]. split; [exact Hds|].
  exact (Hmask 0 1 1 (le_n 1) (le_n 2) (le_n 2)).
Defined.

(** ** Splitting and concatenating *)

Lemma nth_replace_at (l : list nat) (j i v d : nat) :
  j < length l ->
  nth i (Torch.replace_at j v l) d = if i =? j then v else nth i l d.
Proof. intros H. unfold Torch.replace_at. now apply nth_update. Qed.

Lemma length_replace_at (l : list nat) (j v : nat) :
  j < length l -> length (Torch.replace_at j v l) = length l.
Proof. intros H. unfold Torch.replace_at. now apply length_update. Qed.

Lemma replace_at_twice (l : list nat) (j v w : nat) :
  j < length l ->
  Torch.replace_at j v (Torch.replace_at j w l) = Torch.replace_at j v l.
Proof.
  intros H. apply (nth_ext _ _ 0 0).
  - now rewrite !length_replace_at by (rewrite ?length_replace_at; assumption).
  - intros i _.
    rewrite !nth_replace_at by (rewrite ?length_replace_at; assumption).
    now destruct (i =? j).
Qed.

Lemma replace_at_same (l : list nat) (j : nat) :
  j < length l -> Torch.replace_at j (nth j l 0) l = l.
Proof.
  intros H. apply (nth_ext _ _ 0 0).
  - now rewrite length_replace_at.
  - intros i _. rewrite nth_replace_at by assumption.
    now destruct (Nat.eqb_spec i j) as [->|].
Qed.

Lemma split_lengths_cover (n s num : nat) :
  0 < s -> n <= num * s ->
  fold_right Nat.add 0 (map (fun i => Nat.min s (n - i * s)) (seq 0 num)) = n.
Proof.
  intros Hs. revert n. induction num as [|num IH]; intros n Hn.
  - simpl in *. lia.
  - cbn [seq map fold_right]. rewrite <- seq_shift, map_map.
    rewrite (map_ext _ (fun i => Nat.min s ((n - s) - i * s)))
      by (intros i; f_equal; lia).
    rewrite IH by lia. lia.
Qed.

Lemma sum_split_lengths (n s : nat) :
  0 < s -> fold_right Nat.add 0 (Torch.split_lengths n s) = n.
Proof.
  intros Hs. unfold Torch.split_lengths. apply split_lengths_cover; [exact Hs|].
  pose proof (Nat.div_mod_eq (n + s - 1) s) as Hdm.
  pose proof (Nat.mod_upper_bound (n + s - 1) s ltac:(lia)) as Hr.
  nia.
Qed.

Lemma in_range_slab (sh idx : list nat) (j N l : nat) :
  j < length sh ->
  in_range (Torch.replace_at j N sh) idx = true ->
  nth j idx 0 < l ->
  in_range (Torch.replace_at j l sh) idx = true.
Proof.
  intros Hj H Hl. apply in_range_nth in H. destruct H as [Hlen Hk].
  rewrite length_replace_at in Hlen by assumption.
  apply in_range_nth. rewrite length_replace_at by assumption.
  split; [exact Hlen|]. intros k Hlt. specialize (Hk k).
  rewrite length_replace_at in Hk by assumption. specialize (Hk Hlt).
  rewrite nth_replace_at in Hk |- * by assumption.
  destruct (k =? j) eqn:E; [|exact Hk].
  apply Nat.eqb_eq in E. subst k. exact Hl.
Qed.

Lemma cat_get_slabs (t : tensor) (j : nat) (lens : list nat) :
  j < rank t ->
  forall a idx,
    in_range (Torch.replace_at j (fold_right Nat.add 0 lens) (shape t)) idx = true ->
    Torch.cat_get (map (fun p => Torch.slab t j (fst p) (snd p))
                       (Torch.sections_from a lens)) j idx
    = get t (Torch.replace_at j (a + nth j idx 0) idx).
Proof.
  intros Hj. unfold rank in Hj.
  induction lens as [|l lens IH]; intros a idx Hin.
  - apply in_range_nth in Hin. destruct Hin as [_ Hk].
    specialize (Hk j). rewrite length_replace_at in Hk by assumption.
    specialize (Hk Hj). rewrite nth_replace_at, Nat.eqb_refl in Hk by assumption.
    cbn in Hk. lia.
  - pose proof (in_range_length _ _ Hin) as Hlen.
    rewrite length_replace_at in Hlen by assumption.
    cbn [Torch.sections_from map Torch.cat_get fst snd].
    unfold Torch.slab at 1 2. cbn [shape tabulate].
    rewrite nth_replace_at, Nat.eqb_refl by assumption.
    destruct (Nat.ltb_spec (nth j idx 0) l) as [Hlt|Hge].
    + fold (tabulate (Torch.replace_at j l (shape t))
              (fun idx => get t (Torch.replace_at j (a + nth j idx 0) idx))).
      rewrite get_tabulate; [reflexivity|].
      now apply (in_range_slab _ _ _ (fold_right Nat.add 0 (l :: lens))).
    + assert (Hs : nth j (shape (Torch.slab t j a l)) 0 = l).
      { unfold Torch.slab. cbn [shape tabulate].
        now rewrite nth_replace_at, Nat.eqb_refl by assumption. }
      rewrite ?Hs. rewrite IH.
      * rewrite nth_replace_at, Nat.eqb_refl by lia.
        rewrite replace_at_twice by lia. f_equal. f_equal. lia.
      * apply in_range_nth in Hin. destruct Hin as [_ Hk].
        apply in_range_nth.
        rewrite !length_replace_at by (rewrite ?Hlen; assumption).
        split; [exact Hlen|]. intros k Hlt. specialize (Hk k).
        rewrite length_replace_at in Hk by assumption. specialize (Hk Hlt).
        rewrite nth_replace_at in Hk by assumption.
        rewrite (nth_replace_at idx) by (rewrite Hlen; assumption).
        rewrite (nth_replace_at (shape t)) by assumption.
        destruct (k =? j) eqn:E; [|exact Hk].
        apply Nat.eqb_eq in E. subst k. cbn [fold_right] in Hk. lia.
Qed.

Lemma slab_extents (t : tensor) (j : nat) (lens : list nat) (a : nat) :
  j < rank t ->
  fold_right Nat.add 0
    (map (fun x => nth j (shape x) 0)
         (map (fun p => Torch.slab t j (fst p) (snd p))
              (Torch.sections_from a lens)))
  = fold_right Nat.add 0 lens.
Proof.
  intros Hj. unfold rank in Hj. revert a.
  induction lens as [|l lens IH]; intros a; [reflexivity|].
  cbn [Torch.sections_from map fold_right fst snd]. rewrite IH.
  unfold Torch.slab. cbn [shape tabulate].
  now rewrite nth_replace_at, Nat.eqb_refl by assumption.
Qed.

Lemma slab_shapes_agree (t : tensor) (j : nat) (lens : list nat) (a l0 a0 : nat) :
  j < rank t ->
  forallb (fun x => shape_eqb (Torch.replace_at j 0 (shape x))
                              (Torch.replace_at j 0 (shape (Torch.slab t j a0 l0))))
          (map (fun p => Torch.slab t j (fst p) (snd p))
               (Torch.sections_from a lens)) = true.
Proof.
  intros Hj. unfold rank in Hj. apply forallb_forall. intros x Hx.
  apply in_map_iff in Hx. destruct Hx as [p [<- _]].
  unfold Torch.slab. cbn [shape tabulate].
  rewrite !replace_at_twice by assumption. apply shape_eqb_refl.
Qed.

(** Concatenating the consecutive slabs that cover an axis of a dense
    tensor gives the tensor back. *)
Lemma cat_slabs (t : tensor) (j : nat) (lens : list nat) :
  dense t = true -> j < rank t -> lens <> [] ->
  fold_right Nat.add 0 lens = nth j (shape t) 0 ->
  Torch.cat (map (fun p => Torch.slab t j (fst p) (snd p))
                 (Torch.sections_from 0 lens)) (Z.of_nat j)
  = Ok t.
Proof.
  intros Hdense Hj Hne Hsum.
  destruct lens as [|l lens]; [congruence|].
  pose proof (slab_extents t j (l :: lens) 0 Hj) as Hext.
  pose proof (cat_get_slabs t j (l :: lens) Hj 0) as Hget.
  cbn [Torch.sections_from map fst snd] in *.
  unfold Torch.cat.
  assert (Hr : rank (Torch.slab t j 0 l) = rank t).
  { unfold rank, Torch.slab. cbn [shape tabulate].
    apply length_replace_at. exact Hj. }
  rewrite Hr, wrap_dim_nat by exact Hj. cbn [Py.bind].
  rewrite (slab_shapes_agree t j lens (0 + l) l 0 Hj).
  cbn [map]. rewrite Hext, Hsum.
  unfold Torch.slab at 1. cbn [shape tabulate].
  rewrite replace_at_twice, replace_at_same by exact Hj.
  transitivity (Ok (tabulate (shape t) (get t)));
    [|now rewrite (tabulate_get t Hdense)].
  f_equal. apply tabulate_ext. intros idx Hidx.
  rewrite Hget by (rewrite Hsum, replace_at_same by exact Hj; exact Hidx).
  cbn [Nat.add]. f_equal.
  unfold rank in Hj. rewrite <- (in_range_length _ _ Hidx) in Hj.
  now apply replace_at_same.
Qed.

Lemma split_by_size (t : tensor) (j s : nat) :
  j < rank t -> 0 < s ->
  Torch.split t (Torch.SplitSize (Z.of_nat s)) (Z.of_nat j)
  = Ok (map (fun p => Torch.slab t j (fst p) (snd p))
            (Torch.sections_from 0 (Torch.split_lengths (nth j (shape t) 0) s))).
Proof.
  intros Hj Hs. unfold Torch.split. rewrite wrap_dim_nat by exact Hj.
  cbn [Py.bind]. destruct (Z.ltb_spec (Z.of_nat s) 0); [lia|].
  destruct (Z.eqb_spec (Z.of_nat s) 0); [lia|].
  cbn [Py.bind]. now rewrite Nat2Z.id.
Qed.

Lemma split_lengths_nonempty (n s : nat) : Torch.split_lengths n s <> [].
Proof.
  unfold Torch.split_lengths.
  destruct (Nat.max ((n + s - 1) / s) 1) eqn:E; [lia|]. discriminate.
Qed.

Lemma all_data_batches {A} (f g : A -> tensor) (ds : list bool) (l : list A) :
  all_data (map (fun p => VBatch (mkBatch (f p) (g p) ds)) l) = Ok (map f l).
Proof.
  induction l as [|x l IH]; [reflexivity|].
  cbn [map all_data attr_data data Py.bind]. now rewrite IH.
Qed.

Lemma all_masks_batches {A} (f g : A -> tensor) (ds : list bool) (l : list A) :
  all_masks (map (fun p => VBatch (mkBatch (f p) (g p) ds)) l) = Ok (map g l).
Proof.
  induction l as [|x l IH]; [reflexivity|].
  cbn [map all_masks attr_mask mask Py.bind]. now rewrite IH.
Qed.

Lemma zip_with_maps {A B C D} (f : B -> C -> D) (g : A -> B) (h : A -> C)
    (l : list A) :
  zip_with f (map g l) (map h l) = map (fun p => f (g p) (h p)) l.
Proof.
  unfold zip_with. induction l as [|x l IH]; [reflexivity|].
  cbn [map combine fst snd]. now rewrite <- IH.
Qed.

Lemma sections_from_nonempty (a : nat) (lens : list nat) :
  lens <> [] -> Torch.sections_from a lens <> [].
Proof. destruct lens; [congruence|discriminate]. Qed.

Lemma cat_batches {A} (f g : A -> tensor) (ds : list bool) (x : A)
    (l : list A) (dim : Z) :
  cat (map (fun p => VBatch (mkBatch (f p) (g p) ds)) (x :: l)) dim
  = (d <- Torch.cat (map f (x :: l)) dim;;
     dynamic <- tuple_get ds (dim - 1);;
     m <- (if (dynamic : bool) then Torch.cat (map g (x :: l)) dim
           else Ok (g x));;
     Ok (VBatch (mkBatch d m ds))).
Proof.
  pose proof (all_data_batches f g ds (x :: l)) as Hd.
  pose proof (all_masks_batches f g ds (x :: l)) as Hm.
  cbn [map] in *. unfold cat. rewrite Hd, Hm. reflexivity.
Qed.

Lemma length_sections_from (a : nat) (lens : list nat) :
  length (Torch.sections_from a lens) = length lens.
Proof.
  revert a. induction lens as [|l lens IH]; intros a; [reflexivity|].
  cbn [Torch.sections_from length]. now rewrite IH.
Qed.

Lemma length_split_lengths (n s : nat) :
  length (Torch.split_lengths n s) = Nat.max ((n + s - 1) / s) 1.
Proof. unfold Torch.split_lengths. now rewrite length_map, length_seq. Qed.

(** The pieces [split] cuts a batch into along a non-batch axis, and what
    [cat] makes of them. *)
Lemma split_pieces (b : MaskedBatch) (j s : nat) (dynamic : bool) :
  dense (data b) = true ->
  0 < j -> j < rank (data b) ->
  nth_error (dims b) (j - 1) = Some dynamic ->
  (dynamic = true ->
   dense (mask b) = true /\ j < rank (mask b)
   /\ nth j (shape (mask b)) 0 = nth j (shape (data b)) 0) ->
  0 < s ->
  exists pieces,
    split (VBatch b) (Torch.SplitSize (Z.of_nat s)) (Z.of_nat j) = Ok pieces
    /\ length pieces
       = Nat.max ((nth j (shape (data b)) 0 + s - 1) / s) 1
    /\ cat pieces (Z.of_nat j) = Ok (VBatch b).
Proof.
  intros Hdense Hj0 Hj Hdyn Hmask Hs.
  assert (Hget : tuple_get (dims b) (Z.of_nat j - 1) = Ok dynamic).
  { replace (Z.of_nat j - 1)%Z with (Z.of_nat (j - 1)) by lia.
    now apply tuple_get_nth. }
  unfold split.
  assert (E1 : (Z.of_nat j <? 0)%Z = false) by (apply Z.ltb_ge; lia).
  assert (E2 : (0 <? Z.of_nat j)%Z = true) by (apply Z.ltb_lt; lia).
  rewrite E1. cbv iota zeta. rewrite E2, Hget. cbn [Py.bind].
  rewrite (split_by_size (data b) j s Hj Hs). cbn [Py.bind].
  pose proof (length_split_lengths (nth j (shape (data b)) 0) s) as Hlen.
  set (lens := Torch.split_lengths (nth j (shape (data b)) 0) s) in *.
  assert (Hne : lens <> []) by apply split_lengths_nonempty.
  assert (Hsum : fold_right Nat.add 0 lens = nth j (shape (data b)) 0)
    by now apply sum_split_lengths.
  pose proof (cat_slabs (data b) j lens Hdense Hj Hne Hsum) as Hcat.
  pose proof (length_sections_from 0 lens) as Hsec.
  destruct dynamic.
  - destruct (Hmask eq_refl) as [Hdm [Hjm Hext]].
    rewrite (split_by_size (mask b) j s Hjm Hs). cbn [Py.bind].
    rewrite Hext. fold lens.
    pose proof (cat_slabs (mask b) j lens Hdm Hjm Hne) as Hcatm.
    rewrite Hext in Hcatm. specialize (Hcatm Hsum).
    rewrite zip_with_maps. eexists. split; [reflexivity|].
    split; [now rewrite length_map, Hsec|].
    destruct (Torch.sections_from 0 lens) as [|x l] eqn:El.
    { now apply sections_from_nonempty in El. }
    rewrite (cat_batches (fun p => Torch.slab (data b) j (fst p) (snd p))
                         (fun p => Torch.slab (mask b) j (fst p) (snd p))).
    rewrite Hcat. cbn [Py.bind]. rewrite Hget. cbn [Py.bind].
    rewrite Hcatm. cbn [Py.bind]. now destruct b.
  - rewrite map_map. eexists. split; [reflexivity|].
    split; [now rewrite length_map, Hsec|].
    destruct (Torch.sections_from 0 lens) as [|x l] eqn:El.
    { now apply sections_from_nonempty in El. }
    rewrite (cat_batches (fun p => Torch.slab (data b) j (fst p) (snd p))
                         (fun _ => mask b)).
    rewrite Hcat. cbn [Py.bind]. rewrite Hget. cbn [Py.bind].
    now destruct b.
Qed.

(** X18. Splitting a batch along a non-batch axis into pieces of a positive
    size and concatenating the pieces along the same axis gives the batch
    back.  On a static axis the pieces share the mask of the batch; on a
    dynamic axis the mask is split and concatenated with the data, which
    needs the mask to have the data's extent there. *)
Theorem cat_split_round_trip (b : MaskedBatch) (j s : nat) (dynamic : bool) :
  dense (data b) = true ->
  0 < j -> j < rank (data b) ->
  nth_error (dims b) (j - 1) = Some dynamic ->
  (dynamic = true ->
   dense (mask b) = true /\ j < rank (mask b)
   /\ nth j (shape (mask b)) 0 = nth j (shape (data b)) 0) ->
  0 < s ->
  (pieces <- split (VBatch b) (Torch.SplitSize (Z.of_nat s)) (Z.of_nat j);;
   cat pieces (Z.of_nat j)) = Ok (VBatch b).
Proof.
  intros Hdense Hj0 Hj Hdyn Hmask Hs.
  destruct (split_pieces b j s dynamic Hdense Hj0 Hj Hdyn Hmask Hs)
    as [pieces [Hsplit [_ Hcat]]].
  rewrite Hsplit. exact Hcat.
Qed.

Lemma cat_split_round_trip_witness :
  let b := mkBatch (mkTensor [2; 5] [1; 2; 3; 4; 5; 6; 7; 8; 9; 10]%Z)
                   (mkTensor [2; 5] [1; 1; 1; 0; 0; 1; 1; 1; 1; 1]%Z)
                   [true] in
  (pieces <- split (VBatch b) (Torch.SplitSize 2) 1;; cat pieces 1)
  = Ok (VBatch b).
Proof.
  intros b.
  apply (cat_split_round_trip b 1 2 true eq_refl (le_n 1) (le_n 2) eq_refl);
    [|exact (le_S 1 1 (le_n 1))].
  intros _. split; [reflexivity|]. split; [exact (le_n 2)|reflexivity].
Defined.

Lemma chunk_count (n c : nat) :
  0 < n -> 0 < c ->
  let s := (n + c - 1) / c in
  0 < s /\ Nat.max ((n + s - 1) / s) 1 <= c.
Proof.
  intros Hn Hc s.
  pose proof (Nat.div_mod_eq (n + c - 1) c) as Hdm.
  pose proof (Nat.mod_upper_bound (n + c - 1) c ltac:(lia)) as Hr.
  fold s in Hdm.
  assert (Hs : 0 < s) by (destruct s; [lia|lia]).
  split; [exact Hs|].
  assert (Hcov : n <= c * s) by lia.
  assert (Hq : (n + s - 1) / s <= c).
  { assert (H : (n + s - 1) / s < S c); [|lia].
    apply Nat.Div0.div_lt_upper_bound. nia. }
  lia.
Qed.

(** X19. [chunk] cuts a batch along a non-batch axis of positive extent into
    at least one and at most [chunks] pieces, and concatenating the pieces
    along that axis gives the batch back. *)
Theorem chunk_pieces (b : MaskedBatch) (j : nat) (chunks : positive)
    (dynamic : bool) :
  dense (data b) = true ->
  0 < j -> j < rank (data b) ->
  nth_error (dims b) (j - 1) = Some dynamic ->
  (dynamic = true ->
   dense (mask b) = true /\ j < rank (mask b)
   /\ nth j (shape (mask b)) 0 = nth j (shape (data b)) 0) ->
  0 < nth j (shape (data b)) 0 ->
  exists pieces,
    chunk (VBatch b) chunks (Z.of_nat j) = Ok pieces
    /\ 0 < length pieces /\ length pieces <= Pos.to_nat chunks
    /\ cat pieces (Z.of_nat j) = Ok (VBatch b).
Proof.
  intros Hdense Hj0 Hj Hdyn Hmask Hn.
  set (n := nth j (shape (data b)) 0) in *.
  set (c := Pos.to_nat chunks).
  assert (Hc : 0 < c) by apply Pos2Nat.is_pos.
  destruct (chunk_count n c Hn Hc) as [Hs Hcount].
  set (s := (n + c - 1) / c) in *.
  destruct (split_pieces b j s dynamic Hdense Hj0 Hj Hdyn Hmask Hs)
    as [pieces [Hsplit [Hlen Hcat]]].
  fold n in Hlen.
  exists pieces. split; [|split; [lia|split; [lia|exact Hcat]]].
  unfold chunk, value_dim, maxsize, Torch.size.
  cbn [attr_data Py.bind].
  assert (E1 : (Z.of_nat j <? 0)%Z = false) by (apply Z.ltb_ge; lia).
  rewrite E1.
  assert (Hsz : tuple_get (shape (data b)) (Z.of_nat j) = Ok n).
  { apply tuple_get_nth. unfold n. apply nth_error_nth'. exact Hj. }
  rewrite Hsz. cbn [Py.bind].
  replace ((Z.of_nat n + Z.pos chunks - 1) / Z.pos chunks)%Z
    with (Z.of_nat s); [exact Hsplit|].
  unfold s, c. rewrite Nat2Z.inj_div, Nat2Z.inj_sub, Nat2Z.inj_add by lia.
  now rewrite positive_nat_Z.
Qed.

Lemma chunk_pieces_witness :
  let b := mkBatch (mkTensor [2; 5] [1; 2; 3; 4; 5; 6; 7; 8; 9; 10]%Z)
                   (mkTensor [2; 5] [1; 1; 1; 0; 0; 1; 1; 1; 1; 1]%Z)
                   [true] in
  exists pieces,
    chunk (VBatch b) 2%positive 1 = Ok pieces
    /\ 0 < length pieces /\ length pieces <= 2
    /\ cat pieces 1 = Ok (VBatch b).
Proof.
  intros b.
  apply (chunk_pieces b 1 2%positive true eq_refl (le_n 1) (le_n 2) eq_refl);
    [|exact (Nat.lt_0_succ 4)].
  intros _. split; [reflexivity|]. split; [exact (le_n 2)|reflexivity].
Defined.

(** ** Unbinding and stacking *)

Lemma map_flat_map {A B C} (f : B -> C) (g : A -> list B) (l : list A) :
  map f (flat_map g l) = flat_map (fun x => map f (g x)) l.
Proof.
  induction l as [|x l IH]; [reflexivity|].
  cbn [flat_map]. now rewrite map_app, IH.
Qed.

Lemma firstn_length_app {A} (a b : list A) : firstn (length a) (a ++ b) = a.
Proof. induction a as [|x a IH]; [reflexivity|]. cbn. now rewrite IH. Qed.

Lemma skipn_length_app {A} (a b : list A) : skipn (length a) (a ++ b) = b.
Proof. induction a as [|x a IH]; [reflexivity|exact IH]. Qed.

Lemma skipn_S_length_app {A} (a b : list A) (x : A) :
  skipn (S (length a)) (a ++ x :: b) = b.
Proof. induction a as [|y a IH]; [reflexivity|exact IH]. Qed.

Lemma remove_at_app (pre post : list nat) (x : nat) :
  Torch.remove_at (length pre) (pre ++ x :: post) = pre ++ post.
Proof.
  unfold Torch.remove_at. now rewrite firstn_length_app, skipn_S_length_app.
Qed.

Lemma replace_at_app (pre post : list nat) (x v : nat) :
  Torch.replace_at (length pre) v (pre ++ x :: post) = pre ++ v :: post.
Proof.
  unfold Torch.replace_at. now rewrite firstn_length_app, skipn_S_length_app.
Qed.

Lemma insert_at_app (pre post : list nat) (v : nat) :
  Torch.insert_at (length pre) v (pre ++ post) = pre ++ v :: post.
Proof.
  unfold Torch.insert_at. now rewrite firstn_length_app, skipn_length_app.
Qed.

(** The positions of a shape with an axis of extent 1 put in are the
    positions of the shape, each with a 0 put in. *)
Lemma indices_insert_one (pre post : list nat) :
  indices (pre ++ 1 :: post)
  = map (Torch.insert_at (length pre) 0) (indices (pre ++ post)).
Proof.
  induction pre as [|n pre IH].
  - cbn [app length indices seq flat_map]. rewrite app_nil_r.
    apply map_ext. reflexivity.
  - cbn [app length indices]. rewrite IH, map_flat_map.
    apply flat_map_ext. intros i. rewrite !map_map. apply map_ext.
    reflexivity.
Qed.

Lemma unsqueeze_select (t : tensor) (j i : nat) :
  j < rank t ->
  Torch.unsqueeze (Torch.select t j i) (Z.of_nat j) = Ok (Torch.slab t j i 1).
Proof.
  intros Hj. unfold rank in Hj.
  destruct (nth_split (shape t) 0 Hj) as [pre [post [Hsh Hpre]]].
  set (x := nth j (shape t) 0) in Hsh. clearbody x.
  unfold Torch.unsqueeze, Torch.select, Torch.slab, tabulate, rank.
  cbn [shape elems]. rewrite Hsh. subst j.
  rewrite remove_at_app, replace_at_app.
  rewrite wrap_dim_nat by (rewrite !length_app; cbn [length]; lia).
  cbn [Py.bind]. rewrite firstn_length_app, skipn_length_app.
  rewrite indices_insert_one, map_map. f_equal. f_equal.
  apply map_ext_in. intros idx Hin. apply in_indices, in_range_length in Hin.
  rewrite <- (firstn_skipn (length pre) idx).
  assert (Hl : length (firstn (length pre) idx) = length pre).
  { rewrite length_firstn, Hin, length_app. lia. }
  remember (firstn (length pre) idx) as ip eqn:Hip.
  remember (skipn (length pre) idx) as ir eqn:Hir.
  rewrite <- Hl.
  rewrite !insert_at_app. rewrite nth_middle, replace_at_app.
  now rewrite Nat.add_0_r.
Qed.

Lemma unsqueeze_each_selects (t : tensor) (j : nat) (l : list nat) :
  j < rank t ->
  Torch.unsqueeze_each (map (Torch.select t j) l) (Z.of_nat j)
  = Ok (map (fun i => Torch.slab t j i 1) l).
Proof.
  intros Hj. induction l as [|i l IH]; [reflexivity|].
  cbn [map Torch.unsqueeze_each]. rewrite unsqueeze_select by exact Hj.
  cbn [Py.bind]. now rewrite IH.
Qed.

Lemma sections_ones (a n : nat) :
  Torch.sections_from a (repeat 1 n) = map (fun i => (i, 1)) (seq a n).
Proof.
  revert a. induction n as [|n IH]; intros a; [reflexivity|].
  cbn [repeat Torch.sections_from seq map]. rewrite IH.
  now replace (a + 1) with (S a) by lia.
Qed.

Lemma sum_ones (n : nat) : fold_right Nat.add 0 (repeat 1 n) = n.
Proof. induction n as [|n IH]; [reflexivity|]. cbn. now rewrite IH. Qed.

(** Giving every slice of a dense tensor along an axis its axis back and
    concatenating the results along it rebuilds the tensor. *)
Lemma cat_unbound (t : tensor) (j : nat) :
  dense t = true -> j < rank t -> 0 < nth j (shape t) 0 ->
  (us <- Torch.unsqueeze_each
           (map (Torch.select t j) (seq 0 (nth j (shape t) 0))) (Z.of_nat j);;
   Torch.cat us (Z.of_nat j)) = Ok t.
Proof.
  intros Hdense Hj Hn. rewrite unsqueeze_each_selects by exact Hj.
  cbn [Py.bind].
  pose proof (cat_slabs t j (repeat 1 (nth j (shape t) 0)) Hdense Hj) as H.
  rewrite sections_ones, map_map in H. cbn [fst snd] in H. apply H.
  - destruct (nth j (shape t) 0); [lia|discriminate].
  - apply sum_ones.
Qed.

Lemma squeeze_unsqueeze (m : tensor) (j : nat) :
  j < rank m -> nth j (shape m) 0 = 1 ->
  (s <- Torch.squeeze m (Z.of_nat j);; Torch.unsqueeze s (Z.of_nat j)) = Ok m.
Proof.
  intros Hj H1. unfold Torch.squeeze. rewrite wrap_dim_nat by exact Hj.
  cbn [Py.bind]. rewrite H1. cbn [Nat.eqb Py.bind].
  unfold rank in Hj.
  destruct (nth_split (shape m) 0 Hj) as [pre [post [Hsh Hpre]]].
  rewrite H1 in Hsh. unfold Torch.unsqueeze, rank. cbn [shape elems].
  rewrite Hsh. subst j. rewrite remove_at_app.
  rewrite wrap_dim_nat by (rewrite !length_app; cbn [length]; lia).
  cbn [Py.bind]. rewrite firstn_length_app, skipn_length_app.
  rewrite <- Hsh. now destruct m.
Qed.

Lemma eq_self_all (m : tensor) :
  exists e, Torch.eq m m = Ok e /\ Torch.all e = true.
Proof.
  destruct (pointwise2_get (fun x y => if (x =? y)%Z then 1%Z else 0%Z)
              m m (shape m) (broadcast_shapes_refl (shape m)))
    as [e [He [Hsh Hget]]].
  exists e. split; [exact He|].
  unfold Torch.all. apply forallb_forall. intros idx Hin.
  apply in_indices in Hin. rewrite Hsh in Hin.
  rewrite (Hget idx Hin), Z.eqb_refl. reflexivity.
Qed.

Lemma dims_restored (ds : list bool) (k : nat) (d : bool) :
  nth_error ds k = Some d ->
  tuple_upto (firstn k ds ++ skipn (S k) ds) (Z.of_nat k) ++ [d]
  ++ tuple_from (firstn k ds ++ skipn (S k) ds) (Z.of_nat k) = ds.
Proof.
  intros H. apply nth_error_split in H. destruct H as [l1 [l2 [-> <-]]].
  rewrite firstn_length_app, skipn_S_length_app.
  unfold tuple_upto, tuple_from.
  rewrite clamp_bound_nat by (rewrite length_app; lia).
  now rewrite firstn_length_app, skipn_length_app.
Qed.

Lemma unsqueezed_data_batches {A} (f g : A -> tensor) (ds : list bool)
    (l : list A) (dim : Z) :
  unsqueezed_data (map (fun p => VBatch (mkBatch (f p) (g p) ds)) l) dim
  = Torch.unsqueeze_each (map f l) dim.
Proof.
  induction l as [|x l IH]; [reflexivity|].
  cbn [map unsqueezed_data Torch.unsqueeze_each attr_data data Py.bind].
  now rewrite IH.
Qed.

Lemma unsqueezed_masks_batches {A} (f g : A -> tensor) (ds : list bool)
    (l : list A) (dim : Z) :
  unsqueezed_masks (map (fun p => VBatch (mkBatch (f p) (g p) ds)) l) dim
  = Torch.unsqueeze_each (map g l) dim.
Proof.
  induction l as [|x l IH]; [reflexivity|].
  cbn [map unsqueezed_masks Torch.unsqueeze_each attr_mask mask Py.bind].
  now rewrite IH.
Qed.

Lemma last_map {A B} (h : A -> B) (l : list A) (x : A) :
  last (map h l) (h x) = h (last l x).
Proof.
  induction l as [|y l IH]; [reflexivity|].
  destruct l as [|z l]; [reflexivity|]. exact IH.
Qed.

Lemma stack_batches {A} (f g : A -> tensor) (ds : list bool) (x : A)
    (l : list A) (j : nat) (dynamic : option bool) :
  stack (map (fun p => VBatch (mkBatch (f p) (g p) ds)) (x :: l))
        (Z.of_nat j) dynamic
  = (dyn <- match dynamic with
            | Some d => Ok d
            | None => e <- Torch.eq (g x) (g (last (x :: l) x));;
                      Ok (negb (Torch.all e))
            end;;
     d <- (us <- Torch.unsqueeze_each (map f (x :: l)) (Z.of_nat j);;
           Torch.cat us (Z.of_nat j));;
     m <- (if (dyn : bool)
           then ms <- Torch.unsqueeze_each (map g (x :: l)) (Z.of_nat j);;
                Torch.cat ms (Z.of_nat j)
           else Torch.unsqueeze (g x) (Z.of_nat j));;
     Ok (VBatch (mkBatch d m
                   (tuple_upto ds (Z.of_nat j - 1) ++ [dyn]
                    ++ tuple_from ds (Z.of_nat j - 1))))).
Proof.
  pose proof (unsqueezed_data_batches f g ds (x :: l) (Z.of_nat j)) as Hd.
  pose proof (unsqueezed_masks_batches f g ds (x :: l) (Z.of_nat j)) as Hm.
  pose proof (last_map (fun p => VBatch (mkBatch (f p) (g p) ds)) (x :: l) x)
    as Hlast.
  cbn [map] in Hd, Hm, Hlast. cbn [map]. unfold stack.
  assert (E : (Z.of_nat j <? 0)%Z = false) by (apply Z.ltb_ge; lia).
  rewrite E. cbv iota zeta. rewrite Hd, Hm, Hlast.
  cbn [attr_mask mask dims Py.bind].
  destruct dynamic as [d|].
  - cbn [Py.bind].
    destruct (Torch.unsqueeze_each (f x :: map f l) (Z.of_nat j)) as [us|e];
      [|reflexivity].
    cbn [Py.bind]. destruct (Torch.cat us (Z.of_nat j)); reflexivity.
  - destruct (Torch.eq (g x) (g (last (x :: l) x))) as [e|e]; [|reflexivity].
    cbn [Py.bind].
    destruct (Torch.unsqueeze_each (f x :: map f l) (Z.of_nat j)) as [us|e'];
      [|reflexivity].
    cbn [Py.bind]. destruct (Torch.cat us (Z.of_nat j)); reflexivity.
Qed.

Lemma unbind_dims (ds : list bool) (k : nat) :
  map snd (filter (fun p => negb (Z.of_nat (fst p) =? Z.of_nat k)%Z)
                  (enumerate ds))
  = firstn k ds ++ skipn (S k) ds.
Proof.
  unfold enumerate. rewrite filter_enumerate_drop by lia.
  now rewrite Nat.sub_0_r.
Qed.

Lemma unbind_tensor (t : tensor) (j : nat) :
  j < rank t ->
  Torch.unbind t (Z.of_nat j)
  = Ok (map (Torch.select t j) (seq 0 (nth j (shape t) 0))).
Proof.
  intros Hj. unfold Torch.unbind. now rewrite wrap_dim_nat by exact Hj.
Qed.

(** X20. Unbinding a batch along a static non-batch axis of positive extent
    and stacking the slices along the same axis, leaving [stack] to decide
    whether the new axis is dynamic, gives the batch back: the slices share
    one mask, so the axis is found static, and the mask regains the axis of
    extent 1 that [unbind] squeezed away. *)
Theorem stack_unbind_static (b : MaskedBatch) (j : nat) :
  dense (data b) = true ->
  0 < j -> j < rank (data b) -> 0 < nth j (shape (data b)) 0 ->
  nth_error (dims b) (j - 1) = Some false ->
  j < rank (mask b) -> nth j (shape (mask b)) 0 = 1 ->
  (pieces <- unbind (VBatch b) (Z.of_nat j);;
   stack pieces (Z.of_nat j) None) = Ok (VBatch b).
Proof.
  intros Hdense Hj0 Hj Hn Hdyn Hjm Hm1.
  replace (Z.of_nat j) with (Z.of_nat (j - 1) + 1)%Z at 1 by lia.
  unfold unbind.
  assert (E : (Z.of_nat (j - 1) + 1 =? 0)%Z = false) by (apply Z.eqb_neq; lia).
  rewrite E.
  replace (Z.of_nat (j - 1) + 1 - 1)%Z with (Z.of_nat (j - 1)) by lia.
  rewrite (tuple_get_nth _ _ _ Hdyn), unbind_dims. cbn [Py.bind].
  replace (Z.of_nat (j - 1) + 1)%Z with (Z.of_nat j) by lia.
  pose proof (squeeze_unsqueeze (mask b) j Hjm Hm1) as Hsq.
  destruct (Torch.squeeze (mask b) (Z.of_nat j)) as [m'|e]; [|discriminate].
  cbn [Py.bind] in Hsq |- *.
  rewrite (unbind_tensor (data b) j Hj). cbn [Py.bind]. rewrite map_map.
  pose proof (cat_unbound (data b) j Hdense Hj Hn) as Hcat.
  destruct (seq 0 (nth j (shape (data b)) 0)) as [|x l] eqn:Hseq.
  { apply (f_equal (@length nat)) in Hseq. rewrite length_seq in Hseq.
    cbn in Hseq. lia. }
  rewrite (stack_batches (Torch.select (data b) j) (fun _ => m')).
  destruct (eq_self_all m') as [e [He Hall]].
  rewrite He. cbn [Py.bind]. rewrite Hall. cbn [negb Py.bind].
  rewrite Hcat. cbn [Py.bind]. rewrite Hsq. cbn [Py.bind].
  replace (Z.of_nat j - 1)%Z with (Z.of_nat (j - 1)) by lia.
  rewrite (dims_restored _ _ _ Hdyn). now destruct b.
Qed.

Lemma stack_unbind_static_witness :
  let b := mkBatch (mkTensor [2; 3; 2] [1; 2; 3; 4; 5; 6; 7; 8; 9; 10; 11; 12]%Z)
                   (mkTensor [2; 3; 1] [1; 1; 0; 1; 1; 1]%Z)
                   [true; false] in
  (pieces <- unbind (VBatch b) 2;; stack pieces 2 None) = Ok (VBatch b).
Proof.
  intros b.
  exact (stack_unbind_static b 2 eq_refl (Nat.lt_0_succ 1) (le_n 3)
           (Nat.lt_0_succ 1) eq_refl (le_n 3) eq_refl).
Defined.

(** X21. Unbinding a batch along a dynamic non-batch axis of positive extent
    and stacking the slices along the same axis as a dynamic axis gives the
    batch back; the mask is unbound and stacked with the data, which needs
    it to have the data's extent along the axis. *)
Theorem stack_unbind_dynamic (b : MaskedBatch) (j : nat) :
  dense (data b) = true -> dense (mask b) = true ->
  0 < j -> j < rank (data b) -> 0 < nth j (shape (data b)) 0 ->
  nth_error (dims b) (j - 1) = Some true ->
  j < rank (mask b) ->
  nth j (shape (mask b)) 0 = nth j (shape (data b)) 0 ->
  (pieces <- unbind (VBatch b) (Z.of_nat j);;
   stack pieces (Z.of_nat j) (Some true)) = Ok (VBatch b).
Proof.
  intros Hdense Hdm Hj0 Hj Hn Hdyn Hjm Hext.
  replace (Z.of_nat j) with (Z.of_nat (j - 1) + 1)%Z at 1 by lia.
  unfold unbind.
  assert (E : (Z.of_nat (j - 1) + 1 =? 0)%Z = false) by (apply Z.eqb_neq; lia).
  rewrite E.
  replace (Z.of_nat (j - 1) + 1 - 1)%Z with (Z.of_nat (j - 1)) by lia.
  rewrite (tuple_get_nth _ _ _ Hdyn), unbind_dims. cbn [Py.bind].
  replace (Z.of_nat (j - 1) + 1)%Z with (Z.of_nat j) by lia.
  rewrite (unbind_tensor (data b) j Hj), (unbind_tensor (mask b) j Hjm).
  cbn [Py.bind]. rewrite Hext, zip_with_maps.
  pose proof (cat_unbound (data b) j Hdense Hj Hn) as Hcat.
  pose proof (cat_unbound (mask b) j Hdm Hjm) as Hcatm.
  rewrite Hext in Hcatm. specialize (Hcatm Hn).
  destruct (seq 0 (nth j (shape (data b)) 0)) as [|x l] eqn:Hseq.
  { apply (f_equal (@length nat)) in Hseq. rewrite length_seq in Hseq.
    cbn in Hseq. lia. }
  rewrite (stack_batches (Torch.select (data b) j) (Torch.select (mask b) j)).
  cbn [Py.bind]. rewrite Hcat. cbn [Py.bind]. rewrite Hcatm. cbn [Py.bind].
  replace (Z.of_nat j - 1)%Z with (Z.of_nat (j - 1)) by lia.
  rewrite (dims_restored _ _ _ Hdyn). now destruct b.
Qed.

Lemma stack_unbind_dynamic_witness :
  let b := mkBatch (mkTensor [2; 3; 2] [1; 2; 3; 4; 5; 6; 7; 8; 9; 10; 11; 12]%Z)
                   (mkTensor [2; 3; 1] [1; 1; 0; 1; 1; 1]%Z)
                   [true; false] in
  (pieces <- unbind (VBatch b) 1;; stack pieces 1 (Some true)) = Ok (VBatch b).
Proof.
  intros b.
  exact (stack_unbind_dynamic b 1 eq_refl eq_refl (Nat.lt_0_succ 0)
           (le_S 2 2 (le_n 2)) (Nat.lt_0_succ 2) eq_refl
           (le_S 2 2 (le_n 2)) eq_refl).
Defined.

(** ** Stacking decides from the ends *)

(** X22. Left to decide by itself, [stack] compares the mask of the first
    batch with the mask of the last one only: when the two are the same
    tensor the new axis is static, whatever the masks in between are, and
    the result is the one [dynamic = False] gives. *)
Theorem stack_decides_from_ends (first : MaskedBatch) (rest : list pyval)
    (dim : Z) :
  attr_mask (last rest (VBatch first)) = Ok (mask first) ->
  stack (VBatch first :: rest) dim None
  = stack (VBatch first :: rest) dim (Some false).
Proof.
  intros Hlast. unfold stack.
  assert (Hl : last (VBatch first :: rest) (VBatch first)
               = last rest (VBatch first)).
  { destruct rest; reflexivity. }
  rewrite Hl, Hlast. cbn [Py.bind].
  destruct (eq_self_all (mask first)) as [e [He Hall]].
  rewrite He. cbn [Py.bind]. rewrite Hall. reflexivity.
Qed.

Lemma stack_decides_from_ends_witness :
  let m1 := mkTensor [1; 2] [1; 0]%Z in
  let m2 := mkTensor [1; 2] [1; 1]%Z in
  let b1 := mkBatch (mkTensor [1; 2] [1; 2]%Z) m1 [true] in
  let b2 := mkBatch (mkTensor [1; 2] [3; 4]%Z) m2 [true] in
  stack [VBatch b1; VBatch b2; VBatch b1] 1 None
  = stack [VBatch b1; VBatch b2; VBatch b1] 1 (Some false).
Proof.
  intros m1 m2 b1 b2.
  exact (stack_decides_from_ends b1 [VBatch b2; VBatch b1] 1 eq_refl).
Defined.

(** ** Embedding *)

Lemma wrap_dim_last (r : nat) : Torch.wrap_dim (S r) (-1) = Ok r.
Proof.
  unfold Torch.wrap_dim. cbv zeta. change ((-1 <? 0)%Z) with true. cbv iota.
  assert (E1 : (-1 + Z.of_nat (S r) <? 0)%Z = false) by (apply Z.ltb_ge; lia).
  assert (E2 : (Z.of_nat (S r) <=? -1 + Z.of_nat (S r))%Z = false)
    by (apply Z.leb_gt; lia).
  rewrite E1, E2. cbn [orb]. f_equal. lia.
Qed.

Lemma unsqueeze_last (t : tensor) :
  Torch.unsqueeze t (-1) = Ok (mkTensor (shape t ++ [1]) (elems t)).
Proof.
  unfold Torch.unsqueeze. rewrite wrap_dim_last. cbn [Py.bind].
  unfold rank. now rewrite firstn_all, skipn_all.
Qed.

Lemma axes_ok_app (sh msh : list nat) (ds : list bool) (n m : nat) (d : bool) :
  axes_ok sh msh ds = true ->
  axes_ok (sh ++ [n]) (msh ++ [m]) (ds ++ [d])
  = (if d then m =? n else m =? 1).
Proof.
  revert msh ds. induction sh as [|a sh IH]; intros [|b msh] [|c ds] H;
    cbn [axes_ok app] in *; try discriminate.
  - now rewrite andb_true_r.
  - apply andb_prop in H. destruct H as [H1 H2].
    now rewrite H1, (IH _ _ H2).
Qed.

Lemma offset_app_one (sh idx : list nat) :
  length idx = length sh ->
  offset (sh ++ [1]) (idx ++ [0]) = offset sh idx.
Proof.
  revert idx. induction sh as [|n sh IH]; intros [|i idx] H;
    cbn [length] in H; try discriminate; [reflexivity|].
  cbn [app offset]. rewrite IH by lia.
  rewrite numel_app. change (numel [1]) with 1. lia.
Qed.

Lemma broadcast_index_app_one (sh idx : list nat) (e : nat) :
  length idx = length sh ->
  Torch.broadcast_index (sh ++ [1]) (idx ++ [e])
  = Torch.broadcast_index sh idx ++ [0].
Proof.
  intros H. unfold Torch.broadcast_index, zip_with.
  rewrite !length_app, H, !Nat.sub_diag. cbn [skipn length Nat.add].
  revert idx H. induction sh as [|n sh IH]; intros [|i idx] H;
    cbn [length] in H; try discriminate; [reflexivity|].
  cbn [app combine map fst snd]. f_equal. apply IH. lia.
Qed.

(** X23. [embedding] of a well-formed batch of row numbers gives a
    well-formed batch with one more axis, which is static: the entry at
    position [idx ++ [e]] is entry [e] of the table row that the batch
    names at [idx], and the position is valid exactly when [idx] was. *)
Theorem embedding_well_formed (b : MaskedBatch) (weight : tensor)
    (rows width : nat) :
  well_formed b = true ->
  shape weight = [rows; width] ->
  (forall idx, in_range (shape (data b)) idx = true ->
               (0 <= get (data b) idx < Z.of_nat rows)%Z) ->
  exists r,
    embedding (VBatch b) weight = Ok (VBatch r)
    /\ well_formed r = true
    /\ shape (data r) = shape (data b) ++ [width]
    /\ dims r = dims b ++ [false]
    /\ forall idx e,
         in_range (shape (data b)) idx = true -> e < width ->
         get (data r) (idx ++ [e])
         = get weight [Z.to_nat (get (data b) idx); e]
         /\ mask_at r (idx ++ [e]) = mask_at b idx.
Proof.
  intros Hwf Hw Hrows.
  unfold embedding, Torch.embedding. rewrite Hw.
  assert (Hall : forallb (fun idx => (0 <=? get (data b) idx)%Z
                                     && (get (data b) idx <? Z.of_nat rows)%Z)
                         (indices (shape (data b))) = true).
  { apply forallb_forall. intros idx Hin. apply in_indices in Hin.
    destruct (Hrows idx Hin) as [H0 H1].
    apply andb_true_intro. split; [apply Z.leb_le|apply Z.ltb_lt]; assumption. }
  rewrite Hall. cbn [Py.bind]. rewrite unsqueeze_last. cbn [Py.bind].
  eexists. split; [reflexivity|].
  unfold well_formed in Hwf |- *. cbn [data mask dims shape tabulate].
  destruct (shape (data b)) as [|B sh] eqn:Hsh; [discriminate|].
  destruct (shape (mask b)) as [|Bm msh] eqn:Hmsh; [discriminate|].
  apply andb_prop in Hwf. destruct Hwf as [HB Hax].
  split.
  { cbn [app]. rewrite HB. cbn [andb].
    rewrite (axes_ok_app _ _ _ width 1 false Hax). reflexivity. }
  split; [reflexivity|]. split; [reflexivity|].
  intros idx e Hidx He.
  pose proof (in_range_length _ _ Hidx) as Hlen.
  pose proof (axes_ok_length _ _ _ Hax) as Hlens.
  split.
  - fold (tabulate ((B :: sh) ++ [width])
            (fun idx => get weight [Z.to_nat (get (data b) (removelast idx));
                                    last idx 0])).
    rewrite get_tabulate.
    + now rewrite removelast_last, last_last.
    + rewrite in_range_app by exact Hlen. rewrite Hidx. cbn [in_range andb].
      rewrite andb_true_r. apply Nat.ltb_lt. exact He.
  - unfold mask_at, get. cbn [mask shape elems]. rewrite Hmsh.
    assert (Hl : length idx = length (Bm :: msh)).
    { rewrite Hlen. cbn [length]. f_equal. lia. }
    rewrite broadcast_index_app_one by exact Hl.
    rewrite offset_app_one; [reflexivity|].
    unfold Torch.broadcast_index, zip_with.
    rewrite length_map, length_combine, length_skipn, Hl. lia.
Qed.

Lemma embedding_well_formed_witness :
  let b := mkBatch (mkTensor [2; 2] [1; 0; 2; 1]%Z)
                   (mkTensor [2; 2] [1; 0; 1; 1]%Z) [true] in
  let w := mkTensor [3; 2] [10; 11; 20; 21; 30; 31]%Z in
  exists r,
    embedding (VBatch b) w = Ok (VBatch r)
    /\ well_formed r = true
    /\ get (data r) [1; 0; 1] = 31%Z
    /\ mask_at r [0; 1; 1] = 0%Z.
Proof.
  intros b w.
  assert (Hrows : forall idx, in_range (shape (data b)) idx = true ->
                    (0 <= get (data b) idx < Z.of_nat 3)%Z).
  { intros idx H. apply in_range_indices in H.
    cbn in H. destruct H as [<-|[<-|[<-|[<-|[]]]]]; cbn; lia. }
  destruct (embedding_well_formed b w 3 2 eq_refl eq_refl Hrows)
    as [r [Hr [Hwf [_ [_ Hval]]]]].
  exists r. split; [exact Hr|]. split; [exact Hwf|]. split.
  - exact (proj1 (Hval [1; 0] 1 eq_refl (le_n 2))).
  - exact (proj2 (Hval [0; 1] 1 eq_refl (le_n 2))).
Defined.

(** * Floating-point batches *)

Lemma float_get_tabulate (sh : list nat) (f : list nat -> Floating.float)
    (idx : list nat) :
  in_range sh idx = true -> Floating.get (Floating.tabulate sh f) idx = f idx.
Proof.
  intros H. unfold Floating.get, Floating.tabulate.
  cbn [Floating.shape Floating.elems].
  pose proof (offset_lt _ _ H) as Hlt. rewrite <- length_indices in Hlt.
  rewrite (nth_indep _ (Floating.Fin 0) (f idx))
    by (rewrite length_map; exact Hlt).
  rewrite map_nth. now rewrite nth_offset_indices.
Qed.

Lemma float_tabulate_ext (sh : list nat) (f g : list nat -> Floating.float) :
  (forall idx, in_range sh idx = true -> f idx = g idx) ->
  Floating.tabulate sh f = Floating.tabulate sh g.
Proof.
  intros H. unfold Floating.tabulate. f_equal.
  apply map_ext_in. intros idx Hin. apply H. now apply in_indices.
Qed.

Lemma same_float_eq (x y : Floating.float) :
  Floating.same_float x y = true -> x = y.
Proof.
  destruct x as [a|s|], y as [c|t|]; cbn; intros H; try discriminate.
  - apply Z.eqb_eq in H. now subst.
  - apply Bool.eqb_prop in H. now subst.
  - reflexivity.
Qed.

Lemma same_float_refl (x : Floating.float) : Floating.same_float x x = true.
Proof. destruct x as [a|s|]; cbn; [apply Z.eqb_refl|apply Bool.eqb_reflx|reflexivity]. Qed.

(** A finite value times a zero is zero. *)
Lemma mul_float_zero (x m : Floating.float) :
  Floating.is_finite x = true -> Floating.is_zero m = true ->
  Floating.mul_float x m = Floating.Fin 0.
Proof.
  destruct x as [a|s|], m as [c|t|]; cbn; intros Hx Hm; try discriminate.
  apply Z.eqb_eq in Hm. subst c. now rewrite Z.mul_0_r.
Qed.

Lemma float_mask_fits_shapes (b : Floating.MaskedBatch) :
  Floating.mask_fits b = true ->
  Torch.broadcast_shapes (Floating.shape (Floating.data b))
                         (Floating.shape (Floating.mask b))
  = Some (Floating.shape (Floating.data b)).
Proof.
  unfold Floating.mask_fits.
  destruct (Torch.broadcast_shapes _ _) as [s|]; [|discriminate].
  intros H. apply shape_eqb_eq in H. now subst.
Qed.

(** The product [data * mask] of a floating-point batch whose mask fits. *)
Lemma float_mul_data_mask (b : Floating.MaskedBatch) :
  Floating.mask_fits b = true ->
  Floating.mul (Floating.data b) (Floating.mask b)
  = Ok (Floating.tabulate (Floating.shape (Floating.data b))
          (fun idx => Floating.mul_float (Floating.get (Floating.data b) idx)
                                         (Floating.mask_at b idx))).
Proof.
  intros H. unfold Floating.mul. rewrite (float_mask_fits_shapes _ H). f_equal.
  apply float_tabulate_ext. intros idx Hidx.
  now rewrite (broadcast_index_in_range _ _ Hidx).
Qed.

Lemma float_same_valid_spec (b b' : Floating.MaskedBatch) :
  Floating.same_valid b b' = true ->
  Floating.shape (Floating.data b) = Floating.shape (Floating.data b')
  /\ forall idx, in_range (Floating.shape (Floating.data b)) idx = true ->
       Floating.is_padding b idx = true
       \/ Floating.get (Floating.data b) idx = Floating.get (Floating.data b') idx.
Proof.
  unfold Floating.same_valid. intros H.
  apply andb_prop in H. destruct H as [Hs Hall].
  split; [now apply shape_eqb_eq|].
  intros idx Hidx. rewrite forallb_forall in Hall.
  specialize (Hall idx (in_range_indices _ _ Hidx)).
  apply orb_prop in Hall. destruct Hall as [H|H]; [now left|right].
  now apply same_float_eq.
Qed.

Lemma finite_padding_spec (b : Floating.MaskedBatch) (idx : list nat) :
  Floating.finite_padding b = true ->
  in_range (Floating.shape (Floating.data b)) idx = true ->
  Floating.is_padding b idx = true ->
  Floating.is_finite (Floating.get (Floating.data b) idx) = true.
Proof.
  unfold Floating.finite_padding. intros H Hidx Hpad.
  rewrite forallb_forall in H.
  specialize (H idx (in_range_indices _ _ Hidx)).
  now rewrite Hpad in H.
Qed.

Lemma float_same_valid_zero_padding (b : Floating.MaskedBatch) :
  Floating.same_valid b (Floating.zero_padding b) = true.
Proof.
  unfold Floating.same_valid. apply andb_true_intro. split.
  - apply shape_eqb_refl.
  - apply forallb_forall. intros idx Hin.
    unfold Floating.zero_padding. cbn [Floating.data].
    rewrite float_get_tabulate by (now apply in_indices).
    destruct (Floating.is_padding b idx); [reflexivity|].
    cbn [orb]. apply same_float_refl.
Qed.

Lemma finite_padding_zero_padding (b : Floating.MaskedBatch) :
  Floating.finite_padding (Floating.zero_padding b) = true.
Proof.
  unfold Floating.finite_padding. apply forallb_forall. intros idx Hin.
  unfold Floating.zero_padding in Hin |- *.
  cbn [Floating.data Floating.shape Floating.tabulate] in Hin.
  cbn [Floating.data].
  rewrite float_get_tabulate by (now apply in_indices).
  unfold Floating.is_padding, Floating.mask_at. cbn [Floating.mask].
  destruct (Floating.is_zero _); reflexivity.
Qed.

(** Two batches that agree on their valid positions and hold finite values
    in their padding have one and the same product [data * mask]. *)
Lemma float_masked_product_same (b b' : Floating.MaskedBatch) :
  Floating.mask_fits b = true -> Floating.mask b' = Floating.mask b ->
  Floating.same_valid b b' = true ->
  Floating.finite_padding b = true -> Floating.finite_padding b' = true ->
  Floating.mul (Floating.data b') (Floating.mask b')
  = Floating.mul (Floating.data b) (Floating.mask b).
Proof.
  intros Hfit Hmask Hsame Hfin Hfin'.
  destruct (float_same_valid_spec _ _ Hsame) as [Hshape Hagree].
  assert (Hfit' : Floating.mask_fits b' = true).
  { unfold Floating.mask_fits in *. now rewrite Hmask, <- Hshape. }
  assert (Hpad : forall idx, Floating.is_padding b' idx = Floating.is_padding b idx).
  { intros idx. unfold Floating.is_padding, Floating.mask_at. now rewrite Hmask. }
  rewrite (float_mul_data_mask _ Hfit), (float_mul_data_mask _ Hfit'), <- Hshape.
  f_equal. apply float_tabulate_ext. intros idx Hidx.
  assert (Hm : Floating.mask_at b' idx = Floating.mask_at b idx)
    by (unfold Floating.mask_at; now rewrite Hmask).
  rewrite Hm.
  destruct (Hagree idx Hidx) as [H0|Heq]; [|now rewrite Heq].
  rewrite !mul_float_zero; try reflexivity; try exact H0.
  - now apply finite_padding_spec.
  - apply finite_padding_spec; [exact Hfin'|now rewrite <- Hshape|].
    now rewrite Hpad.
Qed.

Lemma float_reduce_congr (fn : Floating.reduce_kernel) (zp : bool)
    (b b' : Floating.MaskedBatch) (dim : option Z) (keepdim : bool) :
  Floating.shape (Floating.data b') = Floating.shape (Floating.data b) ->
  Floating.mask b' = Floating.mask b -> Floating.dims b' = Floating.dims b ->
  Floating.mul (Floating.data b') (Floating.mask b')
  = Floating.mul (Floating.data b) (Floating.mask b) ->
  Floating._reduce fn zp b' dim keepdim = Floating._reduce fn zp b dim keepdim.
Proof.
  intros Hshape Hmask Hdims Hmul.
  unfold Floating._reduce, Floating.batch_dim, Floating.rank.
  now rewrite Hmul, Hmask, Hdims, Hshape.
Qed.

(** ** The sum and the padding *)

(** The sum over an axis on which the mask is not empty returns, and what
    it returns is the sum kernel's result on [data * mask] along that
    axis. *)
Lemma float_sum_returns (b : Floating.MaskedBatch) (j : nat) :
  Floating.mask_fits b = true ->
  j < Floating.rank (Floating.data b) ->
  j < Floating.rank (Floating.mask b) ->
  0 < nth j (Floating.shape (Floating.mask b)) 0 ->
  exists r p,
    Floating.mul (Floating.data b) (Floating.mask b) = Ok p
    /\ (forall idx, in_range (Floating.shape (Floating.data b)) idx = true ->
          Floating.get p idx
          = Floating.mul_float (Floating.get (Floating.data b) idx)
                               (Floating.mask_at b idx))
    /\ Floating.MaskedBatch_sum b (Some (Z.of_nat j)) false = Ok r
    /\ Floating.sum p (Some (Z.of_nat j)) false = Ok (Floating.data r).
Proof.
  intros Hfit Hj Hjm Hpos.
  pose proof (float_mul_data_mask b Hfit) as Hp.
  pose proof (resolve_pick (Floating.shape (Floating.mask b)) 0 j
                (Nat.le_0_l j)) as Hpick.
  rewrite Nat.sub_0_r in Hpick. specialize (Hpick Hjm Hpos).
  assert (E1 : (Z.of_nat j <? 0)%Z = false) by (apply Z.ltb_ge; lia).
  assert (Hsum : exists d, Floating.sum
            (Floating.tabulate (Floating.shape (Floating.data b))
               (fun idx => Floating.mul_float (Floating.get (Floating.data b) idx)
                                              (Floating.mask_at b idx)))
            (Some (Z.of_nat j)) false = Ok d).
  { unfold Floating.sum, Floating.rank. cbn [Floating.shape Floating.tabulate].
    rewrite wrap_dim_nat by exact Hj. cbn [Py.bind]. eauto. }
  destruct Hsum as [d Hd].
  assert (Hr : exists m ds,
            Floating.MaskedBatch_sum b (Some (Z.of_nat j)) false
            = Ok (Floating.mkBatch d m ds)).
  { unfold Floating.MaskedBatch_sum, Floating._reduce. cbv zeta.
    rewrite E1. cbn [Py.bind].
    fold (pick_axis (Z.of_nat j) 0 (Floating.rank (Floating.mask b))).
    unfold Floating.index, Floating.rank. rewrite Hpick. cbn [Py.bind].
    rewrite Hp. cbn [Py.bind]. rewrite Hd. cbn [Py.bind]. eauto. }
  destruct Hr as [m [ds Hr]].
  exists (Floating.mkBatch d m ds). eexists. split; [exact Hp|]. split.
  { intros idx Hidx. now rewrite float_get_tabulate. }
  split; [exact Hr|exact Hd].
Qed.

(** C2. The sum reduction multiplies the data by the broadcast mask before
    it aggregates.  Two batches that differ only in what their padding
    positions hold, and hold finite values there, therefore have the same
    sum over any axis; in particular the sum equals that of the batch with
    its padding set to zero.  Both sides run the sum kernel on one and the
    same product, so the equality does not depend on how the kernel rounds.
    Over an axis on which the mask is not empty the sum returns, and its
    data is the sum kernel's result on [data * mask] along that axis. *)
Theorem sum_ignores_padding (b b' : Floating.MaskedBatch) (dim : option Z)
    (keepdim : bool) :
  Floating.mask_fits b = true ->
  Floating.mask b' = Floating.mask b -> Floating.dims b' = Floating.dims b ->
  Floating.same_valid b b' = true ->
  Floating.finite_padding b = true -> Floating.finite_padding b' = true ->
  Floating.MaskedBatch_sum b' dim keepdim
  = Floating.MaskedBatch_sum b dim keepdim
  /\ Floating.MaskedBatch_sum (Floating.zero_padding b) dim keepdim
     = Floating.MaskedBatch_sum b dim keepdim
  /\ (forall j,
        j < Floating.rank (Floating.data b) ->
        j < Floating.rank (Floating.mask b) ->
        0 < nth j (Floating.shape (Floating.mask b)) 0 ->
        exists r p,
          Floating.mul (Floating.data b) (Floating.mask b) = Ok p
          /\ (forall idx,
                in_range (Floating.shape (Floating.data b)) idx = true ->
                Floating.get p idx
                = Floating.mul_float (Floating.get (Floating.data b) idx)
                                     (Floating.mask_at b idx))
          /\ Floating.MaskedBatch_sum b (Some (Z.of_nat j)) false = Ok r
          /\ Floating.sum p (Some (Z.of_nat j)) false = Ok (Floating.data r)).
Proof.
  intros Hfit Hmask Hdims Hsame Hfin Hfin'.
  split; [|split].
  - unfold Floating.MaskedBatch_sum. apply float_reduce_congr; try assumption.
    + symmetry. apply (float_same_valid_spec _ _ Hsame).
    + now apply float_masked_product_same.
  - unfold Floating.MaskedBatch_sum. apply float_reduce_congr; try reflexivity.
    apply float_masked_product_same; [assumption|reflexivity| |assumption|].
    + apply float_same_valid_zero_padding.
    + apply finite_padding_zero_padding.
  - intros j Hj Hjm Hpos. now apply float_sum_returns.
Qed.

Lemma sum_ignores_padding_witness :
  let m := Floating.mkTensor [2; 5]
             (map Floating.Fin [1; 1; 1; 0; 0; 1; 1; 1; 1; 1]%Z) in
  let b := Floating.mkBatch
             (Floating.mkTensor [2; 5]
                (map Floating.Fin [1; 2; 3; 77; -5; 1; 1; 1; 1; 1]%Z)) m [true] in
  let b' := Floating.mkBatch
              (Floating.mkTensor [2; 5]
                 (map Floating.Fin [1; 2; 3; 0; 0; 1; 1; 1; 1; 1]%Z)) m [true] in
  Floating.MaskedBatch_sum b' (Some 1%Z) false
  = Floating.MaskedBatch_sum b (Some 1%Z) false
  /\ Floating.MaskedBatch_sum b (Some 1%Z) false
     = Ok (Floating.mkBatch
             (Floating.mkTensor [2] [Floating.Fin 6; Floating.Fin 5])
             (Floating.mkTensor [2] [Floating.Fin 1; Floating.Fin 1]) []).
Proof.
  intros m b b'. split.
  - exact (proj1 (sum_ignores_padding b b' (Some 1%Z) false
                    eq_refl eq_refl eq_refl eq_refl eq_refl eq_refl)).
  - reflexivity.
Defined.

(** An infinity in a padding position is not erased by the multiplication
    by the mask: the product is NaN there, and so is the sum, which differs
    from the sum of the batch with its padding set to zero. *)
Lemma sum_keeps_infinite_padding :
  let m := Floating.mkTensor [2; 5]
             (map Floating.Fin [1; 1; 1; 0; 0; 1; 1; 1; 1; 1]%Z) in
  let b := Floating.mkBatch
             (Floating.mkTensor [2; 5]
                [Floating.Fin 1; Floating.Fin 2; Floating.Fin 3;
                 Floating.Inf false; Floating.Fin (-5);
                 Floating.Fin 1; Floating.Fin 1; Floating.Fin 1;
                 Floating.Fin 1; Floating.Fin 1]) m [true] in
  Floating.mask_fits b = true
  /\ Floating.MaskedBatch_sum b (Some 1%Z) false
     = Ok (Floating.mkBatch
             (Floating.mkTensor [2] [Floating.NaN; Floating.Fin 5])
             (Floating.mkTensor [2] [Floating.Fin 1; Floating.Fin 1]) [])
  /\ Floating.MaskedBatch_sum (Floating.zero_padding b) (Some 1%Z) false
     = Ok (Floating.mkBatch
             (Floating.mkTensor [2] [Floating.Fin 6; Floating.Fin 5])
             (Floating.mkTensor [2] [Floating.Fin 1; Floating.Fin 1]) [])
  /\ Floating.MaskedBatch_sum b (Some 1%Z) false
     <> Floating.MaskedBatch_sum (Floating.zero_padding b) (Some 1%Z) false.
Proof.
  intros m b. split; [reflexivity|]. split; [reflexivity|].
  split; [reflexivity|]. intros H. discriminate H.
Qed.

(** ** any and all *)

Lemma mul_float_one (x : Floating.float) :
  Floating.mul_float x (Floating.Fin 1) = x.
Proof.
  destruct x as [a|s|]; cbn; [now rewrite Z.mul_1_r| |reflexivity].
  now rewrite xorb_false_r.
Qed.

(** Under a mask of zeros and ones, with finite padding, an entry of
    [data * mask] is non-zero exactly at the valid positions that hold a
    non-zero value. *)
Lemma masked_entry_nonzero (b : Floating.MaskedBatch) (idx : list nat) :
  Floating.binary_mask b = true -> Floating.finite_padding b = true ->
  in_range (Floating.shape (Floating.data b)) idx = true ->
  negb (Floating.is_zero
          (Floating.mul_float (Floating.get (Floating.data b) idx)
                              (Floating.mask_at b idx)))
  = negb (Floating.is_padding b idx)
    && negb (Floating.is_zero (Floating.get (Floating.data b) idx)).
Proof.
  intros Hbin Hfin Hidx.
  pose proof (finite_padding_spec b idx Hfin Hidx) as Hpad.
  unfold Floating.binary_mask in Hbin. rewrite forallb_forall in Hbin.
  specialize (Hbin idx (in_range_indices _ _ Hidx)).
  unfold Floating.is_padding in *.
  apply orb_prop in Hbin. destruct Hbin as [H|H]; apply same_float_eq in H;
    rewrite H in *.
  - rewrite mul_float_zero by (auto; reflexivity). reflexivity.
  - rewrite mul_float_one. reflexivity.
Qed.

(** X9. On a batch whose mask of zeros and ones broadcasts to its data and
    whose padding holds finite values, [any] holds exactly when some valid
    position holds a non-zero value, so padding never satisfies it; [all]
    holds exactly when every position is valid and non-zero, so a single
    padding position makes it false. *)
Theorem any_all_masked (b : Floating.MaskedBatch) :
  Floating.mask_fits b = true ->
  Floating.binary_mask b = true -> Floating.finite_padding b = true ->
  exists va vl,
    Floating.any b = Ok va /\ Floating.all b = Ok vl
    /\ (va = true <->
        exists idx, in_range (Floating.shape (Floating.data b)) idx = true
                    /\ Floating.is_padding b idx = false
                    /\ Floating.is_zero (Floating.get (Floating.data b) idx)
                       = false)
    /\ (vl = true <->
        forall idx, in_range (Floating.shape (Floating.data b)) idx = true ->
                    Floating.is_padding b idx = false
                    /\ Floating.is_zero (Floating.get (Floating.data b) idx)
                       = false).
Proof.
  intros Hfit Hbin Hfin. unfold Floating.any, Floating.all.
  rewrite (float_mul_data_mask b Hfit). cbn [Py.bind].
  eexists. eexists. split; [reflexivity|]. split; [reflexivity|].
  unfold Floating.tensor_any, Floating.tensor_all.
  assert (Hentry : forall idx,
            in_range (Floating.shape (Floating.data b)) idx = true ->
            negb (Floating.is_zero
                    (Floating.get
                       (Floating.tabulate (Floating.shape (Floating.data b))
                          (fun idx => Floating.mul_float
                                        (Floating.get (Floating.data b) idx)
                                        (Floating.mask_at b idx))) idx))
            = negb (Floating.is_padding b idx)
              && negb (Floating.is_zero (Floating.get (Floating.data b) idx))).
  { intros idx Hr. rewrite float_get_tabulate by exact Hr.
    now apply masked_entry_nonzero. }
  cbn [Floating.shape Floating.tabulate] in *. split.
  - rewrite existsb_exists. split.
    + intros [idx [Hin Hnz]]. exists idx.
      pose proof (in_indices _ _ Hin) as Hr. split; [exact Hr|].
      rewrite (Hentry idx Hr) in Hnz. apply andb_prop in Hnz.
      destruct Hnz as [H1 H2]. now rewrite negb_true_iff in H1, H2.
    + intros [idx [Hr [Hm Hd]]]. exists idx.
      split; [now apply in_range_indices|].
      rewrite (Hentry idx Hr), Hm, Hd. reflexivity.
  - rewrite forallb_forall. split.
    + intros H idx Hr. specialize (H idx (in_range_indices _ _ Hr)).
      rewrite (Hentry idx Hr) in H. apply andb_prop in H.
      destruct H as [H1 H2]. now rewrite negb_true_iff in H1, H2.
    + intros H idx Hin. pose proof (in_indices _ _ Hin) as Hr.
      destruct (H idx Hr) as [Hm Hd].
      rewrite (Hentry idx Hr), Hm, Hd. reflexivity.
Qed.

Lemma any_all_masked_witness :
  let b := Floating.mkBatch
             (Floating.mkTensor [2; 3]
                (map Floating.Fin [0; 0; 9; 4; 5; 6]%Z))
             (Floating.mkTensor [2; 3]
                (map Floating.Fin [1; 1; 0; 0; 0; 0]%Z)) [true] in
  Floating.any b = Ok false /\ Floating.all b = Ok false.
Proof.
  intros b.
  destruct (any_all_masked b eq_refl eq_refl eq_refl)
    as [va [vl [Ha [Hl _]]]].
  split.
  - rewrite Ha. f_equal. injection Ha as <-. reflexivity.
  - rewrite Hl. f_equal. injection Hl as <-. reflexivity.
Defined.
